(** * Pacman gym wrappers (mdrc_pacbot_rl/pacman/gym.py)

    A shallow embedding of the environment wrappers: the shared base
    ([move_one_cell], [action_mask]) and the four observation/reward
    variants ([NaivePacmanGym], [SemanticChannelPacmanGym],
    [SemanticPacmanGym], [SelfAttentionPacmanGym]).

    Python values are embedded as follows.
    - [int] is [Z]; [float] is an IEEE-754 binary64 value ([spec_float]
      with [prec = 53], [emax = 1024]), so NaN, the infinities and the
      IEEE comparison are those of the interpreter.
    - A raised exception is the [Raise] branch of [result].
    - Lists and numpy arrays are lists, indexed the Python way
      (negative indices wrap, anything else out of range raises).
    - The game engine ([pacbot_rs.GameState]) is an opaque collaborator:
      its fields are a record and its tick function is a parameter. *)

From Stdlib Require Import ZArith Bool Lia Floats.SpecFloat.
From stdpp Require Import base option list gmap.

Open Scope Z_scope.

(** ** Exceptions *)

Inductive exn :=
  | IndexError
  | KeyError
  | UnboundLocalError
  | ValueError
  | ZeroDivisionError
  | OverflowError.

Inductive result (A : Type) :=
  | Ok (a : A)
  | Raise (e : exn).
Arguments Ok {A} a.
Arguments Raise {A} e.

#[global] Instance result_ret : MRet result := fun A a => Ok a.
#[global] Instance result_bind : MBind result := fun A B f m =>
  match m with
  | Ok a => f a
  | Raise e => Raise e
  end.

(** A method of an object with state [S]: it returns or raises, and in
    both cases leaves a state behind (an exception does not roll back
    the attribute writes made before it). *)
Definition M (S A : Type) : Type := S -> result A * S.

#[global] Instance M_ret {S} : MRet (M S) := fun A a s => (Ok a, s).
#[global] Instance M_bind {S} : MBind (M S) := fun A B f m s =>
  match m s with
  | (Ok a, s') => f a s'
  | (Raise e, s') => (Raise e, s')
  end.

Module St.

Definition get {S} : M S S := fun s => (Ok s, s).
Definition put {S} (s : S) : M S unit := fun _ => (Ok tt, s).
Definition lift {S A} (r : result A) : M S A := fun s => (r, s).

(** Run a method of the attribute [get s] of [s]. *)
Definition zoom {S T A} (get : S -> T) (set : S -> T -> S) (m : M T A)
  : M S A :=
  fun s => let '(r, t) := m (get s) in (r, set s t).

End St.

(** [for x in l: acc = f(acc, x)], stopping at the first exception. *)
Fixpoint foldM {A B} (f : B -> A -> result B) (l : list A) (b : B)
  : result B :=
  match l with
  | [] => Ok b
  | a :: l => match f b a with
              | Ok b' => foldM f l b'
              | Raise e => Raise e
              end
  end.

(** The same loop when the body is a method. *)
Fixpoint foldM_st {S A B} (f : B -> A -> M S B) (l : list A) (b : B)
  : M S B :=
  match l with
  | [] => mret b
  | a :: l => b' ← f b a; foldM_st f l b'
  end.

(** [list(enumerate(l))]. *)
Definition enumerate {A} (l : list A) : list (Z * A) :=
  zip (seqZ 0 (Z.of_nat (length l))) l.

(** ** Floats (binary64) *)

Module Float.

Definition prec : Z := 53.
Definition emax : Z := 1024.

Definition add := SFadd prec emax.
Definition sub := SFsub prec emax.
Definition mul := SFmul prec emax.
Definition div := SFdiv prec emax.
Definition eqb := SFeqb.

(** An integer as an exact, not yet rounded, float operand. *)
Definition exact (z : Z) : spec_float :=
  match z with
  | Z0 => S754_zero false
  | Zpos p => S754_finite false p 0
  | Zneg p => S754_finite true p 0
  end.

(** [float(z)]: the nearest double. *)
Definition of_int (z : Z) : spec_float := binary_normalize prec emax z 0 false.

Definition is_finite (x : spec_float) : bool :=
  match x with
  | S754_zero _ | S754_finite _ _ _ => true
  | S754_infinity _ | S754_nan => false
  end.

Definition is_zero (x : spec_float) : bool :=
  match x with
  | S754_zero _ => true
  | _ => false
  end.

Definition zero : spec_float := S754_zero false.
Definition one : spec_float := S754_finite false 4503599627370496 (-52).
Definition minus_one : spec_float := S754_finite true 4503599627370496 (-52).
Definition half : spec_float := S754_finite false 4503599627370496 (-53).
(** The literal [0.05]. *)
Definition lit_0_05 : spec_float := S754_finite false 7205759403792794 (-57).
Definition nan : spec_float := S754_nan.

(** [a / b] on two Python ints: the correctly rounded quotient. *)
Definition int_truediv (a b : Z) : result spec_float :=
  if b =? 0 then Raise ZeroDivisionError
  else
    let q := div (exact a) (exact b) in
    if is_finite q then Ok q else Raise OverflowError.

(** [x / y] on two Python floats. *)
Definition truediv (x y : spec_float) : result spec_float :=
  if is_zero y then Raise ZeroDivisionError else Ok (div x y).

End Float.

(** ** Python numbers: a reward is an [int] or a [float] *)

Inductive pynum :=
  | PyInt (z : Z)
  | PyFloat (x : spec_float).

Module Py.

(** [int == float], compared exactly as the interpreter does. *)
Definition int_eq_float (z : Z) (x : spec_float) : bool :=
  match x with
  | S754_zero _ => z =? 0
  | S754_finite s m e =>
      let v := if s then Zneg m else Zpos m in
      if 0 <=? e then z =? v * 2 ^ e else z * 2 ^ (- e) =? v
  | S754_infinity _ | S754_nan => false
  end.

(** [a == b] on numbers. *)
Definition eq (a b : pynum) : bool :=
  match a, b with
  | PyInt x, PyInt y => x =? y
  | PyFloat x, PyFloat y => Float.eqb x y
  | PyInt x, PyFloat y => int_eq_float x y
  | PyFloat x, PyInt y => int_eq_float y x
  end.

(** [float("Nan")]. *)
Definition float_Nan : pynum := PyFloat Float.nan.

Definition is_finite (a : pynum) : bool :=
  match a with
  | PyInt _ => true
  | PyFloat x => Float.is_finite x
  end.

(** [l[i]] on a list or on the first axis of an array. *)
Definition index {A} (l : list A) (i : Z) : result A :=
  let n := Z.of_nat (length l) in
  let j := if i <? 0 then i + n else i in
  if (0 <=? j) && (j <? n) then
    match l !! Z.to_nat j with
    | Some a => Ok a
    | None => Raise IndexError
    end
  else Raise IndexError.

(** [l[i] = v]. *)
Definition setitem {A} (l : list A) (i : Z) (v : A) : result (list A) :=
  let n := Z.of_nat (length l) in
  let j := if i <? 0 then i + n else i in
  if (0 <=? j) && (j <? n) then Ok (<[Z.to_nat j := v]> l)
  else Raise IndexError.

(** [a[i][j] = v] on a two-dimensional array. *)
Definition setitem2 {A} (a : list (list A)) (i j : Z) (v : A)
  : result (list (list A)) :=
  row ← index a i;
  row' ← setitem row j v;
  setitem a i row'.

(** [a[k][i][j] = v] on a three-dimensional array. *)
Definition setitem3 {A} (a : list (list (list A))) (k i j : Z) (v : A)
  : result (list (list (list A))) :=
  plane ← index a k;
  plane' ← setitem2 plane i j v;
  setitem a k plane'.

(** [x in (1, 5)]. *)
Definition in_1_5 (x : Z) : bool := (x =? 1) || (x =? 5).

End Py.

(** ** The external game state *)

Definition GRID_WIDTH : Z := 28.
Definition GRID_HEIGHT : Z := 31.

Definition pos : Type := Z * Z.

(** The fields and queries of [pacbot_rs.GameState] the wrappers read.
    [red_current] is [red.pos["current"]], [is_frightened], [state] and
    [frightened_counter] are the results of the methods of those names. *)
Record GameState := {
  grid : list (list Z);
  pacbot_pos : pos;
  red_current : pos;
  pink_current : pos;
  orange_current : pos;
  blue_current : pos;
  score : Z;
  play : bool;
  lives : Z;
  is_frightened : bool;
  state : Z;
  frightened_counter : Z
}.

(** [game_state.pacbot.update(p)]: the engine's position mutator. *)
Definition pacbot_update (gs : GameState) (p : pos) : GameState :=
  {| grid := grid gs; pacbot_pos := p;
     red_current := red_current gs; pink_current := pink_current gs;
     orange_current := orange_current gs; blue_current := blue_current gs;
     score := score gs; play := play gs; lives := lives gs;
     is_frightened := is_frightened gs; state := state gs;
     frightened_counter := frightened_counter gs |}.

(** The module [mdrc_pacbot_rl.pacman.variables]: fixed configuration
    constants, taken as a parameter. *)
Record variables := {
  ghost_score : Z;
  pellet_score : Z;
  cherry_score : Z;
  power_pellet_score : Z;
  starting_lives : Z;
  frightened_length : Z;
  var_c : Z;
  var_O : Z
}.

(** ** BasePacmanGym *)

Module Base.

Definition move_one_cell (action : Z) : M GameState unit :=
  gs ← St.get;
  let old_pos := pacbot_pos gs in
  let new_pos : option pos := None in
  let new_pos :=
    if action =? 0 then Some (old_pos.1, old_pos.2) else new_pos in
  let new_pos :=
    if action =? 1
    then Some (old_pos.1, Z.min (old_pos.2 + 1) (GRID_HEIGHT - 1))
    else new_pos in
  let new_pos :=
    if action =? 2 then Some (old_pos.1, Z.max (old_pos.2 - 1) 0)
    else new_pos in
  let new_pos :=
    if action =? 3 then Some (Z.max (old_pos.1 - 1) 0, old_pos.2)
    else new_pos in
  let new_pos :=
    if action =? 4
    then Some (Z.min (old_pos.1 + 1) (GRID_WIDTH - 1), old_pos.2)
    else new_pos in
  new_pos ← St.lift (match new_pos with
                     | Some p => Ok p
                     | None => Raise UnboundLocalError
                     end);
  col ← St.lift (Py.index (grid gs) new_pos.1);
  cell ← St.lift (Py.index col new_pos.2);
  if negb (Py.in_1_5 cell) then St.put (pacbot_update gs new_pos)
  else mret tt.

(** One guard of [action_mask]: [edge or grid[x][y] in (1, 5)], the
    right operand evaluated only when the left one is false. *)
Definition blocked (gs : GameState) (edge : bool) (x y : Z) : result bool :=
  if edge then Ok true
  else
    col ← Py.index (grid gs) x;
    cell ← Py.index col y;
    Ok (Py.in_1_5 cell).

Definition action_mask (gs : GameState) : result (list Z) :=
  let mask := [0; 0; 0; 0; 0] in
  let pos := pacbot_pos gs in
  b ← blocked gs (pos.2 =? GRID_HEIGHT - 1) pos.1 (pos.2 + 1);
  let mask := if b : bool then <[1%nat := 1]> mask else mask in
  b ← blocked gs (pos.2 =? 0) pos.1 (pos.2 - 1);
  let mask := if b : bool then <[2%nat := 1]> mask else mask in
  b ← blocked gs (pos.1 =? 0) (pos.1 - 1) pos.2;
  let mask := if b : bool then <[3%nat := 1]> mask else mask in
  b ← blocked gs (pos.1 =? GRID_WIDTH - 1) (pos.1 + 1) pos.2;
  let mask := if b : bool then <[4%nat := 1]> mask else mask in
  Ok mask.

(** [for _ in range(n): self.game_state.next_step()]. *)
Definition run_ticks (next_step : GameState -> GameState) (n : Z)
  : M GameState unit :=
  fun gs => (Ok tt, Nat.iter (Z.to_nat n) next_step gs).

(** [score()]. *)
Definition get_score (gs : GameState) : Z := score gs.

(** [(pos[0] - pac_pos[0]) ** 2 + (pos[1] - pac_pos[1]) ** 2]. *)
Definition dist_sqr (p pac_pos : pos) : Z :=
  (p.1 - pac_pos.1) ^ 2 + (p.2 - pac_pos.2) ^ 2.

(** The loop test of [get_pos_with_dist]: closer than [min_dist] or
    further than [max_dist]. *)
Definition off_band (p pac_pos : pos) (min_dist max_dist : Z) : bool :=
  (dist_sqr p pac_pos <? min_dist ^ 2) || (max_dist ^ 2 <? dist_sqr p pac_pos).

(** [get_pos_with_dist(pac_pos, min_dist, max_dist)]. The randomness is
    an argument: [draws] lists what the successive calls of
    [random.choice(self.valid_cells)] return. The result is the position
    returned and the draws not consumed, or [None] when the loop is
    still running after the last draw. *)
Fixpoint get_pos_with_dist (draws : list pos) (pac_pos : pos)
    (min_dist max_dist : Z) : option (pos * list pos) :=
  match draws with
  | [] => None
  | p :: draws =>
      if off_band p pac_pos min_dist max_dist
      then get_pos_with_dist draws pac_pos min_dist max_dist
      else Some (p, draws)
  end.

(** The four assignments to [red/pink/orange/blue.pos["current"]]. *)
Definition set_ghosts (gs : GameState) (red pink orange blue : pos)
  : GameState :=
  {| grid := grid gs; pacbot_pos := pacbot_pos gs;
     red_current := red; pink_current := pink;
     orange_current := orange; blue_current := blue;
     score := score gs; play := play gs; lives := lives gs;
     is_frightened := is_frightened gs; state := state gs;
     frightened_counter := frightened_counter gs |}.

(** The body of [if self.random_start:] in [reset]. The writes to
    [pos["next"]] touch no field the wrappers read and are left out. *)
Definition random_placement (draws : list pos) (gs : GameState)
  : option GameState :=
  match draws with
  | [] => None
  | pac_pos :: draws =>
      let gs := pacbot_update gs pac_pos in
      '(red, draws) ← get_pos_with_dist draws pac_pos 6 12;
      '(pink, draws) ← get_pos_with_dist draws pac_pos 6 12;
      '(orange, draws) ← get_pos_with_dist draws pac_pos 6 12;
      '(blue, draws) ← get_pos_with_dist draws pac_pos 6 12;
      Some (set_ghosts gs red pink orange blue)
  end.

(** [BasePacmanGym.reset], for a subclass with state [S] and method
    [create_obs]. [restart] and [unpause] are the engine's methods.
    [None]: the placement loop outlives the draws. *)
Definition reset {S O} (game_state : S -> GameState)
    (set_game_state : S -> GameState -> S) (set_last_score : S -> Z -> S)
    (create_obs : M S O) (restart unpause : GameState -> GameState)
    (random_start : bool) (draws : list pos) (self : S)
  : option (result O * S) :=
  let self := set_last_score self 0 in
  let gs := restart (game_state self) in
  gs ← (if random_start then random_placement draws gs else Some gs);
  Some (create_obs (set_game_state self (unpause gs))).

(** What follows the call [super().reset()] in a subclass. *)
Definition and_then {S A B} (r : option (result A * S)) (k : A -> M S B)
  : option (result B * S) :=
  match r with
  | None => None
  | Some (Ok a, s) => Some (k a s)
  | Some (Raise e, s) => Some (Raise e, s)
  end.

End Base.

(** ** numpy arrays *)

Module Np.

Definition array1 : Type := list spec_float.
Definition array2 : Type := list array1.
Definition array3 : Type := list array2.

(** int64 wrap-around of an integer array entry. *)
Definition wrap64 (z : Z) : Z := (z + 2 ^ 63) mod 2 ^ 64 - 2 ^ 63.

Definition map2d {A B} (f : A -> B) (a : list (list A)) : list (list B) :=
  map (map f) a.

Definition zip2d {A B C} (f : A -> B -> C) (a : list (list A))
    (b : list (list B)) : list (list C) :=
  zip_with (zip_with f) a b.

(** [np.zeros(a.shape)]. *)
Definition zeros2 {A} (a : list (list A)) : array2 :=
  map2d (fun _ => Float.zero) a.

(** [np.zeros([n] + list(a.shape))]. *)
Definition zeros3 {A} (n : nat) (a : list (list A)) : array3 :=
  replicate n (zeros2 a).

(** The shape of a two-dimensional array, row by row. *)
Definition shape2 {A} (a : list (list A)) : list nat := map length a.

Definition same_shape {A B} (a : list (list A)) (b : list (list B)) : bool :=
  bool_decide (shape2 a = shape2 b).

(** [np.stack(l)] and [np.concatenate(l, 0)] of planes: all of one
    shape, or [ValueError]. *)
Definition stack (l : list array2) : result array3 :=
  match l with
  | [] => Raise ValueError
  | a :: _ => if forallb (same_shape a) l then Ok l else Raise ValueError
  end.

(** [np.concatenate(l, 0)] of stacks of planes. *)
Definition concatenate (l : list array3) : result array3 := stack (concat l).

(** An integer array as float64 (the cast of a mixed [stack]). *)
Definition as_float (a : list (list Z)) : array2 := map2d Float.of_int a.

(** [a / c] on an integer array and an int: true division, entry by
    entry, with the IEEE result on a zero divisor. *)
Definition int_div_scalar (a : list (list Z)) (c : Z) : array2 :=
  map2d (fun z => Float.div (Float.of_int z) (Float.of_int c)) a.

(** [np.where(a == v, 1, 0)]. *)
Definition where_eq (a : list (list Z)) (v : Z) : list (list Z) :=
  map2d (fun z => if z =? v then 1 else 0) a.

(** [np.where(a > 0, 1, 0)]. *)
Definition where_pos (a : array2) : list (list Z) :=
  map2d (fun x => if SFltb Float.zero x then 1 else 0) a.

(** [a * k] and [a + b] on int64 arrays. *)
Definition int_scale (a : list (list Z)) (k : Z) : list (list Z) :=
  map2d (fun z => wrap64 (z * k)) a.
Definition int_add (a b : list (list Z)) : list (list Z) :=
  zip2d (fun x y => wrap64 (x + y)) a b.

(** [a.sum(0)] on a stack of int64 planes of the shape of [like]. *)
Definition int_sum0 {A} (like : list (list A)) (l : list (list (list Z)))
  : list (list Z) :=
  foldl int_add (map2d (fun _ => 0) like) l.

(** [a *= 0.5]. *)
Definition halve2 (a : array2) : array2 := map2d (fun x => Float.mul x Float.half) a.
Definition halve3 (a : array3) : array3 := map halve2 a.

End Np.

(** ** What [step] returns *)

(** The fourth slot of the tuple: [False] or [{}]. *)
Inductive pyflag := PyFalse | PyEmptyDict.

Record step_out (O : Type) := {
  out_obs : O;
  out_reward : pynum;
  out_done : bool;
  out_truncated : pyflag;
  (** [info["action_mask"]], when [info] has that key. *)
  out_action_mask : option (list Z)
}.
Arguments out_obs {O} _.
Arguments out_reward {O} _.
Arguments out_done {O} _.
Arguments out_truncated {O} _.
Arguments out_action_mask {O} _.

(** ** NaivePacmanGym (Variant A)

    Rendering is left out: [render_mode] is not ["human"]. *)

Module Naive.

Record env := {
  game_state : GameState;
  last_score : Z;
  ticks_per_step : Z
}.

Definition set_game_state (self : env) (gs : GameState) : env :=
  {| game_state := gs; last_score := last_score self;
     ticks_per_step := ticks_per_step self |}.

Definition set_last_score (self : env) (s : Z) : env :=
  {| game_state := game_state self; last_score := s;
     ticks_per_step := ticks_per_step self |}.

Definition on_game_state {A} (m : M GameState A) : M env A :=
  St.zoom game_state set_game_state m.

Section WithEngine.
Context (V : variables) (next_step : GameState -> GameState).

Definition create_obs : M env Np.array3 :=
  self ← St.get;
  let gs := game_state self in
  let fright := is_frightened gs in
  let grid := Np.int_div_scalar (grid gs) (var_c V) in
  let entities := Np.zeros2 grid in
  let entity_positions :=
    [pacbot_pos gs; red_current gs; blue_current gs; pink_current gs;
     orange_current gs] in
  entities ← St.lift
    (foldM (fun entities '(i, pos) =>
              Py.setitem2 entities pos.1 pos.2
                (Float.of_int (if fright && (0 <? i) then -1 else i + 1)))
           (reverse (enumerate entity_positions)) entities);
  St.lift (Np.stack [grid; entities]).

Definition step (action : Z) : M env (step_out Np.array3) :=
  _ ← on_game_state (Base.move_one_cell action);
  self ← St.get;
  _ ← on_game_state (Base.run_ticks next_step (ticks_per_step self));
  self ← St.get;
  let gs := game_state self in
  let done := negb (play gs) in
  reward ← St.lift
    (Float.int_truediv (score gs - last_score self) (ghost_score V));
  let reward := PyFloat reward in
  let reward := if done then PyInt 0 else reward in
  let reward := if Py.eq reward Py.float_Nan then PyInt 0 else reward in
  _ ← St.put (set_last_score self (score gs));
  action_mask ← St.lift (Base.action_mask gs);
  obs ← create_obs;
  mret {| out_obs := obs; out_reward := reward; out_done := done;
          out_truncated := PyFalse; out_action_mask := Some action_mask |}.

(** [reset]: the observation and [info["action_mask"]]. *)
Definition reset (restart unpause : GameState -> GameState)
    (random_start : bool) (draws : list pos) (self : env)
  : option (result (Np.array3 * list Z) * env) :=
  Base.and_then
    (Base.reset game_state set_game_state set_last_score create_obs
                restart unpause random_start draws self)
    (fun obs =>
       self ← St.get;
       action_mask ← St.lift (Base.action_mask (game_state self));
       mret (obs, action_mask)).

End WithEngine.

End Naive.

(** ** SemanticChannelPacmanGym (Variant B) *)

Module SemanticChannel.

Record env := {
  game_state : GameState;
  last_score : Z;
  ticks_per_step : Z;
  last_ghost_pos : list pos;
  last_action : Z;
  last_pos : pos
}.

Definition set_game_state (self : env) (gs : GameState) : env :=
  {| game_state := gs; last_score := last_score self;
     ticks_per_step := ticks_per_step self;
     last_ghost_pos := last_ghost_pos self;
     last_action := last_action self; last_pos := last_pos self |}.

Definition set_last_score (self : env) (s : Z) : env :=
  {| game_state := game_state self; last_score := s;
     ticks_per_step := ticks_per_step self;
     last_ghost_pos := last_ghost_pos self;
     last_action := last_action self; last_pos := last_pos self |}.

Definition set_last_ghost_pos (self : env) (l : list pos) : env :=
  {| game_state := game_state self; last_score := last_score self;
     ticks_per_step := ticks_per_step self;
     last_ghost_pos := l;
     last_action := last_action self; last_pos := last_pos self |}.

Definition set_last_action (self : env) (a : Z) : env :=
  {| game_state := game_state self; last_score := last_score self;
     ticks_per_step := ticks_per_step self;
     last_ghost_pos := last_ghost_pos self;
     last_action := a; last_pos := last_pos self |}.

Definition set_last_pos (self : env) (p : pos) : env :=
  {| game_state := game_state self; last_score := last_score self;
     ticks_per_step := ticks_per_step self;
     last_ghost_pos := last_ghost_pos self;
     last_action := last_action self; last_pos := p |}.

Definition on_game_state {A} (m : M GameState A) : M env A :=
  St.zoom game_state set_game_state m.

(** [1 if last_action == action or last_action == 0 else 2]. *)
Definition tick_mult (last_action action : Z) : Z :=
  if (last_action =? action) || (last_action =? 0) then 1 else 2.

(** [[red, pink, orange, blue]], each [.pos["current"]]. *)
Definition ghost_positions (gs : GameState) : list pos :=
  [red_current gs; pink_current gs; orange_current gs; blue_current gs].

(** [any(old != new for old, new in zip(a, b))]. *)
Definition pos_changed (a b : list pos) : bool :=
  existsb (fun '(old, new) => bool_decide (old <> new)) (zip a b).

Section WithEngine.
Context (V : variables) (next_step : GameState -> GameState).

(** The tick loop: [n] times [next_step()], left at the first tick
    after which the game is not playing. *)
Fixpoint ticks_until_stop (n : nat) (gs : GameState) : GameState :=
  match n with
  | O => gs
  | S n =>
      let gs := next_step gs in
      if play gs then ticks_until_stop n gs else gs
  end.

Definition run_ticks (n : Z) : M GameState unit :=
  fun gs => (Ok tt, ticks_until_stop (Z.to_nat n) gs).

Definition create_obs : M env Np.array3 :=
  self ← St.get;
  let gs := game_state self in
  let grid := grid gs in
  let wall :=
    Np.map2d (fun z => if (z =? 1) || (z =? 5) then 1 else 0) grid in
  let fright := is_frightened gs in
  let entity_positions := ghost_positions gs in
  let ghost := Np.zeros3 4 grid in
  let state_ := Np.zeros3 3 grid in
  '(ghost, state_) ← St.lift
    (foldM (fun '(ghost, state_) '(i, pos) =>
              ghost ← Py.setitem3 ghost i pos.1 pos.2 Float.one;
              v ← (if negb (i =? 3) then Ok Float.one
                   else Float.int_truediv (frightened_counter gs)
                                          (frightened_length V));
              state_ ← Py.setitem3 state_ (state gs - 1) pos.1 pos.2 v;
              Ok (ghost, state_))
           (enumerate entity_positions) (ghost, state_));
  let last_ghost := Np.zeros3 4 grid in
  last_ghost ← St.lift
    (foldM (fun last_ghost '(i, pos) =>
              Py.setitem3 last_ghost i pos.1 pos.2 Float.one)
           (enumerate (last_ghost_pos self)) last_ghost);
  let fright_ghost :=
    Np.int_scale (Np.int_sum0 grid (map Np.where_pos ghost))
                 (if fright then 1 else 0) in
  let reward :=
    Np.int_div_scalar
      (Np.int_add
         (Np.int_add
            (Np.int_add
               (Np.int_scale (Np.where_eq grid 2) (pellet_score V))
               (Np.int_scale (Np.where_eq grid 6) (cherry_score V)))
            (Np.int_scale (Np.where_eq grid 4) (power_pellet_score V)))
         (Np.int_scale fright_ghost (ghost_score V)))
      (ghost_score V) in
  let pac_pos := pacbot_pos gs in
  let pacman := Np.zeros3 2 grid in
  pacman ← St.lift
    (Py.setitem3 pacman 0 (last_pos self).1 (last_pos self).2 Float.one);
  pacman ← St.lift (Py.setitem3 pacman 1 pac_pos.1 pac_pos.2 Float.one);
  St.lift (front ← Np.stack [Np.as_float wall; reward];
           Np.concatenate [front; pacman; ghost; last_ghost; state_]).

Definition step (action : Z) : M env (step_out Np.array3) :=
  self ← St.get;
  _ ← St.put (set_last_pos self (pacbot_pos (game_state self)));
  _ ← on_game_state (Base.move_one_cell action);
  self ← St.get;
  let entity_positions := ghost_positions (game_state self) in
  let tick_mult := tick_mult (last_action self) action in
  _ ← on_game_state (run_ticks (ticks_per_step self * tick_mult));
  self ← St.get;
  let self := set_last_action self action in
  let gs := game_state self in
  let new_entity_positions := ghost_positions gs in
  let self :=
    if pos_changed entity_positions new_entity_positions
    then set_last_ghost_pos self entity_positions else self in
  _ ← St.put self;
  let done := negb (play gs) in
  reward ← St.lift
    (Float.int_truediv (score gs - last_score self) (ghost_score V));
  let reward :=
    if tick_mult =? 2 then Float.sub reward Float.lit_0_05 else reward in
  let reward := PyFloat reward in
  let reward := if done && (lives gs <? 3) then PyInt 0 else reward in
  _ ← St.put (set_last_score self (score gs));
  obs ← create_obs;
  action_mask ← St.lift (Base.action_mask gs);
  mret {| out_obs := obs; out_reward := reward; out_done := done;
          out_truncated := PyEmptyDict;
          out_action_mask := Some action_mask |}.

Definition reset (restart unpause : GameState -> GameState)
    (random_start : bool) (draws : list pos) (self : env)
  : option (result (Np.array3 * list Z) * env) :=
  Base.and_then
    (Base.reset game_state set_game_state set_last_score create_obs
                restart unpause random_start draws self)
    (fun _ =>
       self ← St.get;
       let entity_positions := ghost_positions (game_state self) in
       let self := set_last_ghost_pos self entity_positions in
       let self := set_last_action self 0 in
       _ ← St.put self;
       action_mask ← St.lift (Base.action_mask (game_state self));
       _ ← St.put (set_last_pos self (pacbot_pos (game_state self)));
       obs ← create_obs;
       mret (obs, action_mask)).

End WithEngine.

End SemanticChannel.

(** ** SemanticPacmanGym (Variant C)

    The precomputed navigation tables loaded at import time
    ([node_coords.json], [node_embeddings.npy],
    [action_distributions.npy]) are parameters. *)

Module Semantic.

Record env := {
  game_state : GameState;
  last_score : Z;
  ticks_per_step : Z;
  last_ghost_pos : list pos
}.

Definition set_game_state (self : env) (gs : GameState) : env :=
  {| game_state := gs; last_score := last_score self;
     ticks_per_step := ticks_per_step self;
     last_ghost_pos := last_ghost_pos self |}.

Definition set_last_score (self : env) (s : Z) : env :=
  {| game_state := game_state self; last_score := s;
     ticks_per_step := ticks_per_step self;
     last_ghost_pos := last_ghost_pos self |}.

Definition set_last_ghost_pos (self : env) (l : list pos) : env :=
  {| game_state := game_state self; last_score := last_score self;
     ticks_per_step := ticks_per_step self;
     last_ghost_pos := l |}.

Definition on_game_state {A} (m : M GameState A) : M env A :=
  St.zoom game_state set_game_state m.

(** [min(l, key=key)] on a non-empty list: the first minimal element. *)
Definition min_by {A} (key : A -> Z) (a : A) (l : list A) : A :=
  foldl (fun best x => if key x <? key best then x else best) a l.

Section WithTables.
Context (V : variables) (next_step : GameState -> GameState).
Context (node_to_coords : list pos).
Context (node_embeddings : Np.array2).
Context (action_distributions : Np.array3).

(** [{coords: i for i, coords in enumerate(node_to_coords)}]. *)
Definition coords_to_node : gmap pos Z :=
  foldl (fun m '(i, coords) => <[coords := i]> m) ∅
        (enumerate node_to_coords).

(** [node_embeddings.shape[1]]. *)
Definition embed_dim : nat := length (default [] (head node_embeddings)).

(** [(action_distributions != 0).max(axis=1)]. *)
Definition valid_actions : list (list bool) :=
  map (fun plane =>
         match Np.map2d (fun x => negb (Float.eqb x Float.zero)) plane with
         | [] => []
         | row :: rows => foldl (zip_with orb) row rows
         end)
      action_distributions.

(** [coords_to_node[p]]. *)
Definition node_of (p : pos) : result Z :=
  match coords_to_node !! p with
  | Some i => Ok i
  | None => Raise KeyError
  end.

(** [acc += node_embeddings[coords_to_node[p]]]. *)
Definition add_embedding (acc : Np.array1) (p : pos) : result Np.array1 :=
  i ← node_of p;
  row ← Py.index node_embeddings i;
  Ok (zip_with Float.add acc row).

Definition create_obs : M env Np.array1 :=
  self ← St.get;
  let gs := game_state self in
  pacman_node_index ← St.lift (node_of (pacbot_pos gs));
  pacman_pos_embed ← St.lift (Py.index node_embeddings pacman_node_index);
  let ghosts :=
    [red_current gs; pink_current gs; orange_current gs; blue_current gs] in
  let ghost_embed := replicate embed_dim Float.zero in
  ghost_embed ← St.lift
    (foldM (fun acc p =>
              if bool_decide (is_Some (coords_to_node !! p))
              then add_embedding acc p else Ok acc)
           ghosts ghost_embed);
  let dist_to_pacman (p : pos) : Z :=
    Z.abs ((pacbot_pos gs).1 - p.1) + Z.abs ((pacbot_pos gs).2 - p.2) in
  let ghost_positions :=
    filter (fun p => is_Some (coords_to_node !! p)) ghosts in
  closest_ghost_dir ← St.lift
    (match ghost_positions with
     | p :: ps =>
         let closest_ghost_pos := min_by dist_to_pacman p ps in
         j ← node_of closest_ghost_pos;
         plane ← Py.index action_distributions pacman_node_index;
         Py.index plane j
     | [] => Ok (replicate 5 Float.zero)
     end);
  let super_pellet_locs := [(1, 7); (1, 27); (26, 7); (26, 27)] in
  let pellet_embed := replicate embed_dim Float.zero in
  pellet_embed ← St.lift
    (foldM (fun acc p =>
              col ← Py.index (grid gs) p.1;
              cell ← Py.index col p.2;
              if cell =? var_O V then add_embedding acc p else Ok acc)
           super_pellet_locs pellet_embed);
  let extra_info :=
    [Float.of_int (if is_frightened gs then 1 else 0);
     Float.of_int pacman_node_index] in
  valid ← St.lift (Py.index valid_actions pacman_node_index);
  mret (pacman_pos_embed ++ ghost_embed ++ pellet_embed
          ++ closest_ghost_dir
          ++ map (fun b : bool => if b then Float.one else Float.zero) valid
          ++ extra_info).

Definition step (action : Z) : M env (step_out Np.array1) :=
  _ ← on_game_state (Base.move_one_cell action);
  self ← St.get;
  let entity_positions :=
    SemanticChannel.ghost_positions (game_state self) in
  _ ← on_game_state (Base.run_ticks next_step (ticks_per_step self));
  self ← St.get;
  let gs := game_state self in
  let new_entity_positions := SemanticChannel.ghost_positions gs in
  let self :=
    if SemanticChannel.pos_changed entity_positions new_entity_positions
    then set_last_ghost_pos self entity_positions else self in
  _ ← St.put self;
  let done := negb (play gs) in
  let reward := score gs - last_score self in
  let reward := if done then -100 else reward in
  let reward :=
    if Py.eq (PyInt reward) Py.float_Nan then 0 else reward in
  reward ← St.lift (Float.int_truediv reward 200);
  _ ← St.put (set_last_score self (score gs));
  obs ← create_obs;
  mret {| out_obs := obs; out_reward := PyFloat reward; out_done := done;
          out_truncated := PyEmptyDict; out_action_mask := None |}.

Definition reset (restart unpause : GameState -> GameState)
    (random_start : bool) (draws : list pos) (self : env)
  : option (result Np.array1 * env) :=
  Base.and_then
    (Base.reset game_state set_game_state set_last_score create_obs
                restart unpause random_start draws self)
    (fun obs =>
       self ← St.get;
       let entity_positions :=
         SemanticChannel.ghost_positions (game_state self) in
       _ ← St.put (set_last_ghost_pos self entity_positions);
       mret obs).

End WithTables.

End Semantic.

(** ** SelfAttentionPacmanGym (Variant D)

    The logarithm is the library's: [math_log z] is what [math.log]
    returns on a positive int [z], [np_log x] what [np.log] gives on
    an array entry [x]. *)

Module SelfAttention.

Record env := {
  game_state : GameState;
  last_score : Z;
  ticks_per_step : Z;
  entities : Np.array3;
  pacman : Np.array2
}.

Definition set_game_state (self : env) (gs : GameState) : env :=
  {| game_state := gs; last_score := last_score self;
     ticks_per_step := ticks_per_step self;
     entities := entities self; pacman := pacman self |}.

Definition set_last_score (self : env) (s : Z) : env :=
  {| game_state := game_state self; last_score := s;
     ticks_per_step := ticks_per_step self;
     entities := entities self; pacman := pacman self |}.

Definition set_entities (self : env) (a : Np.array3) : env :=
  {| game_state := game_state self; last_score := last_score self;
     ticks_per_step := ticks_per_step self;
     entities := a; pacman := pacman self |}.

Definition set_pacman (self : env) (a : Np.array2) : env :=
  {| game_state := game_state self; last_score := last_score self;
     ticks_per_step := ticks_per_step self;
     entities := entities self; pacman := a |}.

Definition on_game_state {A} (m : M GameState A) : M env A :=
  St.zoom game_state set_game_state m.

Section WithEngine.
Context (V : variables) (next_step : GameState -> GameState).
Context (math_log : Z -> spec_float) (np_log : spec_float -> spec_float).

(** [math.log(z)] on an int: a domain error unless [z] is positive. *)
Definition log_int (z : Z) : result spec_float :=
  if z <=? 0 then Raise ValueError else Ok (math_log z).

(** The distance channel:
    [(1 - (abs(x - px) + abs(y - py)) / (GRID_WIDTH + GRID_HEIGHT)) ** 2]
    at every cell [(x, y)]. *)
Definition dist_map (pac_pos : pos) : Np.array2 :=
  map (fun x =>
         map (fun y =>
                let d :=
                  Float.div
                    (Float.of_int
                       (Z.abs (x - pac_pos.1) + Z.abs (y - pac_pos.2)))
                    (Float.of_int (GRID_WIDTH + GRID_HEIGHT)) in
                let r := Float.sub Float.one d in
                Float.mul r r)
             (seqZ 0 GRID_HEIGHT))
      (seqZ 0 GRID_WIDTH).

Definition create_obs : M env Np.array3 :=
  self ← St.get;
  let gs := game_state self in
  let grid := grid gs in
  let entity_positions :=
    [red_current gs; pink_current gs; orange_current gs; blue_current gs] in
  let ghost := Np.zeros2 grid in
  ghost ← St.lift
    (foldM (fun ghost pos => Py.setitem2 ghost pos.1 pos.2 Float.one)
           entity_positions ghost);
  let fright := is_frightened gs in
  let fright_ghost :=
    Np.int_scale (Np.where_pos ghost) (if fright then 1 else 0) in
  let items :=
    Np.int_add
      (Np.int_add
         (Np.int_add
            (Np.map2d (fun z => Np.wrap64 (1 + z))
               (Np.int_scale (Np.where_eq grid 2) (pellet_score V)))
            (Np.int_scale (Np.where_eq grid 6) (cherry_score V)))
         (Np.int_scale (Np.where_eq grid 4) (power_pellet_score V)))
      (Np.int_scale fright_ghost (ghost_score V)) in
  log_ghost ← St.lift (log_int (ghost_score V));
  let reward :=
    Np.map2d (fun z => Float.div (np_log (Float.of_int z)) log_ghost)
             items in
  _ ← St.put (set_entities self (Np.halve3 (entities self)));
  let entity_positions :=
    [red_current gs; blue_current gs; pink_current gs; orange_current gs] in
  let state_ := Np.zeros3 3 grid in
  state_ ← foldM_st
    (fun state_ '(i, pos) =>
       self ← St.get;
       e ← St.lift (Py.setitem3 (entities self) i pos.1 pos.2 Float.one);
       _ ← St.put (set_entities self e);
       St.lift (Py.setitem3 state_ (state gs - 1) pos.1 pos.2 Float.one))
    (enumerate entity_positions) state_;
  let pac_pos := pacbot_pos gs in
  self ← St.get;
  _ ← St.put (set_pacman self (Np.halve2 (pacman self)));
  self ← St.get;
  p ← St.lift (Py.setitem2 (pacman self) pac_pos.1 pac_pos.2 Float.one);
  _ ← St.put (set_pacman self p);
  let dist := dist_map pac_pos in
  self ← St.get;
  St.lift (front ← Np.stack [pacman self; reward; dist];
           inner ← Np.concatenate [front; entities self];
           Np.concatenate [inner; state_]).

Definition step (action : Z) : M env (step_out Np.array3) :=
  _ ← on_game_state (Base.move_one_cell action);
  self ← St.get;
  _ ← on_game_state (Base.run_ticks next_step (ticks_per_step self));
  self ← St.get;
  let gs := game_state self in
  let done := negb (play gs) in
  num ← St.lift (log_int (1 + score gs - last_score self));
  den ← St.lift (log_int (ghost_score V));
  reward ← St.lift (Float.truediv num den);
  let reward := PyFloat reward in
  let reward :=
    if lives gs <? starting_lives V then PyFloat Float.minus_one
    else reward in
  let reward := if Py.eq reward Py.float_Nan then PyInt 0 else reward in
  _ ← St.put (set_last_score self (score gs));
  action_mask ← St.lift (Base.action_mask gs);
  obs ← create_obs;
  mret {| out_obs := obs; out_reward := reward; out_done := done;
          out_truncated := PyFalse; out_action_mask := Some action_mask |}.

(** The part of [reset] that comes before [super().reset()]: fresh
    trail maps, marked at the cells the ghosts stand on at that time. *)
Definition clear_trails : M env unit :=
  self ← St.get;
  let grid := grid (game_state self) in
  let self := set_pacman self (Np.zeros2 grid) in
  let self := set_entities self (Np.zeros3 4 grid) in
  _ ← St.put self;
  let gs := game_state self in
  let entity_positions :=
    [red_current gs; blue_current gs; pink_current gs; orange_current gs] in
  foldM_st
    (fun (_ : unit) '(i, pos) =>
       self ← St.get;
       e ← St.lift (Py.setitem3 (entities self) i pos.1 pos.2 Float.one);
       St.put (set_entities self e))
    (enumerate entity_positions) tt.

Definition reset (restart unpause : GameState -> GameState)
    (random_start : bool) (draws : list pos) (self : env)
  : option (result (Np.array3 * list Z) * env) :=
  match clear_trails self with
  | (Raise e, self) => Some (Raise e, self)
  | (Ok _, self) =>
      Base.and_then
        (Base.reset game_state set_game_state set_last_score create_obs
                    restart unpause random_start draws self)
        (fun obs =>
           self ← St.get;
           action_mask ← St.lift (Base.action_mask (game_state self));
           mret (obs, action_mask))
  end.

End WithEngine.

End SelfAttention.

(** ** Well-formedness of states, and the reference mappings

    The conditions under which the wrappers index the grid and the
    arrays in range, as boolean checks. *)

Definition in_grid (p : pos) : bool :=
  (0 <=? p.1) && (p.1 <? GRID_WIDTH) && (0 <=? p.2) && (p.2 <? GRID_HEIGHT).

(** The shape of a plane over the grid: 28 columns of 31 cells. *)
Definition grid_shape : list nat := replicate 28 31%nat.

Definition plane_wf {A} (a : list (list A)) : bool :=
  bool_decide (Np.shape2 a = grid_shape).

Definition planes_wf {A} (n : nat) (a : list (list (list A))) : bool :=
  bool_decide (length a = n) && forallb plane_wf a.

(** A game state whose grid is 28 by 31 and whose five entities stand
    inside it. *)
Definition gs_wf (gs : GameState) : bool :=
  plane_wf (grid gs) && in_grid (pacbot_pos gs)
  && in_grid (red_current gs) && in_grid (pink_current gs)
  && in_grid (orange_current gs) && in_grid (blue_current gs).

(** The behaviour phase is one of the three the engine has. *)
Definition phase_wf (gs : GameState) : bool :=
  (1 <=? state gs) && (state gs <=? 3).

(** The cell code at [p], when [p] is on the grid. *)
Definition cell_at (g : list (list Z)) (p : pos) : option Z :=
  if in_grid p then
    match g !! Z.to_nat p.1 with
    | Some col => col !! Z.to_nat p.2
    | None => None
    end
  else None.

(** The cell next to [p] in direction [action], before any clamping:
    1 is +y, 2 is -y, 3 is -x, 4 is +x. *)
Definition neighbour (action : Z) (p : pos) : pos :=
  match action with
  | 1 => (p.1, p.2 + 1)
  | 2 => (p.1, p.2 - 1)
  | 3 => (p.1 - 1, p.2)
  | 4 => (p.1 + 1, p.2)
  | _ => p
  end.

Definition clamp (lo hi x : Z) : Z := Z.max lo (Z.min hi x).

(** The target cell of a move: the neighbour, clamped to the grid. *)
Definition target (action : Z) (p : pos) : pos :=
  let q := neighbour action p in
  (clamp 0 (GRID_WIDTH - 1) q.1, clamp 0 (GRID_HEIGHT - 1) q.2).

(** Wall (1) or ghost-house door (5). *)
Definition is_barrier (c : option Z) : bool :=
  match c with
  | Some c => Py.in_1_5 c
  | None => false
  end.

(** Direction [action] is blocked at [p]: the neighbour is off the grid
    or is a wall or door cell. *)
Definition blocked_dir (g : list (list Z)) (p : pos) (action : Z) : bool :=
  negb (in_grid (neighbour action p)) || is_barrier (cell_at g (neighbour action p)).

Definition bit (b : bool) : Z := if b then 1 else 0.

(** Entry [(i, j)] of plane [k] of an observation. *)
Definition at2 {A} (a : list (list A)) (i j : Z) : option A :=
  match a !! Z.to_nat i with
  | Some row => row !! Z.to_nat j
  | None => None
  end.

Definition at3 {A} (a : list (list (list A))) (k : nat) (i j : Z) : option A :=
  match a !! k with
  | Some plane => at2 plane i j
  | None => None
  end.

(** How many ticks the loop of Variant B runs out of a budget of [n]. *)
Fixpoint ticks_taken (next_step : GameState -> GameState) (n : nat)
    (gs : GameState) : nat :=
  match n with
  | O => O
  | S n =>
      let gs := next_step gs in
      if play gs then S (ticks_taken next_step n gs) else 1%nat
  end.

(** The game keeps playing after each of the first [n] ticks. *)
Fixpoint plays_through (next_step : GameState -> GameState) (n : nat)
    (gs : GameState) : bool :=
  match n with
  | O => true
  | S n => let gs := next_step gs in play gs && plays_through next_step n gs
  end.

Definition is_ok {A} (r : result A) : bool :=
  match r with
  | Ok _ => true
  | Raise _ => false
  end.

(** The body of [move_one_cell] once [new_pos] is bound. *)
Definition move_to (gs : GameState) (new_pos : pos) : result unit * GameState :=
  (col ← St.lift (Py.index (grid gs) new_pos.1);
   cell ← St.lift (Py.index col new_pos.2);
   if negb (Py.in_1_5 cell) then St.put (pacbot_update gs new_pos)
   else mret tt) gs.

(** [n] planes over the grid. *)
Definition planes {A} (n : nat) (a : list (list (list A))) : Prop :=
  length a = n /\ Forall (fun p => Np.shape2 p = grid_shape) a.

(** The remembered ghost cells: at most one per ghost plane, on the grid. *)
Definition ghost_list_wf (l : list pos) : bool :=
  (Z.of_nat (length l) <=? 4) && forallb in_grid l.

(** Entry [(i, j)] of plane [k] of what [create_obs] returned. *)
Definition obs_at (r : result Np.array3) (k : nat) (i j : Z) : option spec_float :=
  match r with
  | Ok o => at3 o k i j
  | Raise _ => None
  end.

(** The code Variant A shows for cell [q] in its entity channel: that
    of the first entity standing on [q] in the order Pacman, red, blue,
    pink, orange, where Pacman is 1 and ghost number [i] is [i + 1], or
    -1 while the ghosts are frightened; 0 on a cell with no entity. *)
Definition entity_code (gs : GameState) (q : pos) : Z :=
  let ghost (i : Z) := if is_frightened gs then -1 else i + 1 in
  if bool_decide (q = pacbot_pos gs) then 1
  else if bool_decide (q = red_current gs) then ghost 1
  else if bool_decide (q = blue_current gs) then ghost 2
  else if bool_decide (q = pink_current gs) then ghost 3
  else if bool_decide (q = orange_current gs) then ghost 4
  else 0.

(** A binary channel entry. *)
Definition mark (b : bool) : spec_float := if b then Float.one else Float.zero.

(** The navigation tables fit together: one embedding row per node,
    all rows as long as the first, and a direction table of one plane
    per node, one row per node in each plane, five entries per row. *)
Definition tables_wf (coords : list pos) (emb : Np.array2) (dist : Np.array3)
  : bool :=
  let n := length coords in
  bool_decide (length emb = n)
  && forallb (fun row => bool_decide (length row = Semantic.embed_dim emb)) emb
  && bool_decide (length dist = n)
  && forallb (fun plane =>
                bool_decide (length plane = n)
                && forallb (fun row => bool_decide (length row = 5%nat)) plane)
             dist.

(** The four power-pellet cells Variant C looks at. *)
Definition super_pellet_locs : list pos := [(1, 7); (1, 27); (26, 7); (26, 27)].

(** Pacman and the four power-pellet cells are nodes. *)
Definition on_nodes (coords : list pos) (gs : GameState) : bool :=
  bool_decide (pacbot_pos gs ∈ coords)
  && forallb (fun p => bool_decide (p ∈ coords)) super_pellet_locs.

(** ** Sample data *)

Module Demo.

(** Pellets everywhere, one wall at (5, 6). *)
Definition demo_grid : list (list Z) :=
  <[5%nat := <[6%nat := 1]> (replicate 31 2)]> (replicate 28 (replicate 31 2)).

Definition demo_state : GameState :=
  {| grid := demo_grid; pacbot_pos := (5, 5);
     red_current := (1, 1); pink_current := (5, 5);
     orange_current := (3, 3); blue_current := (4, 4);
     score := 0; play := true; lives := 3;
     is_frightened := true; state := 1; frightened_counter := 0 |}.

Definition set_score (gs : GameState) (s : Z) : GameState :=
  {| grid := grid gs; pacbot_pos := pacbot_pos gs;
     red_current := red_current gs; pink_current := pink_current gs;
     orange_current := orange_current gs; blue_current := blue_current gs;
     score := s; play := play gs; lives := lives gs;
     is_frightened := is_frightened gs; state := state gs;
     frightened_counter := frightened_counter gs |}.

Definition set_play_lives (gs : GameState) (p : bool) (l : Z) : GameState :=
  {| grid := grid gs; pacbot_pos := pacbot_pos gs;
     red_current := red_current gs; pink_current := pink_current gs;
     orange_current := orange_current gs; blue_current := blue_current gs;
     score := score gs; play := p; lives := l;
     is_frightened := is_frightened gs; state := state gs;
     frightened_counter := frightened_counter gs |}.

Definition demo_variables : variables :=
  {| ghost_score := 200; pellet_score := 10; cherry_score := 100;
     power_pellet_score := 50; starting_lives := 3;
     frightened_length := 40; var_c := 6; var_O := 4 |}.

(** An engine that adds 25 points per tick and changes nothing else. *)
Definition scoring_engine (gs : GameState) : GameState :=
  set_score gs (score gs + 25).

(** An engine that ends the game on a lost life at every tick. *)
Definition fatal_engine (gs : GameState) : GameState :=
  set_play_lives (set_score gs (score gs + 25)) false (lives gs - 1).

(** An engine that leaves the state as it is. *)
Definition idle_engine (gs : GameState) : GameState := gs.

(** Stand-ins for the library logarithms. *)
Definition demo_math_log (z : Z) : spec_float := Float.of_int (Z.log2 z).
Definition demo_np_log (x : spec_float) : spec_float := x.

Definition naive_env : Naive.env :=
  {| Naive.game_state := demo_state; Naive.last_score := 0;
     Naive.ticks_per_step := 8 |}.

(** Variant B right after a reset: the last action is 0. *)
Definition channel_env : SemanticChannel.env :=
  {| SemanticChannel.game_state := demo_state;
     SemanticChannel.last_score := 0;
     SemanticChannel.ticks_per_step := 8;
     SemanticChannel.last_ghost_pos :=
       SemanticChannel.ghost_positions demo_state;
     SemanticChannel.last_action := 0;
     SemanticChannel.last_pos := (5, 5) |}.

(** Variant B after a step to the left. *)
Definition channel_env_left : SemanticChannel.env :=
  SemanticChannel.set_last_action channel_env 3.

Definition attention_env : SelfAttention.env :=
  {| SelfAttention.game_state := demo_state;
     SelfAttention.last_score := 0;
     SelfAttention.ticks_per_step := 8;
     SelfAttention.entities := Np.zeros3 4 demo_grid;
     SelfAttention.pacman := Np.zeros2 demo_grid |}.

(** Variant D one life down, the game still running. *)
Definition attention_env_hurt : SelfAttention.env :=
  SelfAttention.set_game_state attention_env
    (set_play_lives demo_state true 2).

(** Variant D with Pacman on (6, 5) and the stored trail as an
    observation taken on (5, 5) left it. *)
Definition attention_env_trail : SelfAttention.env :=
  {| SelfAttention.game_state := pacbot_update demo_state (6, 5);
     SelfAttention.last_score := 0;
     SelfAttention.ticks_per_step := 8;
     SelfAttention.entities := Np.zeros3 4 demo_grid;
     SelfAttention.pacman :=
       <[5%nat := <[5%nat := Float.one]> (replicate 31 Float.zero)]>
         (Np.zeros2 demo_grid) |}.

(** Variant D whose last-seen score is above the engine's score. *)
Definition attention_env_behind : SelfAttention.env :=
  SelfAttention.set_last_score attention_env 1.

Definition semantic_env : Semantic.env :=
  {| Semantic.game_state := demo_state; Semantic.last_score := 0;
     Semantic.ticks_per_step := 8; Semantic.last_ghost_pos := [] |}.

Definition demo_node_to_coords : list pos :=
  [(5, 5); (6, 5); (1, 1); (1, 7); (1, 27); (26, 7); (26, 27)].
Definition demo_node_embeddings : Np.array2 :=
  map (fun i => [Float.of_int i; Float.of_int (2 * i)]) (seqZ 0 7).
Definition demo_action_distributions : Np.array3 :=
  replicate 7
    (replicate 7 [Float.zero; Float.one; Float.zero; Float.zero; Float.half]).

(** A restart that puts the red ghost on (2, 2) and resets the score. *)
Definition moving_restart (gs : GameState) : GameState :=
  Base.set_ghosts (set_score gs 0) (2, 2) (pink_current gs)
    (orange_current gs) (blue_current gs).

End Demo.

(** * Facts *)

(** Case analysis on every result a method goes through. *)
Ltac case_results :=
  repeat match goal with
         | |- context [match ?r with Ok _ => _ | Raise _ => _ end] =>
             destruct r
         | |- context [let '(_, _) := ?p in _] => destruct p
         end.

(** ** Indexing *)


Lemma index_in_range {A} (l : list A) (i : Z) :
  0 <= i < Z.of_nat (length l) ->
  exists x, l !! Z.to_nat i = Some x /\ Py.index l i = Ok x.
Proof.
  intros Hi. unfold Py.index.
  destruct (lookup_lt_is_Some_2 l (Z.to_nat i)) as [x Hx]; [lia|].
  exists x. split; [exact Hx|].
  replace (i <? 0) with false by lia.
  replace ((0 <=? i) && (i <? Z.of_nat (length l))) with true by lia.
  now rewrite Hx.
Qed.

Lemma index_lookup {A} (l : list A) (i : Z) x :
  0 <= i -> l !! Z.to_nat i = Some x -> Py.index l i = Ok x.
Proof.
  intros Hi Hx. pose proof (lookup_lt_Some _ _ _ Hx) as Hlt.
  destruct (index_in_range l i) as (y & Hy & ->); [lia|]. congruence.
Qed.

Lemma setitem_in_range {A} (l : list A) (i : Z) v :
  0 <= i < Z.of_nat (length l) ->
  Py.setitem l i v = Ok (<[Z.to_nat i := v]> l).
Proof.
  intros Hi. unfold Py.setitem.
  replace (i <? 0) with false by lia.
  now replace ((0 <=? i) && (i <? Z.of_nat (length l))) with true by lia.
Qed.

Lemma in_grid_bounds (p : pos) :
  in_grid p = true <->
  0 <= p.1 < GRID_WIDTH /\ 0 <= p.2 < GRID_HEIGHT.
Proof. unfold in_grid. rewrite !andb_true_iff. lia. Qed.

Lemma plane_wf_shape {A} (a : list (list A)) : plane_wf a = true <-> Np.shape2 a = grid_shape.
Proof. unfold plane_wf. apply bool_decide_eq_true. Qed.

(** A column of a well-formed plane has 31 cells. *)
Lemma plane_column {A} (a : list (list A)) (i : Z) :
  Np.shape2 a = grid_shape -> 0 <= i < GRID_WIDTH ->
  exists col, a !! Z.to_nat i = Some col /\ length col = 31%nat.
Proof.
  intros Hs Hi.
  assert (Hl : grid_shape !! Z.to_nat i = Some 31%nat).
  { unfold grid_shape. apply lookup_replicate_2. unfold GRID_WIDTH in Hi. lia. }
  rewrite <- Hs in Hl. unfold Np.shape2 in Hl.
  rewrite list_lookup_fmap in Hl.
  destruct (a !! Z.to_nat i) as [col|]; [|discriminate].
  exists col. split; [reflexivity|]. now injection Hl.
Qed.

Lemma plane_length {A} (a : list (list A)) : Np.shape2 a = grid_shape -> length a = 28%nat.
Proof.
  intros Hs. apply (f_equal length) in Hs.
  unfold Np.shape2, grid_shape in Hs.
  now rewrite length_map, length_replicate in Hs.
Qed.

(** Every cell of a well-formed plane exists. *)
Lemma plane_cell {A} (a : list (list A)) (p : pos) :
  Np.shape2 a = grid_shape -> in_grid p = true ->
  exists col x,
    a !! Z.to_nat p.1 = Some col /\ col !! Z.to_nat p.2 = Some x
    /\ Py.index a p.1 = Ok col /\ Py.index col p.2 = Ok x.
Proof.
  intros Hs Hp. apply in_grid_bounds in Hp. destruct Hp as [Hx Hy].
  destruct (plane_column a p.1 Hs Hx) as (col & Hcol & Hlen).
  destruct (index_in_range col p.2) as (x & Hx1 & Hx2).
  { unfold GRID_HEIGHT in Hy. lia. }
  exists col, x. repeat split; try assumption.
  apply index_lookup; [lia|assumption].
Qed.

(** An in-range store succeeds, keeps the shape and is read back. *)
Lemma setitem2_in_grid {A} (a : list (list A)) (p : pos) v :
  Np.shape2 a = grid_shape -> in_grid p = true ->
  exists a', Py.setitem2 a p.1 p.2 v = Ok a'
             /\ Np.shape2 a' = grid_shape
             /\ at2 a' p.1 p.2 = Some v.
Proof.
  intros Hs Hp.
  destruct (plane_cell a p Hs Hp) as (col & x & Hcol & Hx & Hi1 & Hi2).
  apply in_grid_bounds in Hp. destruct Hp as [Hpx Hpy].
  pose proof (lookup_lt_Some _ _ _ Hcol) as Hlt1.
  pose proof (lookup_lt_Some _ _ _ Hx) as Hlt2.
  exists (<[Z.to_nat p.1 := <[Z.to_nat p.2 := v]> col]> a).
  split; [|split].
  - unfold Py.setitem2. rewrite Hi1. cbn [mbind result_bind].
    rewrite setitem_in_range by lia. cbn [mbind result_bind].
    now rewrite setitem_in_range by lia.
  - rewrite <- Hs. unfold Np.shape2.
    rewrite list_fmap_insert, length_insert.
    apply list_insert_id. rewrite list_lookup_fmap, Hcol. reflexivity.
  - unfold at2. rewrite list_lookup_insert_eq by assumption.
    apply list_lookup_insert_eq. assumption.
Qed.



(** ** BasePacmanGym *)

Lemma pacbot_update_same gs : pacbot_update gs (pacbot_pos gs) = gs.
Proof. now destruct gs. Qed.

Lemma move_to_in_grid gs p :
  plane_wf (grid gs) = true -> in_grid p = true ->
  move_to gs p =
    (Ok tt, pacbot_update gs
              (if is_barrier (cell_at (grid gs) p) then pacbot_pos gs else p)).
Proof.
  intros Hg Hp. apply plane_wf_shape in Hg.
  destruct (plane_cell (grid gs) p Hg Hp) as (col & c & Hcol & Hc & Hi1 & Hi2).
  unfold move_to, cell_at, is_barrier. rewrite Hp, Hcol, Hc.
  unfold mbind, M_bind, St.lift. rewrite Hi1, Hi2.
  destruct (Py.in_1_5 c); cbn.
  - now rewrite pacbot_update_same.
  - reflexivity.
Qed.

Lemma target_in_grid action p : in_grid (target action p) = true.
Proof.
  apply in_grid_bounds. unfold target, clamp, GRID_WIDTH, GRID_HEIGHT. cbn [fst snd].
  lia.
Qed.

Lemma target_code (action x y : Z) :
  0 <= x < 28 -> 0 <= y < 31 ->
  target action (x, y) =
    match action with
    | 1 => (x, Z.min (y + 1) (GRID_HEIGHT - 1))
    | 2 => (x, Z.max (y - 1) 0)
    | 3 => (Z.max (x - 1) 0, y)
    | 4 => (Z.min (x + 1) (GRID_WIDTH - 1), y)
    | _ => (x, y)
    end.
Proof.
  intros Hx Hy. unfold target, clamp, neighbour, GRID_WIDTH, GRID_HEIGHT.
  destruct action as [|[[[]|[]|]|[[]|[]|]|]|]; cbn [fst snd]; f_equal; lia.
Qed.

Lemma move_one_cell_target gs action :
  in_grid (pacbot_pos gs) = true -> 0 <= action <= 4 ->
  Base.move_one_cell action gs = move_to gs (target action (pacbot_pos gs)).
Proof.
  intros Hp Ha. apply in_grid_bounds in Hp.
  unfold GRID_WIDTH, GRID_HEIGHT in Hp. destruct Hp as [Hx Hy].
  destruct gs as [g [x y] r pk o b sc pl lv fr st fc]. cbn [pacbot_pos fst snd] in *.
  rewrite target_code by assumption.
  assert (Hc : action = 0 \/ action = 1 \/ action = 2 \/ action = 3 \/ action = 4)
    by lia.
  destruct Hc as [-> | [-> | [-> | [-> | ->]]]]; reflexivity.
Qed.

Lemma move_one_cell_result gs action :
  plane_wf (grid gs) = true -> in_grid (pacbot_pos gs) = true ->
  0 <= action <= 4 ->
  Base.move_one_cell action gs =
    (Ok tt,
     pacbot_update gs
       (if is_barrier (cell_at (grid gs) (target action (pacbot_pos gs)))
        then pacbot_pos gs else target action (pacbot_pos gs))).
Proof.
  intros Hg Hp Ha.
  rewrite move_one_cell_target by assumption.
  apply move_to_in_grid; [assumption | apply target_in_grid].
Qed.

(** C2. For an action in 0..4 and Pacman on the 28 by 31 grid,
    [move_one_cell] takes the neighbour by the mapping 0: stay, 1: +y,
    2: -y, 3: -x, 4: +x, clamped to the grid, as its target; Pacman is
    moved there unless the target is a wall (1) or a ghost-house door
    (5), in which case the position is unchanged; the position after
    the call is on the grid in either case. *)
Theorem move_one_cell_spec gs action :
  plane_wf (grid gs) = true -> in_grid (pacbot_pos gs) = true ->
  0 <= action <= 4 ->
  let t := target action (pacbot_pos gs) in
  let p' := if is_barrier (cell_at (grid gs) t) then pacbot_pos gs else t in
  in_grid t = true
  /\ Base.move_one_cell action gs = (Ok tt, pacbot_update gs p')
  /\ in_grid (pacbot_pos (snd (Base.move_one_cell action gs))) = true.
Proof.
  intros Hg Hp Ha t p'.
  assert (Ht : in_grid t = true) by apply target_in_grid.
  assert (Hm : Base.move_one_cell action gs = (Ok tt, pacbot_update gs p')).
  { now apply move_one_cell_result. }
  split; [exact Ht|]. split; [exact Hm|].
  rewrite Hm. cbn [snd pacbot_update pacbot_pos]. subst p'.
  now destruct (is_barrier _).
Qed.

(** Pacman on (5, 5), a wall on (5, 6): action 1 leaves Pacman in place. *)
Lemma move_one_cell_spec_witness :
  plane_wf (grid Demo.demo_state) = true
  /\ in_grid (pacbot_pos Demo.demo_state) = true
  /\ cell_at (grid Demo.demo_state) (5, 6) = Some 1
  /\ Base.move_one_cell 1 Demo.demo_state = (Ok tt, Demo.demo_state).
Proof.
  split; [reflexivity|]. split; [reflexivity|]. split; [reflexivity|].
  destruct (move_one_cell_spec Demo.demo_state 1) as (_ & H & _);
    [reflexivity | reflexivity | lia |]. exact H.
Defined.

(** A grid read next to Pacman, as [action_mask] does it. *)
Lemma blocked_off_edge gs (p q : pos) :
  plane_wf (grid gs) = true -> in_grid q = true ->
  Base.blocked gs false q.1 q.2 = Ok (is_barrier (cell_at (grid gs) q)).
Proof.
  intros Hg Hq. apply plane_wf_shape in Hg.
  destruct (plane_cell (grid gs) q Hg Hq) as (col & c & Hcol & Hc & Hi1 & Hi2).
  unfold Base.blocked, cell_at, is_barrier. rewrite Hq, Hcol, Hc, Hi1.
  cbn [mbind result_bind]. now rewrite Hi2.
Qed.

Lemma blocked_dir_code gs (edge : bool) (action : Z) :
  plane_wf (grid gs) = true ->
  edge = negb (in_grid (neighbour action (pacbot_pos gs))) ->
  Base.blocked gs edge (neighbour action (pacbot_pos gs)).1
               (neighbour action (pacbot_pos gs)).2
  = Ok (blocked_dir (grid gs) (pacbot_pos gs) action).
Proof.
  intros Hg ->. unfold blocked_dir.
  destruct (in_grid (neighbour action (pacbot_pos gs))) eqn:Hq; cbn [negb orb].
  - now apply blocked_off_edge.
  - reflexivity.
Qed.

Lemma blocked_dir_iff g p i :
  blocked_dir g p i = true <->
  in_grid (neighbour i p) = false
  \/ cell_at g (neighbour i p) = Some 1 \/ cell_at g (neighbour i p) = Some 5.
Proof.
  unfold blocked_dir, is_barrier, cell_at, Py.in_1_5.
  destruct (in_grid (neighbour i p)); cbn [negb orb].
  - destruct (g !! _) as [col|]; [destruct (col !! _) as [c|]|].
    + rewrite orb_true_iff, !Z.eqb_eq.
      split; [intros [->| ->]; auto
             | intros [?|[?|?]]; [discriminate| |]; left + right; congruence].
    + split; [discriminate | intros [?|[?|?]]; discriminate].
    + split; [discriminate | intros [?|[?|?]]; discriminate].
  - split; auto.
Qed.

Lemma action_mask_result gs :
  plane_wf (grid gs) = true -> in_grid (pacbot_pos gs) = true ->
  exists mask,
    Base.action_mask gs = Ok mask
    /\ mask = [0; bit (blocked_dir (grid gs) (pacbot_pos gs) 1);
                 bit (blocked_dir (grid gs) (pacbot_pos gs) 2);
                 bit (blocked_dir (grid gs) (pacbot_pos gs) 3);
                 bit (blocked_dir (grid gs) (pacbot_pos gs) 4)].
Proof.
  intros Hg Hp. eexists. split; [|reflexivity].
  set (b := blocked_dir (grid gs) (pacbot_pos gs)).
  pose proof Hp as Hp'. apply in_grid_bounds in Hp'. destruct Hp' as [Hx Hy].
  unfold Base.action_mask.
  rewrite (blocked_dir_code gs _ 1 Hg).
  2:{ unfold neighbour, in_grid, GRID_WIDTH, GRID_HEIGHT in *. cbn [fst snd]. lia. }
  cbn [mbind result_bind].
  rewrite (blocked_dir_code gs _ 2 Hg).
  2:{ unfold neighbour, in_grid, GRID_WIDTH, GRID_HEIGHT in *. cbn [fst snd]. lia. }
  cbn [mbind result_bind].
  rewrite (blocked_dir_code gs _ 3 Hg).
  2:{ unfold neighbour, in_grid, GRID_WIDTH, GRID_HEIGHT in *. cbn [fst snd]. lia. }
  cbn [mbind result_bind].
  rewrite (blocked_dir_code gs _ 4 Hg).
  2:{ unfold neighbour, in_grid, GRID_WIDTH, GRID_HEIGHT in *. cbn [fst snd]. lia. }
  cbn [mbind result_bind]. fold b.
  now destruct (b 1), (b 2), (b 3), (b 4).
Qed.

(** C3. For Pacman on the grid, [action_mask] returns five entries;
    entry 0 is 0, and entry [i] for a direction [i] in 1..4 is 1 exactly
    when the neighbour in that direction is off the grid or is a wall
    (1) or door (5) cell, and 0 otherwise. *)
Theorem action_mask_spec gs :
  plane_wf (grid gs) = true -> in_grid (pacbot_pos gs) = true ->
  exists mask,
    Base.action_mask gs = Ok mask
    /\ length mask = 5%nat
    /\ mask !! 0%nat = Some 0
    /\ forall i, 1 <= i <= 4 ->
         let q := neighbour i (pacbot_pos gs) in
         exists m, mask !! Z.to_nat i = Some m
           /\ (m = 0 \/ m = 1)
           /\ (m = 1 <->
                in_grid q = false
                \/ cell_at (grid gs) q = Some 1 \/ cell_at (grid gs) q = Some 5).
Proof.
  intros Hg Hp.
  destruct (action_mask_result gs Hg Hp) as (mask & Hm & ->).
  set (b := blocked_dir (grid gs) (pacbot_pos gs)).
  eexists. split; [exact Hm|].
  split; [reflexivity|split; [reflexivity|]].
  intros i Hi q. subst q.
  assert (Hc : i = 1 \/ i = 2 \/ i = 3 \/ i = 4) by lia.
  exists (bit (b i)). split.
  - destruct Hc as [-> | [-> | [-> | ->]]]; reflexivity.
  - split; [destruct (b i); cbn; auto|].
    rewrite <- blocked_dir_iff. fold b. unfold bit.
    destruct (b i); split; congruence.
Qed.

(** On (5, 5) with a wall on (5, 6), direction 1 is the one masked. *)
Lemma action_mask_spec_witness :
  plane_wf (grid Demo.demo_state) = true
  /\ in_grid (pacbot_pos Demo.demo_state) = true
  /\ exists mask,
       Base.action_mask Demo.demo_state = Ok mask
       /\ mask !! 1%nat = Some 1 /\ mask !! 0%nat = Some 0.
Proof.
  split; [reflexivity|]. split; [reflexivity|].
  destruct (action_mask_spec Demo.demo_state) as (mask & Hm & _ & H0 & _);
    [reflexivity | reflexivity |].
  exists mask. split; [exact Hm|]. split; [|exact H0].
  cbv in Hm. injection Hm as <-. reflexivity.
Defined.


(** ** Floats *)

(** Nothing compares equal to NaN: the test [reward == float("Nan")]
    is false for every reward. *)
Lemma eq_float_Nan (r : pynum) : Py.eq r Py.float_Nan = false.
Proof.
  destruct r as [z|x]; cbn.
  - reflexivity.
  - unfold Float.eqb, SFeqb, SFcompare. now destruct x.
Qed.

Lemma div_eucl_scaled (m : positive) (k : Z) :
  0 <= k -> Z.div_eucl (Zpos m * k) (Zpos m) = (k, 0).
Proof.
  intros Hk.
  pose proof (Z.div_mul k (Zpos m)) as Hq.
  pose proof (Z.mod_mul k (Zpos m)) as Hr.
  rewrite (Z.mul_comm k) in Hq, Hr.
  unfold Z.div, Z.modulo in Hq, Hr.
  destruct (Z.div_eucl (Zpos m * k) (Zpos m)) as [q r].
  f_equal; [apply Hq | apply Hr]; discriminate.
Qed.

(** A positive integer divided by itself is exactly 1.0. *)
Lemma div_exact_self (s : bool) (m : positive) :
  Float.div (S754_finite s m 0) (S754_finite s m 0) = Float.one.
Proof.
  unfold Float.div, SFdiv, SFdiv_core_binary.
  replace (Zdigits2 (Zpos m) + 0 - (Zdigits2 (Zpos m) + 0)) with 0 by lia.
  change (fexp Float.prec Float.emax 0) with (-53).
  change (Z.min (-53) (0 - 0)) with (-53).
  change (0 - 0 - -53) with 53.
  cbv beta iota zeta.
  rewrite Z.shiftl_mul_pow2 by lia.
  rewrite (div_eucl_scaled m (2 ^ 53)) by lia.
  replace (xorb s s) with false by now destruct s.
  assert (Hl : new_location (Zpos m) 0 = loc_Exact).
  { unfold new_location, new_location_even, new_location_odd.
    now destruct (Z.even (Zpos m)). }
  rewrite Hl. reflexivity.
Qed.

Lemma int_truediv_self (g : Z) :
  g <> 0 -> Float.int_truediv g g = Ok Float.one.
Proof.
  intros Hg. unfold Float.int_truediv.
  replace (g =? 0) with false by lia.
  destruct g as [|m|m]; [congruence| |]; cbn [Float.exact];
    now rewrite div_exact_self.
Qed.


(** ** Shapes *)

Lemma shape2_map2d {A B} (f : A -> B) (a : list (list A)) :
  Np.shape2 (Np.map2d f a) = Np.shape2 a.
Proof.
  unfold Np.shape2, Np.map2d. rewrite <- list_fmap_compose.
  apply list_fmap_ext. intros i x _. cbn. apply length_map.
Qed.

Lemma shape2_zip2d {A B C} (f : A -> B -> C) (a : list (list A))
    (b : list (list B)) sh :
  Np.shape2 a = sh -> Np.shape2 b = sh -> Np.shape2 (Np.zip2d f a b) = sh.
Proof.
  intros <-. revert b. unfold Np.shape2, Np.zip2d.
  induction a as [|x a IH]; intros [|y b] Hb; try discriminate; [reflexivity|].
  cbn [map zip_with fmap list_fmap] in *. injection Hb as Hl Hb.
  f_equal.
  - rewrite length_zip_with. lia.
  - now apply IH.
Qed.

Lemma shape2_int_sum0 {A} (like : list (list A)) (l : list (list (list Z))) sh :
  Np.shape2 like = sh -> Forall (fun p => Np.shape2 p = sh) l ->
  Np.shape2 (Np.int_sum0 like l) = sh.
Proof.
  intros Hl Hall. unfold Np.int_sum0.
  assert (H0 : Np.shape2 (Np.map2d (fun _ : A => 0) like) = sh)
    by now rewrite shape2_map2d.
  revert H0. generalize (Np.map2d (fun _ : A => 0) like).
  induction Hall as [|p l Hp Hall IH]; intros acc Hacc; [exact Hacc|].
  cbn [foldl]. apply IH. unfold Np.int_add. now apply shape2_zip2d.
Qed.

Lemma same_shape_grid {A B} (a : list (list A)) (b : list (list B)) :
  Np.shape2 a = grid_shape -> Np.shape2 b = grid_shape ->
  Np.same_shape a b = true.
Proof.
  intros Ha Hb. unfold Np.same_shape. apply bool_decide_eq_true. congruence.
Qed.

(** Planes over the grid stack. *)
Lemma stack_grid (a : Np.array2) (l : list Np.array2) :
  Forall (fun p => Np.shape2 p = grid_shape) (a :: l) ->
  Np.stack (a :: l) = Ok (a :: l).
Proof.
  intros Hall. unfold Np.stack.
  assert (Ha : Np.shape2 a = grid_shape) by now inversion Hall.
  replace (forallb (Np.same_shape a) (a :: l)) with true; [reflexivity|].
  symmetry. apply forallb_forall. intros p Hp.
  apply same_shape_grid; [exact Ha|].
  rewrite Forall_forall in Hall. apply Hall. now apply list_elem_of_In.
Qed.

Lemma gs_wf_parts gs :
  gs_wf gs = true ->
  Np.shape2 (grid gs) = grid_shape /\ in_grid (pacbot_pos gs) = true
  /\ in_grid (red_current gs) = true /\ in_grid (pink_current gs) = true
  /\ in_grid (orange_current gs) = true /\ in_grid (blue_current gs) = true.
Proof.
  unfold gs_wf. rewrite !andb_true_iff, plane_wf_shape. tauto.
Qed.

(** ** NaivePacmanGym *)

Lemma naive_create_obs_result V (self : Naive.env) :
  gs_wf (Naive.game_state self) = true ->
  exists obs,
    Naive.create_obs V self = (Ok obs, self)
    /\ at3 obs 1
         (pacbot_pos (Naive.game_state self)).1
         (pacbot_pos (Naive.game_state self)).2 = Some Float.one.
Proof.
  intros Hwf. apply gs_wf_parts in Hwf.
  destruct Hwf as (Hg & Hp & Hr & Hk & Ho & Hb).
  set (gs := Naive.game_state self) in *.
  set (g := Np.int_div_scalar (grid gs) (var_c V)).
  assert (Hsg : Np.shape2 g = grid_shape).
  { unfold g, Np.int_div_scalar. now rewrite shape2_map2d. }
  assert (Hs0 : Np.shape2 (Np.zeros2 g) = grid_shape).
  { unfold Np.zeros2. now rewrite shape2_map2d. }
  set (code := fun i : Z =>
         Float.of_int (if is_frightened gs && (0 <? i) then -1 else i + 1)).
  destruct (setitem2_in_grid (Np.zeros2 g) (orange_current gs) (code 4) Hs0 Ho)
    as (e4 & He4 & Hs4 & _).
  destruct (setitem2_in_grid e4 (pink_current gs) (code 3) Hs4 Hk)
    as (e3 & He3 & Hs3 & _).
  destruct (setitem2_in_grid e3 (blue_current gs) (code 2) Hs3 Hb)
    as (e2 & He2 & Hs2 & _).
  destruct (setitem2_in_grid e2 (red_current gs) (code 1) Hs2 Hr)
    as (e1 & He1 & Hs1 & _).
  destruct (setitem2_in_grid e1 (pacbot_pos gs) (code 0) Hs1 Hp)
    as (e0 & He0 & Hs0' & Hat).
  exists [g; e0]. split.
  - unfold Naive.create_obs, mbind, M_bind, St.get, St.lift.
    fold gs. fold g.
    change (reverse (enumerate [pacbot_pos gs; red_current gs; blue_current gs;
                                pink_current gs; orange_current gs]))
      with [(4, orange_current gs); (3, pink_current gs); (2, blue_current gs);
            (1, red_current gs); (0, pacbot_pos gs)].
    cbn [foldM]. fold (code 4). rewrite He4. fold (code 3). rewrite He3.
    fold (code 2). rewrite He2. fold (code 1). rewrite He1.
    fold (code 0). rewrite He0.
    rewrite stack_grid; [reflexivity|].
    repeat constructor; assumption.
  - cbn [at3 lookup list_lookup]. rewrite Hat. unfold code.
    rewrite andb_false_r. reflexivity.
Qed.


Lemma naive_step_result V next_step (self : Naive.env) action q :
  let gs1 := snd (Base.move_one_cell action (Naive.game_state self)) in
  let gs2 := Nat.iter (Z.to_nat (Naive.ticks_per_step self)) next_step gs1 in
  gs_wf (Naive.game_state self) = true -> 0 <= action <= 4 ->
  gs_wf gs2 = true ->
  Float.int_truediv (score gs2 - Naive.last_score self) (ghost_score V) = Ok q ->
  exists out self',
    Naive.step V next_step action self = (Ok out, self')
    /\ out_reward out = (if play gs2 then PyFloat q else PyInt 0)
    /\ out_done out = negb (play gs2)
    /\ Naive.game_state self' = gs2
    /\ Naive.last_score self' = score gs2.
Proof.
  intros gs1 gs2 Hwf Ha Hwf2 Hq.
  pose proof (gs_wf_parts _ Hwf) as (Hg & Hp & _).
  pose proof (move_one_cell_result (Naive.game_state self) action
                ltac:(now apply plane_wf_shape) Hp Ha) as Hm.
  pose proof (gs_wf_parts _ Hwf2) as (Hg2 & Hp2 & _).
  destruct (action_mask_result gs2 ltac:(now apply plane_wf_shape) Hp2)
    as (mask & Hmask & _).
  set (self2 := Naive.set_last_score
                  (Naive.set_game_state
                     (Naive.set_game_state self gs1) gs2) (score gs2)).
  destruct (naive_create_obs_result V self2 Hwf2) as (obs & Hobs & _).
  eexists _, self2. split.
  - unfold Naive.step, mbind, M_bind, Naive.on_game_state, St.zoom, St.get,
      St.put, St.lift, Base.run_ticks.
    destruct (Base.move_one_cell action (Naive.game_state self)) as [r g1] eqn:E.
    injection Hm as -> Hg1. cbn [snd] in gs1. 
    cbn [Naive.game_state Naive.set_game_state Naive.ticks_per_step
         Naive.last_score].
    fold gs1. fold gs2. rewrite Hq, Hmask. fold self2. rewrite Hobs.
    reflexivity.
  - cbn [out_reward out_done]. rewrite eq_float_Nan.
    repeat split. now destruct (play gs2).
Qed.


(** C5. Variant A: a step on which the game keeps playing returns the
    score delta divided by the ghost score as its reward, a step on
    which the episode ends returns reward 0, and a step that keeps
    playing while the score rises by exactly the ghost score returns
    1.0. *)
Theorem naive_step_reward V next_step (self : Naive.env) action q :
  let gs1 := snd (Base.move_one_cell action (Naive.game_state self)) in
  let gs2 := Nat.iter (Z.to_nat (Naive.ticks_per_step self)) next_step gs1 in
  gs_wf (Naive.game_state self) = true -> 0 <= action <= 4 ->
  gs_wf gs2 = true ->
  Float.int_truediv (score gs2 - Naive.last_score self) (ghost_score V) = Ok q ->
  exists out self',
    Naive.step V next_step action self = (Ok out, self')
    /\ (play gs2 = true -> out_reward out = PyFloat q)
    /\ (play gs2 = false -> out_reward out = PyInt 0)
    /\ (play gs2 = true ->
        score gs2 - Naive.last_score self = ghost_score V ->
        out_reward out = PyFloat Float.one).
Proof.
  intros gs1 gs2 Hwf Ha Hwf2 Hq.
  destruct (naive_step_result V next_step self action q Hwf Ha Hwf2 Hq)
    as (out & self' & Hstep & Hr & _).
  fold gs1 gs2 in Hr.
  exists out, self'. split; [exact Hstep|].
  repeat split.
  - intros Hp. now rewrite Hr, Hp.
  - intros Hp. now rewrite Hr, Hp.
  - intros Hp Hd. rewrite Hr, Hp. rewrite Hd in Hq.
    assert (Hg : ghost_score V <> 0).
    { intros H0. rewrite H0 in Hq. discriminate. }
    rewrite int_truediv_self in Hq by assumption. congruence.
Qed.

Lemma naive_step_reward_witness :
  exists out self',
    Naive.step Demo.demo_variables Demo.scoring_engine 4 Demo.naive_env
      = (Ok out, self')
    /\ out_reward out = PyFloat Float.one.
Proof.
  destruct (naive_step_reward Demo.demo_variables Demo.scoring_engine
              Demo.naive_env 4 Float.one)
    as (out & self' & Hstep & _ & _ & H1);
    [reflexivity | lia | reflexivity | reflexivity |].
  exists out, self'. split; [exact Hstep|]. apply H1; reflexivity.
Defined.

(** C10. Variant A: in the observation, the entity channel reads 1 at
    Pacman's cell, whatever ghosts stand on that cell and whether or
    not they are frightened. *)
Theorem naive_obs_pacman_cell V (self : Naive.env) :
  gs_wf (Naive.game_state self) = true ->
  exists obs,
    Naive.create_obs V self = (Ok obs, self)
    /\ at3 obs 1
         (pacbot_pos (Naive.game_state self)).1
         (pacbot_pos (Naive.game_state self)).2 = Some Float.one.
Proof. apply naive_create_obs_result. Qed.

(** Pacman shares cell (5, 5) with the frightened pink ghost. *)
Lemma naive_obs_pacman_cell_witness :
  pink_current Demo.demo_state = pacbot_pos Demo.demo_state
  /\ is_frightened Demo.demo_state = true
  /\ exists obs,
       Naive.create_obs Demo.demo_variables Demo.naive_env
         = (Ok obs, Demo.naive_env)
       /\ at3 obs 1 5 5 = Some Float.one.
Proof.
  split; [reflexivity|]. split; [reflexivity|].
  apply (naive_obs_pacman_cell Demo.demo_variables Demo.naive_env).
  reflexivity.
Defined.


(** ** Stacks of planes *)

Lemma planes_zeros3 {A} n (g : list (list A)) :
  Np.shape2 g = grid_shape -> planes n (Np.zeros3 n g).
Proof.
  intros Hg. split.
  - apply length_replicate.
  - apply Forall_replicate. unfold Np.zeros2. now rewrite shape2_map2d.
Qed.

Lemma planes_wf_planes {A} n (a : list (list (list A))) :
  planes_wf n a = true <-> planes n a.
Proof.
  unfold planes_wf, planes.
  rewrite andb_true_iff, bool_decide_eq_true, forallb_forall, Forall_forall.
  split; intros [Hl Hf]; (split; [exact Hl|]); intros p Hp.
  - apply plane_wf_shape, Hf. now apply list_elem_of_In.
  - apply plane_wf_shape, Hf. now apply list_elem_of_In.
Qed.

Lemma setitem3_in_grid {A} n (a : list (list (list A))) (k : Z) (p : pos) v :
  planes n a -> 0 <= k < Z.of_nat n -> in_grid p = true ->
  exists a', Py.setitem3 a k p.1 p.2 v = Ok a' /\ planes n a'.
Proof.
  intros [Hl Hf] Hk Hp.
  destruct (index_in_range a k) as (pl & Hpl & Hi); [lia|].
  assert (Hs : Np.shape2 pl = grid_shape).
  { rewrite Forall_forall in Hf. apply Hf. eapply list_elem_of_lookup_2, Hpl. }
  destruct (setitem2_in_grid pl p v Hs Hp) as (pl' & Hset & Hs' & _).
  exists (<[Z.to_nat k := pl']> a). split.
  - unfold Py.setitem3. rewrite Hi. cbn [mbind result_bind].
    rewrite Hset. cbn [mbind result_bind].
    apply setitem_in_range. lia.
  - split; [now rewrite length_insert|].
    apply Forall_insert; assumption.
Qed.

(** A store per listed position, plane [start], [start + 1], ... *)
Lemma foldM_setitem3 {A} n (v : A) (l : list pos) :
  forall (start : Z) (a : list (list (list A))),
    planes n a -> 0 <= start ->
    start + Z.of_nat (length l) <= Z.of_nat n ->
    forallb in_grid l = true ->
    exists a',
      foldM (fun acc '(i, q) => Py.setitem3 acc i q.1 q.2 v)
            (zip (seqZ start (Z.of_nat (length l))) l) a = Ok a'
      /\ planes n a'.
Proof.
  induction l as [|p l IH]; intros start a Ha Hs Hn Hin.
  - exists a. split; [reflexivity|exact Ha].
  - cbn [length forallb] in *. apply andb_true_iff in Hin. destruct Hin as [Hp Hin].
    rewrite Nat2Z.inj_succ, seqZ_cons by lia.
    cbn [zip zip_with foldM].
    destruct (setitem3_in_grid n a start p v Ha ltac:(lia) Hp) as (a1 & H1 & Ha1).
    rewrite H1.
    replace (Z.pred (Z.succ (Z.of_nat (length l)))) with (Z.of_nat (length l))
      by lia.
    apply (IH (Z.succ start) a1 Ha1); try assumption; lia.
Qed.

Lemma stack_planes (l : list Np.array2) :
  l <> [] -> Forall (fun p => Np.shape2 p = grid_shape) l -> Np.stack l = Ok l.
Proof.
  destruct l as [|a l]; [congruence|]. intros _. apply stack_grid.
Qed.

(** ** SemanticChannelPacmanGym *)

Lemma channel_create_obs_result V (self : SemanticChannel.env) :
  let gs := SemanticChannel.game_state self in
  gs_wf gs = true -> phase_wf gs = true ->
  ghost_list_wf (SemanticChannel.last_ghost_pos self) = true ->
  in_grid (SemanticChannel.last_pos self) = true ->
  is_ok (Float.int_truediv (frightened_counter gs) (frightened_length V)) = true ->
  exists obs, SemanticChannel.create_obs V self = (Ok obs, self).
Proof.
  intros gs Hwf Hph Hl Hlp Hfc.
  apply gs_wf_parts in Hwf. destruct Hwf as (Hg & Hp & Hr & Hk & Ho & Hb).
  unfold phase_wf in Hph. apply andb_true_iff in Hph.
  unfold ghost_list_wf in Hl. apply andb_true_iff in Hl. destruct Hl as [Hl4 Hlin].
  destruct (Float.int_truediv (frightened_counter gs) (frightened_length V))
    as [fc|] eqn:Efc; [|discriminate].
  set (st := state gs - 1).
  assert (Hst : 0 <= st < Z.of_nat 3) by (unfold st; lia).
  pose proof (planes_zeros3 4 (grid gs) Hg) as G0.
  pose proof (planes_zeros3 3 (grid gs) Hg) as S0.
  destruct (setitem3_in_grid 4 _ 0 (red_current gs) Float.one G0 ltac:(lia) Hr)
    as (g1 & Eg1 & G1).
  destruct (setitem3_in_grid 3 _ st (red_current gs) Float.one S0 Hst Hr)
    as (s1 & Es1 & S1).
  destruct (setitem3_in_grid 4 _ 1 (pink_current gs) Float.one G1 ltac:(lia) Hk)
    as (g2 & Eg2 & G2).
  destruct (setitem3_in_grid 3 _ st (pink_current gs) Float.one S1 Hst Hk)
    as (s2 & Es2 & S2).
  destruct (setitem3_in_grid 4 _ 2 (orange_current gs) Float.one G2 ltac:(lia) Ho)
    as (g3 & Eg3 & G3).
  destruct (setitem3_in_grid 3 _ st (orange_current gs) Float.one S2 Hst Ho)
    as (s3 & Es3 & S3).
  destruct (setitem3_in_grid 4 _ 3 (blue_current gs) Float.one G3 ltac:(lia) Hb)
    as (g4 & Eg4 & G4).
  destruct (setitem3_in_grid 3 _ st (blue_current gs) fc S3 Hst Hb)
    as (s4 & Es4 & S4).
  destruct (foldM_setitem3 4 Float.one (SemanticChannel.last_ghost_pos self) 0
              _ G0 ltac:(lia) ltac:(lia) Hlin) as (lg & Elg & LG).
  pose proof (planes_zeros3 2 (grid gs) Hg) as P0.
  destruct (setitem3_in_grid 2 _ 0 (SemanticChannel.last_pos self) Float.one
              P0 ltac:(lia) Hlp) as (p1 & Ep1 & P1).
  destruct (setitem3_in_grid 2 _ 1 (pacbot_pos gs) Float.one P1 ltac:(lia) Hp)
    as (p2 & Ep2 & P2).
  eexists.
  unfold SemanticChannel.create_obs, mbind, M_bind, St.get, St.lift.
  fold gs. unfold SemanticChannel.ghost_positions.
  change (enumerate [red_current gs; pink_current gs; orange_current gs;
                     blue_current gs])
    with [(0, red_current gs); (1, pink_current gs); (2, orange_current gs);
          (3, blue_current gs)].
  cbn [foldM]. fold st.
  rewrite Eg1. cbn [result_bind negb Z.eqb]. rewrite Es1. cbn [result_bind].
  rewrite Eg2. cbn [result_bind negb Z.eqb Pos.eqb]. rewrite Es2. cbn [result_bind].
  rewrite Eg3. cbn [result_bind negb Z.eqb Pos.eqb]. rewrite Es3. cbn [result_bind].
  rewrite Eg4. cbn [result_bind negb Z.eqb Pos.eqb]. rewrite Efc.
  cbn [result_bind]. rewrite Es4. cbn [result_bind].
  unfold enumerate. rewrite Elg, Ep1, Ep2.
  set (reward := Np.int_div_scalar _ _).
  set (wall := Np.as_float _).
  assert (Hw : Np.shape2 wall = grid_shape).
  { unfold wall, Np.as_float. now rewrite !shape2_map2d. }
  assert (Hrw : Np.shape2 reward = grid_shape).
  { unfold reward, Np.int_div_scalar, Np.int_add, Np.int_scale, Np.where_eq.
    rewrite shape2_map2d.
    repeat (apply shape2_zip2d); rewrite ?shape2_map2d; try assumption.
    apply shape2_int_sum0; [assumption|].
    apply Forall_fmap. destruct G4 as [_ G4].
    eapply Forall_impl; [exact G4|]. intros pl Hpl. cbn.
    unfold Np.where_pos. now rewrite shape2_map2d. }
  rewrite (stack_planes [wall; reward]); [|discriminate|repeat constructor; assumption].
  cbn [result_bind]. unfold Np.concatenate. cbn [concat].
  rewrite stack_planes; [reflexivity|discriminate|].
  rewrite !Forall_app.
  destruct G4, LG, S4, P2. repeat split; try assumption.
  - repeat constructor; assumption.
  - constructor.
Qed.


Lemma ticks_until_stop_taken next_step n gs :
  SemanticChannel.ticks_until_stop next_step n gs
  = Nat.iter (ticks_taken next_step n gs) next_step gs.
Proof.
  revert gs. induction n as [|n IH]; intros gs; [reflexivity|].
  cbn [SemanticChannel.ticks_until_stop ticks_taken].
  destruct (play (next_step gs)).
  - rewrite IH. now rewrite Nat.iter_succ_r.
  - reflexivity.
Qed.

Lemma ticks_taken_le next_step n gs : (ticks_taken next_step n gs <= n)%nat.
Proof.
  revert gs. induction n as [|n IH]; intros gs; [reflexivity|].
  cbn [ticks_taken]. destruct (play (next_step gs)).
  - specialize (IH (next_step gs)). lia.
  - lia.
Qed.

Lemma ticks_taken_all next_step n gs :
  plays_through next_step n gs = true -> ticks_taken next_step n gs = n.
Proof.
  revert gs. induction n as [|n IH]; intros gs H; [reflexivity|].
  cbn [ticks_taken plays_through] in *. apply andb_true_iff in H.
  destruct H as [-> H]. now rewrite IH.
Qed.

Lemma tick_mult_cases last action :
  (SemanticChannel.tick_mult last action = 2 <-> last <> action /\ last <> 0)
  /\ (SemanticChannel.tick_mult last action = 1 <-> last = action \/ last = 0).
Proof.
  unfold SemanticChannel.tick_mult.
  destruct (last =? action) eqn:E1, (last =? 0) eqn:E2; cbn [orb]; lia.
Qed.

Lemma channel_step_result V next_step (self : SemanticChannel.env) action q :
  let gs0 := SemanticChannel.game_state self in
  let gs1 := snd (Base.move_one_cell action gs0) in
  let mult := SemanticChannel.tick_mult (SemanticChannel.last_action self) action in
  let gs2 :=
    SemanticChannel.ticks_until_stop next_step
      (Z.to_nat (SemanticChannel.ticks_per_step self * mult)) gs1 in
  gs_wf gs0 = true -> 0 <= action <= 4 ->
  gs_wf gs2 = true -> phase_wf gs2 = true ->
  ghost_list_wf (SemanticChannel.last_ghost_pos self) = true ->
  is_ok (Float.int_truediv (frightened_counter gs2) (frightened_length V)) = true ->
  Float.int_truediv (score gs2 - SemanticChannel.last_score self) (ghost_score V)
    = Ok q ->
  exists out self',
    SemanticChannel.step V next_step action self = (Ok out, self')
    /\ SemanticChannel.game_state self' = gs2
    /\ out_reward out =
         (if negb (play gs2) && (lives gs2 <? 3) then PyInt 0
          else PyFloat (if mult =? 2 then Float.sub q Float.lit_0_05 else q))
    /\ out_done out = negb (play gs2).
Proof.
  intros gs0 gs1 mult gs2 Hwf Ha Hwf2 Hph Hl Hfc Hq.
  pose proof (gs_wf_parts _ Hwf) as (Hg & Hp & Hr & Hk & Ho & Hb).
  pose proof (move_one_cell_result gs0 action
                ltac:(now apply plane_wf_shape) Hp Ha) as Hm.
  pose proof (gs_wf_parts _ Hwf2) as (Hg2 & Hp2 & _).
  destruct (action_mask_result gs2 ltac:(now apply plane_wf_shape) Hp2)
    as (mask & Hmask & _).
  assert (Hgp : ghost_list_wf (SemanticChannel.ghost_positions gs1) = true).
  { unfold gs1. rewrite Hm. cbn [snd]. unfold ghost_list_wf,
      SemanticChannel.ghost_positions.
    cbn [pacbot_update red_current pink_current orange_current blue_current
         length forallb]. fold gs0. rewrite Hr, Hk, Ho, Hb. reflexivity. }
  set (lgp := if SemanticChannel.pos_changed
                   (SemanticChannel.ghost_positions gs1)
                   (SemanticChannel.ghost_positions gs2)
              then SemanticChannel.ghost_positions gs1
              else SemanticChannel.last_ghost_pos self).
  set (self2 :=
         {| SemanticChannel.game_state := gs2;
            SemanticChannel.last_score := score gs2;
            SemanticChannel.ticks_per_step := SemanticChannel.ticks_per_step self;
            SemanticChannel.last_ghost_pos := lgp;
            SemanticChannel.last_action := action;
            SemanticChannel.last_pos := pacbot_pos gs0 |}).
  destruct (channel_create_obs_result V self2) as (obs & Hobs);
    try assumption.
  { cbn [self2 SemanticChannel.last_ghost_pos]. unfold lgp.
    now destruct (SemanticChannel.pos_changed _ _). }
  eexists _, self2. split; [|split; [reflexivity|]].
  - assert (Hm' : Base.move_one_cell action gs0 = (Ok tt, gs1)).
    { unfold gs1. now rewrite Hm. }
    unfold SemanticChannel.step, mbind, M_bind, SemanticChannel.on_game_state,
      St.zoom, St.get, St.put, St.lift, SemanticChannel.run_ticks.
    unfold SemanticChannel.set_last_pos, SemanticChannel.set_game_state,
      SemanticChannel.set_last_action, SemanticChannel.set_last_ghost_pos,
      SemanticChannel.set_last_score.
    cbn [SemanticChannel.game_state SemanticChannel.ticks_per_step
         SemanticChannel.last_action SemanticChannel.last_score
         SemanticChannel.last_ghost_pos SemanticChannel.last_pos].
    fold gs0. rewrite Hm'.
    cbn [SemanticChannel.game_state SemanticChannel.ticks_per_step
         SemanticChannel.last_action SemanticChannel.last_score
         SemanticChannel.last_ghost_pos SemanticChannel.last_pos].
    fold mult. fold gs2.
    assert (Hself2 : forall l0,
      l0 = lgp ->
      {| SemanticChannel.game_state := gs2;
         SemanticChannel.last_score := score gs2;
         SemanticChannel.ticks_per_step := SemanticChannel.ticks_per_step self;
         SemanticChannel.last_ghost_pos := l0;
         SemanticChannel.last_action := action;
         SemanticChannel.last_pos := pacbot_pos gs0 |} = self2)
      by now intros l0 ->.
    destruct (SemanticChannel.pos_changed (SemanticChannel.ghost_positions gs1)
                (SemanticChannel.ghost_positions gs2)) eqn:Epc;
      cbn [SemanticChannel.game_state SemanticChannel.ticks_per_step
           SemanticChannel.last_action SemanticChannel.last_score
           SemanticChannel.last_ghost_pos SemanticChannel.last_pos];
      rewrite Hq, Hself2 by (unfold lgp; rewrite ?Epc; reflexivity);
      rewrite Hobs, Hmask; reflexivity.
  - cbn [out_reward out_done]. split; [|reflexivity].
    destruct (negb (play gs2) && (lives gs2 <? 3)); reflexivity.
Qed.


(** C6 (as the code has it). Variant B: the tick budget of a step is
    double the configured tick count exactly when the previous action is
    not 0 and differs from the current one; the engine is advanced tick
    by tick until the budget is spent or the game stops playing; and
    0.05 is subtracted from the score ratio exactly when the budget was
    doubled (the reward being 0 instead when the episode ends with
    fewer than 3 lives). *)
Theorem channel_step_ticks V next_step (self : SemanticChannel.env) action q :
  let gs0 := SemanticChannel.game_state self in
  let gs1 := snd (Base.move_one_cell action gs0) in
  let mult := SemanticChannel.tick_mult (SemanticChannel.last_action self) action in
  let budget := Z.to_nat (SemanticChannel.ticks_per_step self * mult) in
  let gs2 := SemanticChannel.ticks_until_stop next_step budget gs1 in
  gs_wf gs0 = true -> 0 <= action <= 4 ->
  gs_wf gs2 = true -> phase_wf gs2 = true ->
  ghost_list_wf (SemanticChannel.last_ghost_pos self) = true ->
  is_ok (Float.int_truediv (frightened_counter gs2) (frightened_length V)) = true ->
  Float.int_truediv (score gs2 - SemanticChannel.last_score self) (ghost_score V)
    = Ok q ->
  (mult = 2 <->
   SemanticChannel.last_action self <> action
   /\ SemanticChannel.last_action self <> 0)
  /\ (mult = 1 <->
      SemanticChannel.last_action self = action
      \/ SemanticChannel.last_action self = 0)
  /\ exists out self',
       SemanticChannel.step V next_step action self = (Ok out, self')
       /\ SemanticChannel.game_state self'
          = Nat.iter (ticks_taken next_step budget gs1) next_step gs1
       /\ (ticks_taken next_step budget gs1 <= budget)%nat
       /\ (plays_through next_step budget gs1 = true ->
           ticks_taken next_step budget gs1 = budget)
       /\ out_reward out =
            (if negb (play gs2) && (lives gs2 <? 3) then PyInt 0
             else PyFloat (if mult =? 2 then Float.sub q Float.lit_0_05 else q)).
Proof.
  intros gs0 gs1 mult budget gs2 Hwf Ha Hwf2 Hph Hl Hfc Hq.
  destruct (tick_mult_cases (SemanticChannel.last_action self) action) as [H2 H1].
  split; [exact H2|]. split; [exact H1|].
  destruct (channel_step_result V next_step self action q Hwf Ha Hwf2 Hph Hl Hfc Hq)
    as (out & self' & Hstep & Hgs & Hr & _).
  exists out, self'. split; [exact Hstep|]. split.
  - rewrite Hgs. apply ticks_until_stop_taken.
  - split; [apply ticks_taken_le|]. split; [apply ticks_taken_all|exact Hr].
Qed.

(** After a step to the left, a step to the right runs 16 ticks and
    pays the penalty. *)
Lemma channel_step_ticks_witness :
  exists out self',
    SemanticChannel.step Demo.demo_variables Demo.scoring_engine 4
      Demo.channel_env_left = (Ok out, self')
    /\ score (SemanticChannel.game_state self') = 400
    /\ out_reward out
       = PyFloat (Float.sub (Float.div (Float.exact 400) (Float.exact 200))
                            Float.lit_0_05).
Proof.
  destruct (channel_step_ticks Demo.demo_variables Demo.scoring_engine
              Demo.channel_env_left 4
              (Float.div (Float.exact 400) (Float.exact 200)))
    as (_ & _ & out & self' & Hstep & Hgs & _ & _ & Hr);
    [reflexivity | lia | reflexivity | reflexivity | reflexivity
     | reflexivity | reflexivity |].
  exists out, self'. split; [exact Hstep|]. split.
  - rewrite Hgs. reflexivity.
  - exact Hr.
Defined.

(** The first move after a reset differs from the previous action (0)
    and still runs the plain 8 ticks, with no penalty: 8 ticks of 25
    points, reward 200 / 200. *)
Lemma channel_first_move_not_doubled :
  SemanticChannel.last_action Demo.channel_env <> 4
  /\ exists out self',
       SemanticChannel.step Demo.demo_variables Demo.scoring_engine 4
         Demo.channel_env = (Ok out, self')
       /\ score (SemanticChannel.game_state self') = 8 * 25
       /\ out_reward out = PyFloat Float.one.
Proof.
  split; [discriminate|].
  eexists _, _. split; [vm_compute; reflexivity|].
  split; reflexivity.
Qed.

(** The loop leaves at the first tick that ends the game: with a
    doubled budget of 16 ticks, one tick is run. *)
Lemma channel_ticks_stop_early :
  exists out self',
    SemanticChannel.step Demo.demo_variables Demo.fatal_engine 4
      Demo.channel_env_left = (Ok out, self')
    /\ score (SemanticChannel.game_state self') = 1 * 25.
Proof.
  eexists _, _. split; [vm_compute; reflexivity|]. reflexivity.
Qed.

(** C7. Variant B: a step on which the episode ends with fewer lives
    than the starting count of 3 returns reward 0, whatever the score
    delta and whether or not the tick budget was doubled. *)
Theorem channel_terminal_reward V next_step (self : SemanticChannel.env)
    action q :
  let gs0 := SemanticChannel.game_state self in
  let gs1 := snd (Base.move_one_cell action gs0) in
  let mult := SemanticChannel.tick_mult (SemanticChannel.last_action self) action in
  let gs2 :=
    SemanticChannel.ticks_until_stop next_step
      (Z.to_nat (SemanticChannel.ticks_per_step self * mult)) gs1 in
  gs_wf gs0 = true -> 0 <= action <= 4 ->
  gs_wf gs2 = true -> phase_wf gs2 = true ->
  ghost_list_wf (SemanticChannel.last_ghost_pos self) = true ->
  is_ok (Float.int_truediv (frightened_counter gs2) (frightened_length V)) = true ->
  Float.int_truediv (score gs2 - SemanticChannel.last_score self) (ghost_score V)
    = Ok q ->
  play gs2 = false -> lives gs2 < 3 ->
  exists out self',
    SemanticChannel.step V next_step action self = (Ok out, self')
    /\ out_done out = true
    /\ out_reward out = PyInt 0.
Proof.
  intros gs0 gs1 mult gs2 Hwf Ha Hwf2 Hph Hl Hfc Hq Hplay Hlives.
  destruct (channel_step_result V next_step self action q Hwf Ha Hwf2 Hph Hl Hfc Hq)
    as (out & self' & Hstep & _ & Hr & Hd).
  exists out, self'. split; [exact Hstep|].
  fold gs0 gs1 mult gs2 in Hr, Hd. rewrite Hr, Hd, Hplay.
  replace (lives gs2 <? 3) with true by lia. split; reflexivity.
Qed.

(** The game ends on the first tick with 2 lives left and 25 points
    gained, on a step whose budget was doubled. *)
Lemma channel_terminal_reward_witness :
  exists out self',
    SemanticChannel.step Demo.demo_variables Demo.fatal_engine 4
      Demo.channel_env_left = (Ok out, self')
    /\ out_done out = true
    /\ out_reward out = PyInt 0.
Proof.
  apply (channel_terminal_reward Demo.demo_variables Demo.fatal_engine
           Demo.channel_env_left 4
           (Float.div (Float.exact 25) (Float.exact 200)));
    [reflexivity | lia | reflexivity | reflexivity | reflexivity
     | reflexivity | reflexivity | reflexivity | reflexivity].
Defined.


(** ** SelfAttentionPacmanGym *)

Lemma shape2_dist_map (p : pos) :
  Np.shape2 (SelfAttention.dist_map p) = grid_shape.
Proof.
  unfold SelfAttention.dist_map, Np.shape2.
  rewrite <- list_fmap_compose.
  change grid_shape with ((fun _ : Z => 31%nat) <$> seqZ 0 GRID_WIDTH).
  apply list_fmap_ext. intros i x _. cbn. now rewrite length_map.
Qed.

Lemma planes_halve3 n (a : Np.array3) : planes n a -> planes n (Np.halve3 a).
Proof.
  intros [Hl Hf]. split.
  - unfold Np.halve3. now rewrite length_map.
  - unfold Np.halve3. apply Forall_fmap.
    eapply Forall_impl; [exact Hf|]. intros pl Hpl. cbn.
    unfold Np.halve2. now rewrite shape2_map2d.
Qed.

Lemma attention_create_obs_result V math_log np_log
    (self : SelfAttention.env) :
  let gs := SelfAttention.game_state self in
  gs_wf gs = true -> phase_wf gs = true ->
  planes_wf 4 (SelfAttention.entities self) = true ->
  plane_wf (SelfAttention.pacman self) = true ->
  0 < ghost_score V ->
  exists obs self',
    SelfAttention.create_obs V math_log np_log self = (Ok obs, self')
    /\ SelfAttention.game_state self' = gs
    /\ SelfAttention.last_score self' = SelfAttention.last_score self.
Proof.
  intros gs Hwf Hph Hent Hpac Hgh.
  apply gs_wf_parts in Hwf. destruct Hwf as (Hg & Hp & Hr & Hk & Ho & Hb).
  unfold phase_wf in Hph. apply andb_true_iff in Hph.
  apply planes_wf_planes in Hent. apply plane_wf_shape in Hpac.
  set (st := state gs - 1).
  assert (Hst : 0 <= st < Z.of_nat 3) by (unfold st; lia).
  assert (Hz : Np.shape2 (Np.zeros2 (grid gs)) = grid_shape).
  { unfold Np.zeros2. now rewrite shape2_map2d. }
  destruct (setitem2_in_grid _ (red_current gs) Float.one Hz Hr)
    as (h1 & Eh1 & Hh1 & _).
  destruct (setitem2_in_grid _ (pink_current gs) Float.one Hh1 Hk)
    as (h2 & Eh2 & Hh2 & _).
  destruct (setitem2_in_grid _ (orange_current gs) Float.one Hh2 Ho)
    as (h3 & Eh3 & Hh3 & _).
  destruct (setitem2_in_grid _ (blue_current gs) Float.one Hh3 Hb)
    as (h4 & Eh4 & Hh4 & _).
  pose proof (planes_halve3 4 _ Hent) as E0.
  pose proof (planes_zeros3 3 (grid gs) Hg) as S0.
  destruct (setitem3_in_grid 4 _ 0 (red_current gs) Float.one E0 ltac:(lia) Hr)
    as (e1 & Ee1 & E1).
  destruct (setitem3_in_grid 3 _ st (red_current gs) Float.one S0 Hst Hr)
    as (s1 & Es1 & S1).
  destruct (setitem3_in_grid 4 _ 1 (blue_current gs) Float.one E1 ltac:(lia) Hb)
    as (e2 & Ee2 & E2).
  destruct (setitem3_in_grid 3 _ st (blue_current gs) Float.one S1 Hst Hb)
    as (s2 & Es2 & S2).
  destruct (setitem3_in_grid 4 _ 2 (pink_current gs) Float.one E2 ltac:(lia) Hk)
    as (e3 & Ee3 & E3).
  destruct (setitem3_in_grid 3 _ st (pink_current gs) Float.one S2 Hst Hk)
    as (s3 & Es3 & S3).
  destruct (setitem3_in_grid 4 _ 3 (orange_current gs) Float.one E3 ltac:(lia) Ho)
    as (e4 & Ee4 & E4).
  destruct (setitem3_in_grid 3 _ st (orange_current gs) Float.one S3 Hst Ho)
    as (s4 & Es4 & S4).
  assert (Hhp : Np.shape2 (Np.halve2 (SelfAttention.pacman self)) = grid_shape).
  { unfold Np.halve2. now rewrite shape2_map2d. }
  destruct (setitem2_in_grid _ (pacbot_pos gs) Float.one Hhp Hp)
    as (pm & Epm & Hpm & _).
  eexists _, _.
  unfold SelfAttention.create_obs.
  unfold mbind, M_bind, mret, M_ret, St.get, St.put, St.lift,
    SelfAttention.log_int.
  unfold SelfAttention.set_entities, SelfAttention.set_pacman.
  cbn [SelfAttention.game_state SelfAttention.entities SelfAttention.pacman
       SelfAttention.last_score SelfAttention.ticks_per_step foldM].
  fold gs. fold st.
  rewrite Eh1, Eh2, Eh3, Eh4.
  replace (ghost_score V <=? 0) with false by lia.
  change (enumerate [red_current gs; blue_current gs; pink_current gs;
                     orange_current gs])
    with [(0, red_current gs); (1, blue_current gs); (2, pink_current gs);
          (3, orange_current gs)].
  cbn [foldM_st].
  unfold mbind, M_bind, mret, M_ret.
  cbn [SelfAttention.game_state SelfAttention.entities SelfAttention.pacman
       SelfAttention.last_score SelfAttention.ticks_per_step].
  rewrite Ee1, Es1.
  cbn [SelfAttention.game_state SelfAttention.entities SelfAttention.pacman
       SelfAttention.last_score SelfAttention.ticks_per_step].
  rewrite Ee2, Es2.
  cbn [SelfAttention.game_state SelfAttention.entities SelfAttention.pacman
       SelfAttention.last_score SelfAttention.ticks_per_step].
  rewrite Ee3, Es3.
  cbn [SelfAttention.game_state SelfAttention.entities SelfAttention.pacman
       SelfAttention.last_score SelfAttention.ticks_per_step].
  rewrite Ee4, Es4.
  cbn [SelfAttention.game_state SelfAttention.entities SelfAttention.pacman
       SelfAttention.last_score SelfAttention.ticks_per_step].
  rewrite Epm.
  set (reward := Np.map2d (fun z => Float.div _ _) _).
  assert (Hrw : Np.shape2 reward = grid_shape).
  { unfold reward, Np.int_add, Np.int_scale, Np.where_eq, Np.where_pos.
    rewrite shape2_map2d.
    repeat (apply shape2_zip2d); rewrite ?shape2_map2d; assumption. }
  rewrite stack_planes;
    [|discriminate
     |repeat constructor; try assumption; try apply shape2_dist_map].
  cbn [result_bind]. unfold Np.concatenate. cbn [concat].
  rewrite stack_planes; [|discriminate|].
  2:{ rewrite !Forall_app. destruct E4.
      repeat split; try assumption; repeat constructor; try assumption;
        try apply shape2_dist_map. }
  cbn [result_bind concat].
  rewrite stack_planes; [|discriminate|].
  2:{ rewrite !Forall_app. destruct E4, S4.
      repeat split; try assumption; repeat constructor; try assumption;
        try apply shape2_dist_map. }
  split; [reflexivity|]. split; reflexivity.
Qed.


Lemma attention_step_result V next_step math_log np_log
    (self : SelfAttention.env) action r :
  let gs0 := SelfAttention.game_state self in
  let gs1 := snd (Base.move_one_cell action gs0) in
  let gs2 := Nat.iter (Z.to_nat (SelfAttention.ticks_per_step self)) next_step gs1 in
  let delta := score gs2 - SelfAttention.last_score self in
  gs_wf gs0 = true -> 0 <= action <= 4 ->
  gs_wf gs2 = true -> phase_wf gs2 = true ->
  planes_wf 4 (SelfAttention.entities self) = true ->
  plane_wf (SelfAttention.pacman self) = true ->
  0 < 1 + delta -> 0 < ghost_score V ->
  Float.truediv (math_log (1 + delta)) (math_log (ghost_score V)) = Ok r ->
  exists out self',
    SelfAttention.step V next_step math_log np_log action self = (Ok out, self')
    /\ SelfAttention.game_state self' = gs2
    /\ out_reward out =
         (if lives gs2 <? starting_lives V then PyFloat Float.minus_one
          else PyFloat r)
    /\ out_done out = negb (play gs2).
Proof.
  intros gs0 gs1 gs2 delta Hwf Ha Hwf2 Hph Hent Hpac Hd Hgh Hr.
  pose proof (gs_wf_parts _ Hwf) as (Hg & Hp & _).
  pose proof (move_one_cell_result gs0 action
                ltac:(now apply plane_wf_shape) Hp Ha) as Hm.
  assert (Hm' : Base.move_one_cell action gs0 = (Ok tt, gs1)).
  { unfold gs1. now rewrite Hm. }
  pose proof (gs_wf_parts _ Hwf2) as (Hg2 & Hp2 & _).
  destruct (action_mask_result gs2 ltac:(now apply plane_wf_shape) Hp2)
    as (mask & Hmask & _).
  set (self2 :=
         {| SelfAttention.game_state := gs2;
            SelfAttention.last_score := score gs2;
            SelfAttention.ticks_per_step := SelfAttention.ticks_per_step self;
            SelfAttention.entities := SelfAttention.entities self;
            SelfAttention.pacman := SelfAttention.pacman self |}).
  destruct (attention_create_obs_result V math_log np_log self2)
    as (obs & self3 & Hobs & Hgs3 & _); try assumption.
  eexists _, self3. split; [|split; [exact Hgs3|]].
  - unfold SelfAttention.step, mbind, M_bind, SelfAttention.on_game_state,
      St.zoom, St.get, St.put, St.lift, Base.run_ticks, SelfAttention.log_int.
    unfold SelfAttention.set_game_state, SelfAttention.set_last_score.
    cbn [SelfAttention.game_state SelfAttention.ticks_per_step
         SelfAttention.last_score SelfAttention.entities SelfAttention.pacman].
    fold gs0. rewrite Hm'.
    cbn [SelfAttention.game_state SelfAttention.ticks_per_step
         SelfAttention.last_score SelfAttention.entities SelfAttention.pacman].
    fold gs2.
    replace (1 + score gs2 - SelfAttention.last_score self) with (1 + delta)
      by (unfold delta; lia).
    replace (1 + delta <=? 0) with false by lia.
    replace (ghost_score V <=? 0) with false by lia.
    rewrite Hr, Hmask. fold self2. rewrite Hobs. reflexivity.
  - cbn [out_reward out_done]. split; [|reflexivity].
    destruct (lives gs2 <? starting_lives V); now rewrite eq_float_Nan.
Qed.

(** C8 (as the code has it). Variant D: a step after which the life
    count is at least the starting count returns
    log(1 + score delta) / log(ghost score); a step after which the life
    count is below the starting count returns -1.0, whether the life
    was lost on this step or on an earlier one. *)
Theorem attention_step_reward V next_step math_log np_log
    (self : SelfAttention.env) action r :
  let gs0 := SelfAttention.game_state self in
  let gs1 := snd (Base.move_one_cell action gs0) in
  let gs2 := Nat.iter (Z.to_nat (SelfAttention.ticks_per_step self)) next_step gs1 in
  let delta := score gs2 - SelfAttention.last_score self in
  gs_wf gs0 = true -> 0 <= action <= 4 ->
  gs_wf gs2 = true -> phase_wf gs2 = true ->
  planes_wf 4 (SelfAttention.entities self) = true ->
  plane_wf (SelfAttention.pacman self) = true ->
  0 < 1 + delta -> 0 < ghost_score V ->
  Float.truediv (math_log (1 + delta)) (math_log (ghost_score V)) = Ok r ->
  exists out self',
    SelfAttention.step V next_step math_log np_log action self = (Ok out, self')
    /\ (starting_lives V <= lives gs2 -> out_reward out = PyFloat r)
    /\ (lives gs2 < starting_lives V -> out_reward out = PyFloat Float.minus_one).
Proof.
  intros gs0 gs1 gs2 delta Hwf Ha Hwf2 Hph Hent Hpac Hd Hgh Hr.
  destruct (attention_step_result V next_step math_log np_log self action r
              Hwf Ha Hwf2 Hph Hent Hpac Hd Hgh Hr)
    as (out & self' & Hstep & _ & Hrw & _).
  fold gs0 gs1 gs2 in Hrw.
  exists out, self'. split; [exact Hstep|]. split; intros Hl; rewrite Hrw.
  - now replace (lives gs2 <? starting_lives V) with false by lia.
  - now replace (lives gs2 <? starting_lives V) with true by lia.
Qed.

(** All three lives in hand, 200 points gained: the reward is the ratio
    of the two logarithms. *)
Lemma attention_step_reward_witness :
  exists out self',
    SelfAttention.step Demo.demo_variables Demo.scoring_engine
      Demo.demo_math_log Demo.demo_np_log 4 Demo.attention_env = (Ok out, self')
    /\ out_reward out
       = PyFloat (Float.div (Demo.demo_math_log 201) (Demo.demo_math_log 200)).
Proof.
  destruct (attention_step_reward Demo.demo_variables Demo.scoring_engine
              Demo.demo_math_log Demo.demo_np_log Demo.attention_env 4
              (Float.div (Demo.demo_math_log 201) (Demo.demo_math_log 200)))
    as (out & self' & Hstep & Hr & _);
    [reflexivity | lia | reflexivity | reflexivity | reflexivity
     | reflexivity | reflexivity | reflexivity | reflexivity |].
  exists out, self'. split; [exact Hstep|]. apply Hr. vm_compute. discriminate.
Defined.

(** A step that starts with 2 of 3 lives and loses none still returns
    -1.0, although 200 points were gained on it. *)
Lemma attention_penalty_on_later_step :
  exists out self',
    SelfAttention.step Demo.demo_variables Demo.scoring_engine
      Demo.demo_math_log Demo.demo_np_log 4 Demo.attention_env_hurt
      = (Ok out, self')
    /\ lives (SelfAttention.game_state self')
       = lives (SelfAttention.game_state Demo.attention_env_hurt)
    /\ score (SelfAttention.game_state self')
       - SelfAttention.last_score Demo.attention_env_hurt = 200
    /\ out_reward out = PyFloat Float.minus_one.
Proof.
  eexists _, _. split; [vm_compute; reflexivity|].
  repeat split.
Qed.

(** C1. The guard [if reward == float("Nan"): reward = 0] never fires:
    no reward compares equal to NaN, so a NaN reward would pass through
    unchanged; and in Variant D a score delta of -1 does not reach the
    guard at all, [math.log(0)] raising [ValueError] out of [step]. *)
Theorem nan_guard_never_fires :
  (forall r, Py.eq r Py.float_Nan = false)
  /\ (if Py.eq Py.float_Nan Py.float_Nan then PyInt 0 else Py.float_Nan)
     = Py.float_Nan
  /\ Py.is_finite Py.float_Nan = false
  /\ forall math_log np_log,
       fst (SelfAttention.step Demo.demo_variables Demo.idle_engine
              math_log np_log 0 Demo.attention_env_behind)
       = Raise ValueError.
Proof.
  split; [exact eq_float_Nan|]. split; [reflexivity|]. split; [reflexivity|].
  intros math_log np_log. reflexivity.
Qed.


(** ** Observations and the stored state *)

Lemma naive_create_obs_pure V (self : Naive.env) :
  snd (Naive.create_obs V self) = self.
Proof.
  unfold Naive.create_obs, mbind, M_bind, St.get, St.lift.
  case_results; reflexivity.
Qed.

Lemma channel_create_obs_pure V (self : SemanticChannel.env) :
  snd (SemanticChannel.create_obs V self) = self.
Proof.
  unfold SemanticChannel.create_obs, mbind, M_bind, St.get, St.lift.
  case_results; reflexivity.
Qed.

Lemma semantic_create_obs_pure V coords emb dist (self : Semantic.env) :
  snd (Semantic.create_obs V coords emb dist self) = self.
Proof.
  unfold Semantic.create_obs, mbind, M_bind, mret, M_ret, St.get, St.lift.
  case_results; reflexivity.
Qed.

(** C9 (as the code has it). In Variants A, B and C, [create_obs]
    writes no attribute of the environment, so a second call with the
    game state untouched returns what the first returned; the
    observation of A and C is a function of the game state alone, the
    one of B also reads the stored [last_pos] and [last_ghost_pos]. *)
Theorem create_obs_pure V coords emb dist :
  (forall self : Naive.env,
      snd (Naive.create_obs V self) = self
      /\ Naive.create_obs V (snd (Naive.create_obs V self))
         = Naive.create_obs V self)
  /\ (forall self self' : Naive.env,
         Naive.game_state self = Naive.game_state self' ->
         fst (Naive.create_obs V self) = fst (Naive.create_obs V self'))
  /\ (forall self : SemanticChannel.env,
         snd (SemanticChannel.create_obs V self) = self
         /\ SemanticChannel.create_obs V (snd (SemanticChannel.create_obs V self))
            = SemanticChannel.create_obs V self)
  /\ (forall self self' : SemanticChannel.env,
         SemanticChannel.game_state self = SemanticChannel.game_state self' ->
         SemanticChannel.last_pos self = SemanticChannel.last_pos self' ->
         SemanticChannel.last_ghost_pos self
           = SemanticChannel.last_ghost_pos self' ->
         fst (SemanticChannel.create_obs V self)
         = fst (SemanticChannel.create_obs V self'))
  /\ (forall self : Semantic.env,
         snd (Semantic.create_obs V coords emb dist self) = self
         /\ Semantic.create_obs V coords emb dist
              (snd (Semantic.create_obs V coords emb dist self))
            = Semantic.create_obs V coords emb dist self)
  /\ (forall self self' : Semantic.env,
         Semantic.game_state self = Semantic.game_state self' ->
         fst (Semantic.create_obs V coords emb dist self)
         = fst (Semantic.create_obs V coords emb dist self')).
Proof.
  repeat split.
  - apply naive_create_obs_pure.
  - now rewrite naive_create_obs_pure.
  - intros self self' H.
    unfold Naive.create_obs, mbind, M_bind, St.get, St.lift. rewrite H.
    case_results; reflexivity.
  - apply channel_create_obs_pure.
  - now rewrite channel_create_obs_pure.
  - intros self self' H1 H2 H3.
    unfold SemanticChannel.create_obs, mbind, M_bind, St.get, St.lift.
    rewrite H1, H2, H3. case_results; reflexivity.
  - apply semantic_create_obs_pure.
  - now rewrite semantic_create_obs_pure.
  - intros self self' H.
    unfold Semantic.create_obs, mbind, M_bind, mret, M_ret, St.get, St.lift.
    rewrite H. case_results; reflexivity.
Qed.

(** Two observations in a row in Variant A leave the environment as it
    was and agree. *)
Lemma create_obs_pure_witness :
  snd (Naive.create_obs Demo.demo_variables Demo.naive_env) = Demo.naive_env
  /\ Naive.create_obs Demo.demo_variables
       (snd (Naive.create_obs Demo.demo_variables Demo.naive_env))
     = Naive.create_obs Demo.demo_variables Demo.naive_env.
Proof.
  destruct (create_obs_pure Demo.demo_variables Demo.demo_node_to_coords
              Demo.demo_node_embeddings Demo.demo_action_distributions)
    as (H & _).
  exact (H Demo.naive_env).
Defined.

(** Variant D, Pacman on (6, 5) with a trail mark on (5, 5): the first
    observation shows the mark at 0.5 and stores it, a second one, the
    game state untouched, shows it at 0.25. *)
Lemma attention_create_obs_not_repeatable :
  let create_obs :=
    SelfAttention.create_obs Demo.demo_variables Demo.demo_math_log
      Demo.demo_np_log in
  let first := create_obs Demo.attention_env_trail in
  let second := create_obs (snd first) in
  is_ok (fst first) = true /\ is_ok (fst second) = true
  /\ SelfAttention.game_state (snd first)
     = SelfAttention.game_state Demo.attention_env_trail
  /\ obs_at (fst first) 0 5 5 = Some Float.half
  /\ obs_at (fst second) 0 5 5
     = Some (S754_finite false 4503599627370496 (-54))
  /\ fst first <> fst second
  /\ snd first <> Demo.attention_env_trail.
Proof.
  intros create_obs first second.
  assert (H1 : obs_at (fst first) 0 5 5 = Some Float.half)
    by (vm_compute; reflexivity).
  assert (H2 : obs_at (fst second) 0 5 5
               = Some (S754_finite false 4503599627370496 (-54)))
    by (vm_compute; reflexivity).
  assert (H3 : at2 (SelfAttention.pacman (snd first)) 5 5 = Some Float.half)
    by (vm_compute; reflexivity).
  repeat split; try assumption; try (vm_compute; reflexivity).
  - intros H. apply (f_equal (fun r => obs_at r 0 5 5)) in H.
    cbv beta in H. rewrite H1, H2 in H. discriminate H.
  - intros H. apply (f_equal (fun e => at2 (SelfAttention.pacman e) 5 5)) in H.
    cbv beta in H. rewrite H3 in H. vm_compute in H. discriminate H.
Qed.

(** Variant B reads more than the game state: two environments over the
    same game state that remember different previous cells give
    different observations. *)
Lemma channel_obs_reads_last_pos :
  let self := Demo.channel_env in
  let self' := SemanticChannel.set_last_pos Demo.channel_env (6, 5) in
  SemanticChannel.game_state self = SemanticChannel.game_state self'
  /\ obs_at (fst (SemanticChannel.create_obs Demo.demo_variables self)) 2 5 5
     = Some Float.one
  /\ obs_at (fst (SemanticChannel.create_obs Demo.demo_variables self')) 2 5 5
     = Some Float.zero.
Proof. repeat split; vm_compute; reflexivity. Qed.

(** ** Unknown action codes *)

(** C4 (as the code has it). For an action code outside 0..4,
    [move_one_cell] binds no [new_pos]: reading it raises
    [UnboundLocalError], before any write, so Pacman's position and the
    rest of the game state are unchanged. *)
Theorem move_one_cell_unknown_action gs action :
  ~ (0 <= action <= 4) ->
  Base.move_one_cell action gs = (Raise UnboundLocalError, gs).
Proof.
  intros Ha. unfold Base.move_one_cell, mbind, M_bind, St.get, St.lift.
  replace (action =? 0) with false by lia.
  replace (action =? 1) with false by lia.
  replace (action =? 2) with false by lia.
  replace (action =? 3) with false by lia.
  replace (action =? 4) with false by lia.
  reflexivity.
Qed.

Lemma move_one_cell_unknown_action_witness :
  Base.move_one_cell (-1) Demo.demo_state
  = (Raise UnboundLocalError, Demo.demo_state).
Proof. apply (move_one_cell_unknown_action Demo.demo_state (-1)). lia. Defined.

(** Action code 5 is not a silent no-op: the call raises. *)
Lemma move_one_cell_action_5_raises :
  fst (Base.move_one_cell 5 Demo.demo_state) = Raise UnboundLocalError
  /\ fst (Base.move_one_cell 5 Demo.demo_state) <> Ok tt.
Proof. split; [reflexivity | discriminate]. Qed.

Lemma move_one_cell_raises gs action :
  ~ (0 <= action <= 4) ->
  Base.move_one_cell action gs = (Raise UnboundLocalError, gs).
Proof.
  intros Ha. unfold Base.move_one_cell, mbind, M_bind, St.get, St.lift.
  replace (action =? 0) with false by lia.
  replace (action =? 1) with false by lia.
  replace (action =? 2) with false by lia.
  replace (action =? 3) with false by lia.
  replace (action =? 4) with false by lia.
  reflexivity.
Qed.

(** * Further facts *)

(** ** Moves and the action mask *)

Lemma target_of_neighbour (i : Z) (p : pos) :
  in_grid p = true -> 1 <= i <= 4 ->
  target i p = if in_grid (neighbour i p) then neighbour i p else p.
Proof.
  intros Hp Hi. apply in_grid_bounds in Hp.
  destruct p as [x y]. cbn [fst snd] in Hp.
  assert (Hc : i = 1 \/ i = 2 \/ i = 3 \/ i = 4) by lia.
  destruct (in_grid (neighbour i (x, y))) eqn:E.
  - apply in_grid_bounds in E.
    destruct Hc as [-> | [-> | [-> | ->]]];
      unfold target, clamp, neighbour, GRID_WIDTH, GRID_HEIGHT in *;
      cbn [fst snd] in *; f_equal; lia.
  - assert (Hn : ~ (0 <= (neighbour i (x, y)).1 < GRID_WIDTH
                    /\ 0 <= (neighbour i (x, y)).2 < GRID_HEIGHT)).
    { intros H. apply in_grid_bounds in H. congruence. }
    destruct Hc as [-> | [-> | [-> | ->]]];
      unfold target, clamp, neighbour, GRID_WIDTH, GRID_HEIGHT in *;
      cbn [fst snd] in *; f_equal; lia.
Qed.

(** The mask and the move agree: a direction the mask marks is a move
    that leaves the game state as it is, and a direction it leaves
    unmarked is a move onto the neighbouring cell. *)
Theorem mask_agrees_with_move gs (i : Z) mask :
  plane_wf (grid gs) = true -> in_grid (pacbot_pos gs) = true ->
  1 <= i <= 4 -> Base.action_mask gs = Ok mask ->
  (mask !! Z.to_nat i = Some 1 -> Base.move_one_cell i gs = (Ok tt, gs))
  /\ (mask !! Z.to_nat i = Some 0 ->
      Base.move_one_cell i gs
      = (Ok tt, pacbot_update gs (neighbour i (pacbot_pos gs)))).
Proof.
  intros Hg Hp Hi Hmask.
  destruct (action_mask_result gs Hg Hp) as (mask' & Hm & ->).
  rewrite Hm in Hmask. injection Hmask as <-.
  set (b := blocked_dir (grid gs) (pacbot_pos gs)).
  assert (Hb : [0; bit (b 1); bit (b 2); bit (b 3); bit (b 4)] !! Z.to_nat i
               = Some (bit (b i))).
  { assert (Hc : i = 1 \/ i = 2 \/ i = 3 \/ i = 4) by lia.
    destruct Hc as [-> | [-> | [-> | ->]]]; reflexivity. }
  rewrite Hb.
  rewrite move_one_cell_result by (assumption || lia).
  rewrite target_of_neighbour by assumption.
  unfold b, blocked_dir.
  destruct (in_grid (neighbour i (pacbot_pos gs))) eqn:En; cbn [negb orb].
  - destruct (is_barrier (cell_at (grid gs) (neighbour i (pacbot_pos gs))));
      cbn [bit]; split; intros H; try discriminate.
    + now rewrite pacbot_update_same.
    + reflexivity.
  - cbn [bit]. split; intros H; try discriminate.
    destruct (is_barrier _); now rewrite pacbot_update_same.
Qed.

Lemma mask_agrees_with_move_witness :
  Base.action_mask Demo.demo_state = Ok [0; 1; 0; 0; 0]
  /\ Base.move_one_cell 1 Demo.demo_state = (Ok tt, Demo.demo_state)
  /\ Base.move_one_cell 3 Demo.demo_state
     = (Ok tt, pacbot_update Demo.demo_state (4, 5)).
Proof.
  split; [reflexivity|].
  destruct (mask_agrees_with_move Demo.demo_state 1 [0; 1; 0; 0; 0])
    as [H1 _]; [reflexivity | reflexivity | lia | reflexivity |].
  split; [apply H1; reflexivity | reflexivity].
Defined.

(** ** Steps that raise *)

(** A step with an action code outside 0..4 raises
    [UnboundLocalError] before the simulation is advanced. Variants A,
    C and D are left exactly as they were; Variant B has by then
    overwritten [last_pos] with Pacman's cell and nothing else. *)
Theorem step_unknown_action V next_step coords emb dist math_log np_log
    (action : Z) :
  ~ (0 <= action <= 4) ->
  (forall self : Naive.env,
      Naive.step V next_step action self = (Raise UnboundLocalError, self))
  /\ (forall self : SemanticChannel.env,
         SemanticChannel.step V next_step action self
         = (Raise UnboundLocalError,
            SemanticChannel.set_last_pos self
              (pacbot_pos (SemanticChannel.game_state self))))
  /\ (forall self : Semantic.env,
         Semantic.step V next_step coords emb dist action self
         = (Raise UnboundLocalError, self))
  /\ (forall self : SelfAttention.env,
         SelfAttention.step V next_step math_log np_log action self
         = (Raise UnboundLocalError, self)).
Proof.
  intros Ha.
  pose proof (fun gs => move_one_cell_raises gs action Ha) as Hm.
  repeat split; intros self.
  - unfold Naive.step, mbind, M_bind, Naive.on_game_state, St.zoom.
    rewrite Hm. now destruct self.
  - unfold SemanticChannel.step, mbind, M_bind, SemanticChannel.on_game_state,
      St.zoom, St.get, St.put.
    cbn [SemanticChannel.game_state SemanticChannel.set_last_pos].
    rewrite Hm. reflexivity.
  - unfold Semantic.step, mbind, M_bind, Semantic.on_game_state, St.zoom.
    rewrite Hm. now destruct self.
  - unfold SelfAttention.step, mbind, M_bind, SelfAttention.on_game_state,
      St.zoom.
    rewrite Hm. now destruct self.
Qed.

Lemma step_unknown_action_witness :
  Naive.step Demo.demo_variables Demo.scoring_engine 9 Demo.naive_env
  = (Raise UnboundLocalError, Demo.naive_env).
Proof.
  destruct (step_unknown_action Demo.demo_variables Demo.scoring_engine
              Demo.demo_node_to_coords Demo.demo_node_embeddings
              Demo.demo_action_distributions Demo.demo_math_log
              Demo.demo_np_log 9) as (H & _); [lia|].
  exact (H Demo.naive_env).
Defined.

(** Variant A with a ghost score of 0: the division raises
    [ZeroDivisionError] once Pacman has moved and the ticks have run;
    the environment keeps the advanced game state and the old
    [last_score]. *)
Theorem naive_step_zero_ghost_score V next_step (self : Naive.env) action :
  let gs1 := snd (Base.move_one_cell action (Naive.game_state self)) in
  let gs2 := Nat.iter (Z.to_nat (Naive.ticks_per_step self)) next_step gs1 in
  ghost_score V = 0 ->
  gs_wf (Naive.game_state self) = true -> 0 <= action <= 4 ->
  Naive.step V next_step action self
  = (Raise ZeroDivisionError, Naive.set_game_state self gs2).
Proof.
  intros gs1 gs2 H0 Hwf Ha.
  pose proof (gs_wf_parts _ Hwf) as (Hg & Hp & _).
  pose proof (move_one_cell_result (Naive.game_state self) action
                ltac:(now apply plane_wf_shape) Hp Ha) as Hm.
  assert (Hm' : Base.move_one_cell action (Naive.game_state self) = (Ok tt, gs1)).
  { unfold gs1. now rewrite Hm. }
  unfold Naive.step, mbind, M_bind, Naive.on_game_state, St.zoom, St.get,
    St.put, St.lift, Base.run_ticks.
  rewrite Hm'.
  cbn [Naive.game_state Naive.set_game_state Naive.ticks_per_step
       Naive.last_score].
  fold gs2. unfold Float.int_truediv. rewrite H0. reflexivity.
Qed.

Lemma naive_step_zero_ghost_score_witness :
  Naive.step
    {| ghost_score := 0; pellet_score := 10; cherry_score := 100;
       power_pellet_score := 50; starting_lives := 3;
       frightened_length := 40; var_c := 6; var_O := 4 |}
    Demo.scoring_engine 4 Demo.naive_env
  = (Raise ZeroDivisionError,
     Naive.set_game_state Demo.naive_env
       (Demo.set_score (pacbot_update Demo.demo_state (6, 5)) 200)).
Proof.
  apply (naive_step_zero_ghost_score _ Demo.scoring_engine Demo.naive_env 4);
    [reflexivity | reflexivity | lia].
Defined.

(** Variant D when the score has not risen above [last_score - 1]:
    [math.log] of a non-positive number raises [ValueError] once Pacman
    has moved and the ticks have run; [last_score] and the trail maps
    are as before the step. *)
Theorem attention_step_log_domain V next_step math_log np_log
    (self : SelfAttention.env) action :
  let gs1 := snd (Base.move_one_cell action (SelfAttention.game_state self)) in
  let gs2 :=
    Nat.iter (Z.to_nat (SelfAttention.ticks_per_step self)) next_step gs1 in
  gs_wf (SelfAttention.game_state self) = true -> 0 <= action <= 4 ->
  score gs2 < SelfAttention.last_score self ->
  SelfAttention.step V next_step math_log np_log action self
  = (Raise ValueError, SelfAttention.set_game_state self gs2).
Proof.
  intros gs1 gs2 Hwf Ha Hs.
  pose proof (gs_wf_parts _ Hwf) as (Hg & Hp & _).
  pose proof (move_one_cell_result (SelfAttention.game_state self) action
                ltac:(now apply plane_wf_shape) Hp Ha) as Hm.
  assert (Hm' : Base.move_one_cell action (SelfAttention.game_state self)
                = (Ok tt, gs1)).
  { unfold gs1. now rewrite Hm. }
  unfold SelfAttention.step, mbind, M_bind, SelfAttention.on_game_state,
    St.zoom, St.get, St.put, St.lift, Base.run_ticks, SelfAttention.log_int.
  rewrite Hm'.
  cbn [SelfAttention.game_state SelfAttention.set_game_state
       SelfAttention.ticks_per_step SelfAttention.last_score].
  fold gs2.
  replace (1 + score gs2 - SelfAttention.last_score self <=? 0) with true
    by lia.
  reflexivity.
Qed.

Lemma attention_step_log_domain_witness :
  SelfAttention.step Demo.demo_variables Demo.idle_engine
    Demo.demo_math_log Demo.demo_np_log 0 Demo.attention_env_behind
  = (Raise ValueError, Demo.attention_env_behind).
Proof.
  apply (attention_step_log_domain Demo.demo_variables Demo.idle_engine
           Demo.demo_math_log Demo.demo_np_log Demo.attention_env_behind 0);
    [reflexivity | lia | reflexivity].
Defined.

(** ** The tick loop of Variant B *)

Lemma ticks_taken_positive next_step n gs :
  (0 < n)%nat -> (0 < ticks_taken next_step n gs)%nat.
Proof.
  destruct n as [|n]; [lia|]. intros _. cbn [ticks_taken].
  destruct (play (next_step gs)); lia.
Qed.

Lemma ticks_taken_stops next_step n gs :
  (ticks_taken next_step n gs < n)%nat ->
  play (SemanticChannel.ticks_until_stop next_step n gs) = false.
Proof.
  revert gs. induction n as [|n IH]; intros gs H; [cbn in H; lia|].
  cbn [ticks_taken SemanticChannel.ticks_until_stop] in *.
  destruct (play (next_step gs)) eqn:E; [|exact E].
  apply IH. lia.
Qed.

Lemma ticks_taken_playing next_step n gs k :
  (0 < k < ticks_taken next_step n gs)%nat ->
  play (Nat.iter k next_step gs) = true.
Proof.
  revert gs k. induction n as [|n IH]; intros gs k H; [cbn in H; lia|].
  cbn [ticks_taken] in H.
  destruct (play (next_step gs)) eqn:E; [|lia].
  destruct k as [|k]; [lia|]. rewrite Nat.iter_succ_r.
  destruct k as [|k]; [exact E|]. apply IH. lia.
Qed.

(** The loop of Variant B runs [next_step] at least once when its budget
    is positive, even on a game that is already over; it runs it as
    many times as [ticks_taken] says, which is within the budget; the
    game was playing after every tick but the last; and when the loop
    ends short of the budget the game is not playing. *)
Theorem ticks_until_stop_spec next_step (n : nat) gs :
  let k := ticks_taken next_step n gs in
  SemanticChannel.ticks_until_stop next_step n gs = Nat.iter k next_step gs
  /\ (k <= n)%nat
  /\ ((0 < n)%nat -> (0 < k)%nat)
  /\ (forall j, (0 < j < k)%nat -> play (Nat.iter j next_step gs) = true)
  /\ ((k < n)%nat -> play (Nat.iter k next_step gs) = false).
Proof.
  intros k. split; [apply ticks_until_stop_taken|].
  split; [apply ticks_taken_le|]. split; [apply ticks_taken_positive|].
  split; [intros j; apply ticks_taken_playing|].
  intros H. unfold k. rewrite <- ticks_until_stop_taken.
  now apply ticks_taken_stops.
Qed.

(** A budget of 16 ticks on a game that ends at its first tick. *)
Lemma ticks_until_stop_spec_witness :
  SemanticChannel.ticks_until_stop Demo.fatal_engine 16 Demo.demo_state
  = Demo.fatal_engine Demo.demo_state
  /\ play (Demo.fatal_engine Demo.demo_state) = false.
Proof.
  destruct (ticks_until_stop_spec Demo.fatal_engine 16 Demo.demo_state)
    as (H & _ & _ & _ & Hstop).
  split; [exact H|]. apply Hstop. vm_compute. lia.
Defined.

(** ** Reading the observations *)

Lemma at2_map2d {A B} (f : A -> B) (a : list (list A)) (i j : Z) :
  at2 (Np.map2d f a) i j = f <$> at2 a i j.
Proof.
  unfold at2, Np.map2d. rewrite list_lookup_fmap.
  destruct (a !! Z.to_nat i) as [row|]; [|reflexivity].
  cbn. now rewrite list_lookup_fmap.
Qed.

Lemma at2_cell_at (g : list (list Z)) (q : pos) :
  in_grid q = true -> at2 g q.1 q.2 = cell_at g q.
Proof. intros Hq. unfold at2, cell_at. now rewrite Hq. Qed.

Lemma cell_at_in_grid (g : list (list Z)) (q : pos) :
  Np.shape2 g = grid_shape -> in_grid q = true ->
  exists c, cell_at g q = Some c.
Proof.
  intros Hg Hq. destruct (plane_cell g q Hg Hq) as (col & c & Hcol & Hc & _).
  exists c. unfold cell_at. now rewrite Hq, Hcol.
Qed.

(** An in-range store changes the one cell it names. *)
Lemma setitem2_in_grid_at {A} (a : list (list A)) (p : pos) v :
  Np.shape2 a = grid_shape -> in_grid p = true ->
  exists a', Py.setitem2 a p.1 p.2 v = Ok a'
             /\ Np.shape2 a' = grid_shape
             /\ forall q : pos, in_grid q = true ->
                  at2 a' q.1 q.2
                  = if bool_decide (q = p) then Some v else at2 a q.1 q.2.
Proof.
  intros Hs Hp.
  destruct (plane_cell a p Hs Hp) as (col & x & Hcol & Hx & Hi1 & Hi2).
  pose proof Hp as Hp'. apply in_grid_bounds in Hp'. destruct Hp' as [Hpx Hpy].
  pose proof (lookup_lt_Some _ _ _ Hcol) as Hlt1.
  pose proof (lookup_lt_Some _ _ _ Hx) as Hlt2.
  destruct (setitem2_in_grid a p v Hs Hp) as (a' & Hset & Hs' & _).
  exists a'. split; [exact Hset|]. split; [exact Hs'|].
  assert (Ha' : a' = <[Z.to_nat p.1 := <[Z.to_nat p.2 := v]> col]> a).
  { unfold Py.setitem2 in Hset. rewrite Hi1 in Hset.
    cbn [mbind result_bind] in Hset.
    rewrite setitem_in_range in Hset by lia. cbn [mbind result_bind] in Hset.
    rewrite setitem_in_range in Hset by lia. now injection Hset. }
  subst a'. intros q Hq. apply in_grid_bounds in Hq. destruct Hq as [Hqx Hqy].
  unfold at2. destruct q as [qx qy], p as [px py]. cbn [fst snd] in *.
  destruct (decide (qx = px)) as [->|Hne1].
  - rewrite list_lookup_insert_eq by assumption. rewrite Hcol.
    destruct (decide (qy = py)) as [->|Hne2].
    + rewrite bool_decide_eq_true_2 by reflexivity.
      now rewrite list_lookup_insert_eq by assumption.
    + rewrite bool_decide_eq_false_2 by congruence.
      rewrite list_lookup_insert_ne by lia. reflexivity.
  - rewrite bool_decide_eq_false_2 by congruence.
    rewrite list_lookup_insert_ne by lia. reflexivity.
Qed.

(** Variant A's observation, cell by cell: two planes over the grid,
    the first the cell code divided by [c], the second the code of the
    first entity on the cell in the order Pacman, red, blue, pink,
    orange, and 0 on a cell with no entity. *)
Theorem naive_obs_channels V (self : Naive.env) :
  let gs := Naive.game_state self in
  gs_wf gs = true ->
  exists g e,
    Naive.create_obs V self = (Ok [g; e], self)
    /\ Np.shape2 g = grid_shape /\ Np.shape2 e = grid_shape
    /\ forall q : pos, in_grid q = true ->
         exists c, cell_at (grid gs) q = Some c
           /\ at2 g q.1 q.2
              = Some (Float.div (Float.of_int c) (Float.of_int (var_c V)))
           /\ at2 e q.1 q.2 = Some (Float.of_int (entity_code gs q)).
Proof.
  intros gs Hwf. apply gs_wf_parts in Hwf.
  destruct Hwf as (Hg & Hp & Hr & Hk & Ho & Hb). fold gs in Hg, Hp, Hr, Hk, Ho, Hb.
  set (g := Np.int_div_scalar (grid gs) (var_c V)).
  assert (Hsg : Np.shape2 g = grid_shape).
  { unfold g, Np.int_div_scalar. now rewrite shape2_map2d. }
  assert (Hs0 : Np.shape2 (Np.zeros2 g) = grid_shape).
  { unfold Np.zeros2. now rewrite shape2_map2d. }
  set (code := fun i : Z =>
         Float.of_int (if is_frightened gs && (0 <? i) then -1 else i + 1)).
  destruct (setitem2_in_grid_at (Np.zeros2 g) (orange_current gs) (code 4) Hs0 Ho)
    as (e4 & He4 & Hs4 & At4).
  destruct (setitem2_in_grid_at e4 (pink_current gs) (code 3) Hs4 Hk)
    as (e3 & He3 & Hs3 & At3).
  destruct (setitem2_in_grid_at e3 (blue_current gs) (code 2) Hs3 Hb)
    as (e2 & He2 & Hs2 & At2).
  destruct (setitem2_in_grid_at e2 (red_current gs) (code 1) Hs2 Hr)
    as (e1 & He1 & Hs1 & At1).
  destruct (setitem2_in_grid_at e1 (pacbot_pos gs) (code 0) Hs1 Hp)
    as (e0 & He0 & Hs0' & At0).
  exists g, e0. split; [|split; [exact Hsg|split; [exact Hs0'|]]].
  - unfold Naive.create_obs, mbind, M_bind, St.get, St.lift.
    fold gs. fold g.
    change (reverse (enumerate [pacbot_pos gs; red_current gs; blue_current gs;
                                pink_current gs; orange_current gs]))
      with [(4, orange_current gs); (3, pink_current gs); (2, blue_current gs);
            (1, red_current gs); (0, pacbot_pos gs)].
    cbn [foldM]. fold (code 4). rewrite He4. fold (code 3). rewrite He3.
    fold (code 2). rewrite He2. fold (code 1). rewrite He1.
    fold (code 0). rewrite He0.
    rewrite stack_grid; [reflexivity|].
    repeat constructor; assumption.
  - intros q Hq. destruct (cell_at_in_grid (grid gs) q Hg Hq) as (c & Hc).
    exists c. split; [exact Hc|]. split.
    + unfold g, Np.int_div_scalar. rewrite at2_map2d, at2_cell_at, Hc by assumption.
      reflexivity.
    + rewrite At0, At1, At2, At3, At4 by assumption.
      unfold Np.zeros2. rewrite at2_map2d.
      unfold g, Np.int_div_scalar. rewrite at2_map2d, at2_cell_at, Hc by assumption.
      unfold entity_code, code. cbn [fmap option_fmap option_map].
      repeat (destruct (bool_decide _); [now destruct (is_frightened gs)|]).
      reflexivity.
Qed.

(** Red on (1, 1), frightened; no entity on (0, 0). *)
Lemma naive_obs_channels_witness :
  exists g e,
    Naive.create_obs Demo.demo_variables Demo.naive_env
      = (Ok [g; e], Demo.naive_env)
    /\ at2 e 1 1 = Some Float.minus_one
    /\ at2 e 0 0 = Some Float.zero.
Proof.
  destruct (naive_obs_channels Demo.demo_variables Demo.naive_env)
    as (g & e & Hobs & _ & _ & Hat); [reflexivity|].
  exists g, e. split; [exact Hobs|]. split.
  - destruct (Hat (1, 1)) as (c & _ & _ & H); [reflexivity|]. exact H.
  - destruct (Hat (0, 0)) as (c & _ & _ & H); [reflexivity|]. exact H.
Defined.

Lemma at3_zeros3 {A} (n : nat) (g : list (list A)) (k : nat) (q : pos) :
  Np.shape2 g = grid_shape -> in_grid q = true -> (k < n)%nat ->
  at3 (Np.zeros3 n g) k q.1 q.2 = Some Float.zero.
Proof.
  intros Hg Hq Hk. unfold at3, Np.zeros3.
  rewrite lookup_replicate_2 by assumption.
  unfold Np.zeros2. rewrite at2_map2d.
  destruct (plane_cell g q Hg Hq) as (col & x & Hcol & Hx & _).
  unfold at2. now rewrite Hcol, Hx.
Qed.

Lemma at3_skip {A} (l1 l2 : list (list (list A))) (n k : nat) i j :
  length l1 = n -> at3 (l1 ++ l2) (n + k) i j = at3 l2 k i j.
Proof.
  intros <-. unfold at3. rewrite lookup_app_r by lia.
  now replace (length l1 + k - length l1)%nat with k by lia.
Qed.

Lemma at3_take {A} (l1 l2 : list (list (list A))) (k : nat) i j :
  (k < length l1)%nat -> at3 (l1 ++ l2) k i j = at3 l1 k i j.
Proof. intros H. unfold at3. now rewrite lookup_app_l. Qed.

(** A store into a stack of planes changes the one cell it names. *)
Lemma setitem3_in_grid_at {A} n (a : list (list (list A))) (k : Z) (p : pos) v :
  planes n a -> 0 <= k < Z.of_nat n -> in_grid p = true ->
  exists a', Py.setitem3 a k p.1 p.2 v = Ok a' /\ planes n a'
    /\ forall (k' : nat) (q : pos), in_grid q = true ->
         at3 a' k' q.1 q.2
         = if bool_decide (k' = Z.to_nat k /\ q = p) then Some v
           else at3 a k' q.1 q.2.
Proof.
  intros [Hl Hf] Hk Hp.
  destruct (index_in_range a k) as (pl & Hpl & Hi); [lia|].
  assert (Hs : Np.shape2 pl = grid_shape).
  { rewrite Forall_forall in Hf. apply Hf. eapply list_elem_of_lookup_2, Hpl. }
  destruct (setitem2_in_grid_at pl p v Hs Hp) as (pl' & Hset & Hs' & Hat).
  exists (<[Z.to_nat k := pl']> a). split; [|split].
  - unfold Py.setitem3. rewrite Hi. cbn [mbind result_bind].
    rewrite Hset. cbn [mbind result_bind].
    apply setitem_in_range. lia.
  - split; [now rewrite length_insert|]. apply Forall_insert; assumption.
  - intros k' q Hq. unfold at3.
    destruct (decide (k' = Z.to_nat k)) as [->|Hne].
    + rewrite list_lookup_insert_eq by lia. rewrite Hpl, Hat by assumption.
      destruct (decide (q = p)) as [->|Hqp].
      * now rewrite !bool_decide_eq_true_2 by auto.
      * rewrite !bool_decide_eq_false_2 by tauto. reflexivity.
    + rewrite list_lookup_insert_ne by congruence.
      rewrite bool_decide_eq_false_2 by tauto. reflexivity.
Qed.

(** One mark per listed position on planes [start], [start + 1], ... of
    a stack that was blank. *)
Lemma foldM_setitem3_at n (l : list pos) :
  forall (start : nat) (a : Np.array3),
    planes n a -> (start + length l <= n)%nat ->
    forallb in_grid l = true ->
    exists a',
      foldM (fun acc '(i, q) => Py.setitem3 acc i q.1 q.2 Float.one)
            (zip (seqZ (Z.of_nat start) (Z.of_nat (length l))) l) a = Ok a'
      /\ planes n a'
      /\ forall (k : nat) (q : pos), in_grid q = true ->
           at3 a' k q.1 q.2
           = match (if bool_decide (start <= k)%nat
                    then l !! (k - start)%nat else None) with
             | Some p => if bool_decide (q = p) then Some Float.one
                         else at3 a k q.1 q.2
             | None => at3 a k q.1 q.2
             end.
Proof.
  induction l as [|p l IH]; intros start a Ha Hn Hin.
  - exists a. split; [reflexivity|]. split; [exact Ha|].
    intros k q _. now destruct (bool_decide _).
  - cbn [length forallb] in *. apply andb_true_iff in Hin. destruct Hin as [Hp Hin].
    rewrite Nat2Z.inj_succ, seqZ_cons by lia.
    cbn [zip zip_with foldM].
    destruct (setitem3_in_grid_at n a (Z.of_nat start) p Float.one Ha
                ltac:(lia) Hp) as (a1 & H1 & Ha1 & At1).
    rewrite H1.
    replace (Z.pred (Z.succ (Z.of_nat (length l)))) with (Z.of_nat (length l))
      by lia.
    replace (Z.succ (Z.of_nat start)) with (Z.of_nat (S start)) by lia.
    destruct (IH (S start) a1 Ha1 ltac:(lia) Hin) as (a' & Hf & Ha' & At').
    exists a'. split; [exact Hf|]. split; [exact Ha'|].
    intros k q Hq. rewrite At', At1 by assumption.
    rewrite Nat2Z.id.
    destruct (decide (k = start)) as [->|Hne].
    + rewrite (bool_decide_eq_false_2 (S start <= start)%nat) by lia.
      rewrite (bool_decide_eq_true_2 (start <= start)%nat) by lia.
      replace (start - start)%nat with 0%nat by lia. cbn [lookup list_lookup].
      destruct (decide (q = p)) as [->|Hqp].
      * now rewrite !bool_decide_eq_true_2 by auto.
      * rewrite !bool_decide_eq_false_2 by tauto. reflexivity.
    + rewrite (bool_decide_eq_false_2 (k = start /\ q = p)) by tauto.
      destruct (decide (S start <= k)%nat) as [Hle|Hgt].
      * rewrite !bool_decide_eq_true_2 by lia.
        replace (k - start)%nat with (S (k - S start)) by lia. reflexivity.
      * rewrite !bool_decide_eq_false_2 by lia. reflexivity.
Qed.

Lemma list_of_length_2 {A} (l : list A) :
  length l = 2%nat -> exists a b, l = [a; b].
Proof. destruct l as [|a [|b [|c l]]]; try discriminate. eauto. Qed.

Lemma list_of_length_4 {A} (l : list A) :
  length l = 4%nat -> exists a b c d, l = [a; b; c; d].
Proof.
  destruct l as [|a [|b [|c [|d [|e l]]]]]; try discriminate. eauto 6.
Qed.

Lemma bool_decide_plane (k i : nat) (q p : pos) :
  bool_decide (k = i /\ q = p) = Nat.eqb k i && bool_decide (q = p).
Proof.
  destruct (Nat.eqb_spec k i) as [->|Hne]; cbn [andb].
  - apply bool_decide_ext. tauto.
  - apply bool_decide_eq_false_2. tauto.
Qed.

(** Variant B's observation: fifteen planes over the grid. Plane 0
    marks the wall and door cells, plane 2 the cell Pacman stood on
    before the last step, plane 3 Pacman's cell, planes 4 to 7 the cell
    of each ghost, and planes 8 to 11 the remembered ghost cells. *)
Theorem channel_obs_channels V (self : SemanticChannel.env) :
  let gs := SemanticChannel.game_state self in
  gs_wf gs = true -> phase_wf gs = true ->
  ghost_list_wf (SemanticChannel.last_ghost_pos self) = true ->
  in_grid (SemanticChannel.last_pos self) = true ->
  is_ok (Float.int_truediv (frightened_counter gs) (frightened_length V)) = true ->
  exists obs,
    SemanticChannel.create_obs V self = (Ok obs, self)
    /\ planes 15 obs
    /\ forall q : pos, in_grid q = true ->
         at3 obs 0 q.1 q.2 = Some (mark (is_barrier (cell_at (grid gs) q)))
         /\ at3 obs 2 q.1 q.2
            = Some (mark (bool_decide (q = SemanticChannel.last_pos self)))
         /\ at3 obs 3 q.1 q.2 = Some (mark (bool_decide (q = pacbot_pos gs)))
         /\ (forall (i : nat) p,
               SemanticChannel.ghost_positions gs !! i = Some p ->
               at3 obs (4 + i) q.1 q.2 = Some (mark (bool_decide (q = p))))
         /\ (forall (i : nat) p,
               SemanticChannel.last_ghost_pos self !! i = Some p ->
               at3 obs (8 + i) q.1 q.2 = Some (mark (bool_decide (q = p)))).
Proof.
  intros gs Hwf Hph Hl Hlp Hfc.
  apply gs_wf_parts in Hwf. destruct Hwf as (Hg & Hp & Hr & Hk & Ho & Hb).
  fold gs in Hg, Hp, Hr, Hk, Ho, Hb.
  unfold phase_wf in Hph. apply andb_true_iff in Hph.
  unfold ghost_list_wf in Hl. apply andb_true_iff in Hl. destruct Hl as [Hl4 Hlin].
  destruct (Float.int_truediv (frightened_counter gs) (frightened_length V))
    as [fc|] eqn:Efc; [|discriminate].
  set (st := state gs - 1).
  assert (Hst : 0 <= st < Z.of_nat 3) by (unfold st; lia).
  pose proof (planes_zeros3 4 (grid gs) Hg) as G0.
  pose proof (planes_zeros3 3 (grid gs) Hg) as S0.
  destruct (setitem3_in_grid_at 4 _ 0 (red_current gs) Float.one G0 ltac:(lia) Hr)
    as (g1 & Eg1 & G1 & A1).
  destruct (setitem3_in_grid 3 _ st (red_current gs) Float.one S0 Hst Hr)
    as (s1 & Es1 & S1).
  destruct (setitem3_in_grid_at 4 _ 1 (pink_current gs) Float.one G1 ltac:(lia) Hk)
    as (g2 & Eg2 & G2 & A2).
  destruct (setitem3_in_grid 3 _ st (pink_current gs) Float.one S1 Hst Hk)
    as (s2 & Es2 & S2).
  destruct (setitem3_in_grid_at 4 _ 2 (orange_current gs) Float.one G2 ltac:(lia) Ho)
    as (g3 & Eg3 & G3 & A3).
  destruct (setitem3_in_grid 3 _ st (orange_current gs) Float.one S2 Hst Ho)
    as (s3 & Es3 & S3).
  destruct (setitem3_in_grid_at 4 _ 3 (blue_current gs) Float.one G3 ltac:(lia) Hb)
    as (g4 & Eg4 & G4 & A4).
  destruct (setitem3_in_grid 3 _ st (blue_current gs) fc S3 Hst Hb)
    as (s4 & Es4 & S4).
  destruct (foldM_setitem3_at 4 (SemanticChannel.last_ghost_pos self) 0
              _ G0 ltac:(lia) Hlin) as (lg & Elg & LG & ALG).
  pose proof (planes_zeros3 2 (grid gs) Hg) as P0.
  destruct (setitem3_in_grid_at 2 _ 0 (SemanticChannel.last_pos self) Float.one
              P0 ltac:(lia) Hlp) as (p1 & Ep1 & P1 & AP1).
  destruct (setitem3_in_grid_at 2 _ 1 (pacbot_pos gs) Float.one P1 ltac:(lia) Hp)
    as (p2 & Ep2 & P2 & AP2).
  set (wall := Np.as_float
         (Np.map2d (fun z : Z => if (z =? 1) || (z =? 5) then 1 else 0) (grid gs))).
  assert (Hw : Np.shape2 wall = grid_shape).
  { unfold wall, Np.as_float. now rewrite !shape2_map2d. }
  set (reward :=
    Np.int_div_scalar
      (Np.int_add
         (Np.int_add
            (Np.int_add
               (Np.int_scale (Np.where_eq (grid gs) 2) (pellet_score V))
               (Np.int_scale (Np.where_eq (grid gs) 6) (cherry_score V)))
            (Np.int_scale (Np.where_eq (grid gs) 4) (power_pellet_score V)))
         (Np.int_scale
            (Np.int_scale (Np.int_sum0 (grid gs) (map Np.where_pos g4))
               (if is_frightened gs then 1 else 0)) (ghost_score V)))
      (ghost_score V)).
  assert (Hrw : Np.shape2 reward = grid_shape).
  { unfold reward, Np.int_div_scalar, Np.int_add, Np.int_scale, Np.where_eq.
    rewrite shape2_map2d.
    repeat (apply shape2_zip2d); rewrite ?shape2_map2d; try assumption.
    apply shape2_int_sum0; [assumption|].
    apply Forall_fmap. destruct G4 as [_ G4].
    eapply Forall_impl; [exact G4|]. intros pl Hpl. cbn.
    unfold Np.where_pos. now rewrite shape2_map2d. }
  exists ([wall; reward] ++ p2 ++ g4 ++ lg ++ s4).
  assert (Hall : Forall (fun p => Np.shape2 p = grid_shape)
                   ([wall; reward] ++ p2 ++ g4 ++ lg ++ s4)).
  { rewrite !Forall_app. destruct G4, LG, S4, P2.
    repeat split; try assumption. repeat constructor; assumption. }
  split; [|split].
  - unfold SemanticChannel.create_obs, mbind, M_bind, St.get, St.lift.
    fold gs. unfold SemanticChannel.ghost_positions.
    change (enumerate [red_current gs; pink_current gs; orange_current gs;
                       blue_current gs])
      with [(0, red_current gs); (1, pink_current gs); (2, orange_current gs);
            (3, blue_current gs)].
    cbn [foldM]. fold st.
    rewrite Eg1. cbn [result_bind negb Z.eqb]. rewrite Es1. cbn [result_bind].
    rewrite Eg2. cbn [result_bind negb Z.eqb Pos.eqb]. rewrite Es2. cbn [result_bind].
    rewrite Eg3. cbn [result_bind negb Z.eqb Pos.eqb]. rewrite Es3. cbn [result_bind].
    rewrite Eg4. cbn [result_bind negb Z.eqb Pos.eqb]. rewrite Efc.
    cbn [result_bind]. rewrite Es4. cbn [result_bind].
    unfold enumerate. change (Z.of_nat 0) with 0 in Elg. rewrite Elg, Ep1, Ep2.
    fold wall. fold reward.
    rewrite (stack_planes [wall; reward]);
      [|discriminate|repeat constructor; assumption].
    cbn [result_bind]. unfold Np.concatenate. cbn [concat].
    rewrite app_nil_r.
    rewrite stack_planes; [reflexivity|discriminate|exact Hall].
  - split; [|exact Hall].
    destruct G4 as [L4 _], LG as [LL _], S4 as [LS _], P2 as [LP _].
    rewrite !length_app, L4, LL, LS, LP. reflexivity.
  - intros q Hq.
    destruct P2 as [LP _], G4 as [L4 _], LG as [LL _].
    split; [|split; [|split; [|split]]].
    + cbn [app at3 lookup list_lookup]. unfold wall, Np.as_float.
      rewrite !at2_map2d, at2_cell_at by assumption.
      destruct (cell_at_in_grid (grid gs) q Hg Hq) as (c & ->).
      cbn [fmap option_fmap option_map is_barrier]. unfold Py.in_1_5.
      now destruct ((c =? 1) || (c =? 5)).
    + change 2%nat with (2 + 0)%nat.
      rewrite (at3_skip [wall; reward]) by reflexivity.
      rewrite at3_take by lia.
      rewrite AP2, AP1 by assumption.
      rewrite (bool_decide_eq_false_2 (0%nat = Z.to_nat 1 /\ _)) by (cbn; lia).
      rewrite at3_zeros3 by (assumption || lia).
      destruct (decide (q = SemanticChannel.last_pos self)) as [->|Hne].
      * now rewrite !bool_decide_eq_true_2 by auto.
      * rewrite !bool_decide_eq_false_2 by tauto. reflexivity.
    + change 3%nat with (2 + 1)%nat.
      rewrite (at3_skip [wall; reward]) by reflexivity.
      rewrite at3_take by lia.
      rewrite AP2, AP1 by assumption.
      rewrite (bool_decide_eq_false_2 (1%nat = Z.to_nat 0 /\ _)) by (cbn; lia).
      rewrite at3_zeros3 by (assumption || lia).
      destruct (decide (q = pacbot_pos gs)) as [->|Hne].
      * now rewrite !bool_decide_eq_true_2 by auto.
      * rewrite !bool_decide_eq_false_2 by tauto. reflexivity.
    + intros i p Hi.
      assert (Hi4 : (i < 4)%nat) by (apply lookup_lt_Some in Hi; exact Hi).
      change (4 + i)%nat with (2 + (2 + i))%nat.
      rewrite (at3_skip [wall; reward]) by reflexivity.
      rewrite (at3_skip p2) by assumption.
      rewrite at3_take by lia.
      rewrite A4, A3, A2, A1 by assumption.
      rewrite at3_zeros3 by (assumption || lia).
      unfold SemanticChannel.ghost_positions in Hi.
      rewrite !bool_decide_plane.
      change (Z.to_nat 0) with 0%nat. change (Z.to_nat 1) with 1%nat.
      change (Z.to_nat 2) with 2%nat. change (Z.to_nat 3) with 3%nat.
      destruct i as [|[|[|[|i]]]]; [| | | |lia];
        cbn [lookup list_lookup] in Hi; injection Hi as <-;
        cbn [Nat.eqb andb]; now destruct (bool_decide _).
    + intros i p Hi.
      assert (Hi4 : (i < 4)%nat).
      { apply lookup_lt_Some in Hi. lia. }
      change (8 + i)%nat with (2 + (2 + (4 + i)))%nat.
      rewrite (at3_skip [wall; reward]) by reflexivity.
      rewrite (at3_skip p2) by assumption.
      rewrite (at3_skip g4) by assumption.
      rewrite at3_take by lia.
      rewrite ALG by assumption.
      rewrite bool_decide_eq_true_2 by lia.
      replace (i - 0)%nat with i by lia. rewrite Hi.
      rewrite at3_zeros3 by (assumption || lia).
      now destruct (bool_decide (q = p)).
Qed.

(** The wall on (5, 6) shows on plane 0, the pink ghost on (5, 5) on
    plane 5. *)
Lemma channel_obs_channels_witness :
  exists obs,
    SemanticChannel.create_obs Demo.demo_variables Demo.channel_env
      = (Ok obs, Demo.channel_env)
    /\ at3 obs 0 5 6 = Some Float.one
    /\ at3 obs 5 5 5 = Some Float.one
    /\ at3 obs 5 5 4 = Some Float.zero.
Proof.
  destruct (channel_obs_channels Demo.demo_variables Demo.channel_env)
    as (obs & Hobs & _ & Hat);
    [reflexivity | reflexivity | reflexivity | reflexivity | reflexivity |].
  exists obs. split; [exact Hobs|].
  destruct (Hat (5, 6)) as (Hw & _); [reflexivity|].
  destruct (Hat (5, 5)) as (_ & _ & _ & Hg & _); [reflexivity|].
  destruct (Hat (5, 4)) as (_ & _ & _ & Hg' & _); [reflexivity|].
  split; [exact Hw|]. split.
  - exact (Hg 1%nat (5, 5) eq_refl).
  - exact (Hg' 1%nat (5, 5) eq_refl).
Defined.

Lemma pos_changed_ghosts gs gs' :
  SemanticChannel.pos_changed (SemanticChannel.ghost_positions gs)
                              (SemanticChannel.ghost_positions gs')
  = negb (bool_decide (SemanticChannel.ghost_positions gs
                       = SemanticChannel.ghost_positions gs')).
Proof.
  unfold SemanticChannel.pos_changed, SemanticChannel.ghost_positions.
  cbn [zip zip_with existsb]. rewrite !bool_decide_not.
  repeat case_bool_decide; cbn [negb orb];
    first [reflexivity | congruence | exfalso; congruence].
Qed.

(** What a step of Variant B leaves in the environment: the action as
    [last_action], the cell Pacman stood on before the move as
    [last_pos], the engine's score as [last_score], and as
    [last_ghost_pos] the ghosts' cells from before the ticks when at
    least one ghost changed cell during them, the old value when none
    did. *)
Theorem channel_step_bookkeeping V next_step (self : SemanticChannel.env)
    action q :
  let gs0 := SemanticChannel.game_state self in
  let gs1 := snd (Base.move_one_cell action gs0) in
  let mult := SemanticChannel.tick_mult (SemanticChannel.last_action self) action in
  let gs2 :=
    SemanticChannel.ticks_until_stop next_step
      (Z.to_nat (SemanticChannel.ticks_per_step self * mult)) gs1 in
  gs_wf gs0 = true -> 0 <= action <= 4 ->
  gs_wf gs2 = true -> phase_wf gs2 = true ->
  ghost_list_wf (SemanticChannel.last_ghost_pos self) = true ->
  is_ok (Float.int_truediv (frightened_counter gs2) (frightened_length V)) = true ->
  Float.int_truediv (score gs2 - SemanticChannel.last_score self) (ghost_score V)
    = Ok q ->
  exists out self',
    SemanticChannel.step V next_step action self = (Ok out, self')
    /\ SemanticChannel.game_state self' = gs2
    /\ SemanticChannel.last_action self' = action
    /\ SemanticChannel.last_pos self' = pacbot_pos gs0
    /\ SemanticChannel.last_score self' = score gs2
    /\ SemanticChannel.ticks_per_step self' = SemanticChannel.ticks_per_step self
    /\ (SemanticChannel.ghost_positions gs2 = SemanticChannel.ghost_positions gs0 ->
        SemanticChannel.last_ghost_pos self'
        = SemanticChannel.last_ghost_pos self)
    /\ (SemanticChannel.ghost_positions gs2 <> SemanticChannel.ghost_positions gs0 ->
        SemanticChannel.last_ghost_pos self'
        = SemanticChannel.ghost_positions gs0).
Proof.
  intros gs0 gs1 mult gs2 Hwf Ha Hwf2 Hph Hl Hfc Hq.
  pose proof (gs_wf_parts _ Hwf) as (Hg & Hp & Hr & Hk & Ho & Hb).
  pose proof (move_one_cell_result gs0 action
                ltac:(now apply plane_wf_shape) Hp Ha) as Hm.
  assert (Hm' : Base.move_one_cell action gs0 = (Ok tt, gs1)).
  { unfold gs1. now rewrite Hm. }
  assert (Hgh : SemanticChannel.ghost_positions gs1
                = SemanticChannel.ghost_positions gs0).
  { unfold gs1. rewrite Hm. reflexivity. }
  pose proof (gs_wf_parts _ Hwf2) as (Hg2 & Hp2 & _).
  destruct (action_mask_result gs2 ltac:(now apply plane_wf_shape) Hp2)
    as (mask & Hmask & _).
  assert (Hgp : ghost_list_wf (SemanticChannel.ghost_positions gs1) = true).
  { rewrite Hgh. unfold ghost_list_wf, SemanticChannel.ghost_positions.
    cbn [length forallb]. fold gs0. rewrite Hr, Hk, Ho, Hb. reflexivity. }
  set (lgp := if SemanticChannel.pos_changed
                   (SemanticChannel.ghost_positions gs1)
                   (SemanticChannel.ghost_positions gs2)
              then SemanticChannel.ghost_positions gs1
              else SemanticChannel.last_ghost_pos self).
  set (self2 :=
         {| SemanticChannel.game_state := gs2;
            SemanticChannel.last_score := score gs2;
            SemanticChannel.ticks_per_step := SemanticChannel.ticks_per_step self;
            SemanticChannel.last_ghost_pos := lgp;
            SemanticChannel.last_action := action;
            SemanticChannel.last_pos := pacbot_pos gs0 |}).
  destruct (channel_create_obs_result V self2) as (obs & Hobs);
    try assumption.
  { cbn [self2 SemanticChannel.last_ghost_pos]. unfold lgp.
    now destruct (SemanticChannel.pos_changed _ _). }
  assert (Hlgp : lgp = if bool_decide (SemanticChannel.ghost_positions gs0
                                       = SemanticChannel.ghost_positions gs2)
                       then SemanticChannel.last_ghost_pos self
                       else SemanticChannel.ghost_positions gs0).
  { unfold lgp. rewrite pos_changed_ghosts, Hgh.
    now destruct (bool_decide _). }
  eexists _, self2. split.
  - unfold SemanticChannel.step, mbind, M_bind, SemanticChannel.on_game_state,
      St.zoom, St.get, St.put, St.lift, SemanticChannel.run_ticks.
    unfold SemanticChannel.set_last_pos, SemanticChannel.set_game_state,
      SemanticChannel.set_last_action, SemanticChannel.set_last_ghost_pos,
      SemanticChannel.set_last_score.
    cbn [SemanticChannel.game_state SemanticChannel.ticks_per_step
         SemanticChannel.last_action SemanticChannel.last_score
         SemanticChannel.last_ghost_pos SemanticChannel.last_pos].
    fold gs0. rewrite Hm'.
    cbn [SemanticChannel.game_state SemanticChannel.ticks_per_step
         SemanticChannel.last_action SemanticChannel.last_score
         SemanticChannel.last_ghost_pos SemanticChannel.last_pos].
    fold mult. fold gs2.
    assert (Hself2 : forall l0,
      l0 = lgp ->
      {| SemanticChannel.game_state := gs2;
         SemanticChannel.last_score := score gs2;
         SemanticChannel.ticks_per_step := SemanticChannel.ticks_per_step self;
         SemanticChannel.last_ghost_pos := l0;
         SemanticChannel.last_action := action;
         SemanticChannel.last_pos := pacbot_pos gs0 |} = self2)
      by now intros l0 ->.
    clear Hlgp.
    destruct (SemanticChannel.pos_changed (SemanticChannel.ghost_positions gs1)
                (SemanticChannel.ghost_positions gs2)) eqn:Epc;
      cbn [SemanticChannel.game_state SemanticChannel.ticks_per_step
           SemanticChannel.last_action SemanticChannel.last_score
           SemanticChannel.last_ghost_pos SemanticChannel.last_pos];
      rewrite Hq, Hself2 by (unfold lgp; rewrite ?Epc; reflexivity);
      rewrite Hobs, Hmask; reflexivity.
  - cbn [self2 SemanticChannel.game_state SemanticChannel.last_action
         SemanticChannel.last_pos SemanticChannel.last_score
         SemanticChannel.ticks_per_step SemanticChannel.last_ghost_pos].
    repeat split; rewrite Hlgp.
    + intros H. now rewrite bool_decide_eq_true_2 by auto.
    + intros H. now rewrite bool_decide_eq_false_2 by auto.
Qed.

(** The ghosts do not move under the scoring engine: the remembered
    cells stay, and the cell Pacman left is recorded. *)
Lemma channel_step_bookkeeping_witness :
  exists out self',
    SemanticChannel.step Demo.demo_variables Demo.scoring_engine 4
      Demo.channel_env_left = (Ok out, self')
    /\ SemanticChannel.last_action self' = 4
    /\ SemanticChannel.last_pos self' = (5, 5)
    /\ SemanticChannel.last_ghost_pos self'
       = SemanticChannel.last_ghost_pos Demo.channel_env_left.
Proof.
  destruct (channel_step_bookkeeping Demo.demo_variables Demo.scoring_engine
              Demo.channel_env_left 4
              (Float.div (Float.exact 400) (Float.exact 200)))
    as (out & self' & Hstep & _ & Ha & Hp & _ & _ & Hsame & _);
    [reflexivity | lia | reflexivity | reflexivity | reflexivity
     | reflexivity | reflexivity |].
  exists out, self'. split; [exact Hstep|]. split; [exact Ha|].
  split; [exact Hp|]. apply Hsame. reflexivity.
Defined.

Lemma at3_halve3 (a : list (list (list spec_float))) (k : nat) i j :
  at3 (Np.halve3 a) k i j
  = (fun x => Float.mul x Float.half) <$> at3 a k i j.
Proof.
  unfold at3, Np.halve3.
  change (map Np.halve2 a) with (Np.halve2 <$> a). rewrite list_lookup_fmap.
  unfold Np.array2, Np.array1.
  destruct (a !! k) as [pl|]; [|reflexivity].
  cbn [fmap option_fmap option_map]. unfold Np.halve2. apply at2_map2d.
Qed.

(** The distance channel reads 1.0 on Pacman's own cell. *)
Lemma dist_map_at_pacman (p : pos) :
  in_grid p = true -> at2 (SelfAttention.dist_map p) p.1 p.2 = Some Float.one.
Proof.
  intros Hp. apply in_grid_bounds in Hp. destruct Hp as [Hx Hy].
  unfold at2, SelfAttention.dist_map.
  rewrite list_lookup_fmap, lookup_seqZ_lt by lia. cbn [fmap option_fmap option_map].
  rewrite list_lookup_fmap, lookup_seqZ_lt by lia. cbn [fmap option_fmap option_map].
  rewrite !Z2Nat.id by lia. rewrite !Z.add_0_l, !Z.sub_diag. reflexivity.
Qed.

Lemma attention_create_obs_trails_result V math_log np_log (self : SelfAttention.env) :
  let gs := SelfAttention.game_state self in
  let halve := fun x => Float.mul x Float.half in
  gs_wf gs = true -> phase_wf gs = true ->
  planes_wf 4 (SelfAttention.entities self) = true ->
  plane_wf (SelfAttention.pacman self) = true ->
  0 < ghost_score V ->
  exists obs self',
    SelfAttention.create_obs V math_log np_log self = (Ok obs, self')
    /\ planes 10 obs
    /\ SelfAttention.game_state self' = gs
    /\ SelfAttention.last_score self' = SelfAttention.last_score self
    /\ at3 obs 2 (pacbot_pos gs).1 (pacbot_pos gs).2 = Some Float.one
    /\ forall q : pos, in_grid q = true ->
         at3 obs 0 q.1 q.2
         = (if bool_decide (q = pacbot_pos gs) then Some Float.one
            else halve <$> at2 (SelfAttention.pacman self) q.1 q.2)
         /\ at2 (SelfAttention.pacman self') q.1 q.2 = at3 obs 0 q.1 q.2
         /\ forall (i : nat) p,
              [red_current gs; blue_current gs; pink_current gs;
               orange_current gs] !! i = Some p ->
              at3 obs (3 + i) q.1 q.2
              = (if bool_decide (q = p) then Some Float.one
                 else halve <$> at3 (SelfAttention.entities self) i q.1 q.2)
              /\ at3 (SelfAttention.entities self') i q.1 q.2
                 = at3 obs (3 + i) q.1 q.2.
Proof.
  intros gs halve Hwf Hph Hent Hpac Hgh.
  apply gs_wf_parts in Hwf. destruct Hwf as (Hg & Hp & Hr & Hk & Ho & Hb).
  fold gs in Hg, Hp, Hr, Hk, Ho, Hb.
  unfold phase_wf in Hph. apply andb_true_iff in Hph.
  apply planes_wf_planes in Hent. apply plane_wf_shape in Hpac.
  set (st := state gs - 1).
  assert (Hst : 0 <= st < Z.of_nat 3) by (unfold st; lia).
  assert (Hz : Np.shape2 (Np.zeros2 (grid gs)) = grid_shape).
  { unfold Np.zeros2. now rewrite shape2_map2d. }
  destruct (setitem2_in_grid _ (red_current gs) Float.one Hz Hr)
    as (h1 & Eh1 & Hh1 & _).
  destruct (setitem2_in_grid _ (pink_current gs) Float.one Hh1 Hk)
    as (h2 & Eh2 & Hh2 & _).
  destruct (setitem2_in_grid _ (orange_current gs) Float.one Hh2 Ho)
    as (h3 & Eh3 & Hh3 & _).
  destruct (setitem2_in_grid _ (blue_current gs) Float.one Hh3 Hb)
    as (h4 & Eh4 & Hh4 & _).
  pose proof (planes_halve3 4 _ Hent) as E0.
  pose proof (planes_zeros3 3 (grid gs) Hg) as S0.
  destruct (setitem3_in_grid_at 4 _ 0 (red_current gs) Float.one E0 ltac:(lia) Hr)
    as (e1 & Ee1 & E1 & A1).
  destruct (setitem3_in_grid 3 _ st (red_current gs) Float.one S0 Hst Hr)
    as (s1 & Es1 & S1).
  destruct (setitem3_in_grid_at 4 _ 1 (blue_current gs) Float.one E1 ltac:(lia) Hb)
    as (e2 & Ee2 & E2 & A2).
  destruct (setitem3_in_grid 3 _ st (blue_current gs) Float.one S1 Hst Hb)
    as (s2 & Es2 & S2).
  destruct (setitem3_in_grid_at 4 _ 2 (pink_current gs) Float.one E2 ltac:(lia) Hk)
    as (e3 & Ee3 & E3 & A3).
  destruct (setitem3_in_grid 3 _ st (pink_current gs) Float.one S2 Hst Hk)
    as (s3 & Es3 & S3).
  destruct (setitem3_in_grid_at 4 _ 3 (orange_current gs) Float.one E3 ltac:(lia) Ho)
    as (e4 & Ee4 & E4 & A4).
  destruct (setitem3_in_grid 3 _ st (orange_current gs) Float.one S3 Hst Ho)
    as (s4 & Es4 & S4).
  assert (Hhp : Np.shape2 (Np.halve2 (SelfAttention.pacman self)) = grid_shape).
  { unfold Np.halve2. now rewrite shape2_map2d. }
  destruct (setitem2_in_grid_at _ (pacbot_pos gs) Float.one Hhp Hp)
    as (pm & Epm & Hpm & APM).
  set (reward :=
    Np.map2d
      (fun z : Z => Float.div (np_log (Float.of_int z)) (math_log (ghost_score V)))
      (Np.int_add
         (Np.int_add
            (Np.int_add
               (Np.map2d (fun z : Z => Np.wrap64 (1 + z))
                  (Np.int_scale (Np.where_eq (grid gs) 2) (pellet_score V)))
               (Np.int_scale (Np.where_eq (grid gs) 6) (cherry_score V)))
            (Np.int_scale (Np.where_eq (grid gs) 4) (power_pellet_score V)))
         (Np.int_scale
            (Np.int_scale (Np.where_pos h4) (if is_frightened gs then 1 else 0))
            (ghost_score V)))).
  assert (Hrw : Np.shape2 reward = grid_shape).
  { unfold reward, Np.int_add, Np.int_scale, Np.where_eq, Np.where_pos.
    rewrite shape2_map2d.
    repeat (apply shape2_zip2d); rewrite ?shape2_map2d; assumption. }
  set (dist := SelfAttention.dist_map (pacbot_pos gs)).
  assert (Hdist : Np.shape2 dist = grid_shape) by apply shape2_dist_map.
  set (self' :=
         {| SelfAttention.game_state := gs;
            SelfAttention.last_score := SelfAttention.last_score self;
            SelfAttention.ticks_per_step := SelfAttention.ticks_per_step self;
            SelfAttention.entities := e4;
            SelfAttention.pacman := pm |}).
  assert (Hall : Forall (fun p => Np.shape2 p = grid_shape)
                   ([pm; reward; dist] ++ e4 ++ s4)).
  { rewrite !Forall_app. destruct E4, S4.
    repeat split; try assumption. repeat constructor; assumption. }
  exists ([pm; reward; dist] ++ e4 ++ s4), self'.
  split; [|split; [|split; [reflexivity|split; [reflexivity|split]]]].
  - unfold SelfAttention.create_obs.
    unfold mbind, M_bind, mret, M_ret, St.get, St.put, St.lift,
      SelfAttention.log_int.
    unfold SelfAttention.set_entities, SelfAttention.set_pacman.
    cbn [SelfAttention.game_state SelfAttention.entities SelfAttention.pacman
         SelfAttention.last_score SelfAttention.ticks_per_step foldM].
    fold gs. fold st.
    rewrite Eh1, Eh2, Eh3, Eh4.
    replace (ghost_score V <=? 0) with false by lia.
    change (enumerate [red_current gs; blue_current gs; pink_current gs;
                       orange_current gs])
      with [(0, red_current gs); (1, blue_current gs); (2, pink_current gs);
            (3, orange_current gs)].
    cbn [foldM_st].
    unfold mbind, M_bind, mret, M_ret.
    cbn [SelfAttention.game_state SelfAttention.entities SelfAttention.pacman
         SelfAttention.last_score SelfAttention.ticks_per_step].
    rewrite Ee1, Es1.
    cbn [SelfAttention.game_state SelfAttention.entities SelfAttention.pacman
         SelfAttention.last_score SelfAttention.ticks_per_step].
    rewrite Ee2, Es2.
    cbn [SelfAttention.game_state SelfAttention.entities SelfAttention.pacman
         SelfAttention.last_score SelfAttention.ticks_per_step].
    rewrite Ee3, Es3.
    cbn [SelfAttention.game_state SelfAttention.entities SelfAttention.pacman
         SelfAttention.last_score SelfAttention.ticks_per_step].
    rewrite Ee4, Es4.
    cbn [SelfAttention.game_state SelfAttention.entities SelfAttention.pacman
         SelfAttention.last_score SelfAttention.ticks_per_step].
    rewrite Epm. fold reward. fold dist.
    rewrite stack_planes;
      [|discriminate|repeat constructor; assumption].
    cbn [result_bind]. unfold Np.concatenate. cbn [concat].
    rewrite app_nil_r.
    rewrite stack_planes; [|discriminate|].
    2:{ rewrite !Forall_app. destruct E4.
        repeat split; try assumption; repeat constructor; assumption. }
    cbn [result_bind concat]. rewrite app_nil_r, <- app_assoc.
    rewrite stack_planes; [reflexivity|discriminate|exact Hall].
  - split; [|exact Hall].
    destruct E4 as [L4 _], S4 as [LS _].
    rewrite !length_app, L4, LS. reflexivity.
  - cbn [app at3 lookup list_lookup]. unfold dist. now apply dist_map_at_pacman.
  - intros q Hq. split; [|split].
    + cbn [app at3 lookup list_lookup]. rewrite APM by assumption.
      unfold Np.halve2. now rewrite at2_map2d.
    + reflexivity.
    + intros i p Hi.
      assert (Hi4 : (i < 4)%nat) by (apply lookup_lt_Some in Hi; exact Hi).
      split; [|cbn [self' SelfAttention.entities];
               rewrite (at3_skip [pm; reward; dist]) by reflexivity;
               destruct E4 as [L4 _]; now rewrite at3_take by lia].
      rewrite (at3_skip [pm; reward; dist]) by reflexivity.
      destruct E4 as [L4 _]. rewrite at3_take by lia.
      rewrite A4, A3, A2, A1 by assumption.
      rewrite at3_halve3. fold halve.
      rewrite !bool_decide_plane.
      change (Z.to_nat 0) with 0%nat. change (Z.to_nat 1) with 1%nat.
      change (Z.to_nat 2) with 2%nat. change (Z.to_nat 3) with 3%nat.
      destruct i as [|[|[|[|i]]]]; [| | | |lia];
        cbn [lookup list_lookup] in Hi; injection Hi as <-;
        cbn [Nat.eqb andb]; reflexivity.
Qed.

(** Variant D's observation and what it stores: ten planes over the
    grid; plane 0, which is also the stored Pacman trail afterwards,
    reads 1 on Pacman's cell and half the stored trail elsewhere; the
    distance plane 2 reads 1 on Pacman's cell; planes 3 to 6, which are
    also the stored ghost trails afterwards, do the same for the ghosts
    in the order red, blue, pink, orange. *)
Theorem attention_obs_trails V math_log np_log (self : SelfAttention.env) :
  let gs := SelfAttention.game_state self in
  let halve := fun x => Float.mul x Float.half in
  gs_wf gs = true -> phase_wf gs = true ->
  planes_wf 4 (SelfAttention.entities self) = true ->
  plane_wf (SelfAttention.pacman self) = true ->
  0 < ghost_score V ->
  exists obs self',
    SelfAttention.create_obs V math_log np_log self = (Ok obs, self')
    /\ planes 10 obs
    /\ SelfAttention.game_state self' = gs
    /\ SelfAttention.last_score self' = SelfAttention.last_score self
    /\ at3 obs 2 (pacbot_pos gs).1 (pacbot_pos gs).2 = Some Float.one
    /\ forall q : pos, in_grid q = true ->
         at3 obs 0 q.1 q.2
         = (if bool_decide (q = pacbot_pos gs) then Some Float.one
            else halve <$> at2 (SelfAttention.pacman self) q.1 q.2)
         /\ at2 (SelfAttention.pacman self') q.1 q.2 = at3 obs 0 q.1 q.2
         /\ forall (i : nat) p,
              [red_current gs; blue_current gs; pink_current gs;
               orange_current gs] !! i = Some p ->
              at3 obs (3 + i) q.1 q.2
              = (if bool_decide (q = p) then Some Float.one
                 else halve <$> at3 (SelfAttention.entities self) i q.1 q.2)
              /\ at3 (SelfAttention.entities self') i q.1 q.2
                 = at3 obs (3 + i) q.1 q.2.
Proof. exact (attention_create_obs_trails_result V math_log np_log self). Qed.

(** The trail mark on (5, 5) fades to 0.5 while Pacman stands on
    (6, 5). *)
Lemma attention_obs_trails_witness :
  exists obs self',
    SelfAttention.create_obs Demo.demo_variables Demo.demo_math_log
      Demo.demo_np_log Demo.attention_env_trail = (Ok obs, self')
    /\ at3 obs 0 6 5 = Some Float.one
    /\ at3 obs 0 5 5 = Some Float.half.
Proof.
  destruct (attention_obs_trails Demo.demo_variables Demo.demo_math_log
              Demo.demo_np_log Demo.attention_env_trail)
    as (obs & self' & Hobs & _ & _ & _ & _ & Hat);
    [reflexivity | reflexivity | reflexivity | reflexivity | reflexivity |].
  exists obs, self'. split; [exact Hobs|].
  destruct (Hat (6, 5)) as (H1 & _); [reflexivity|].
  destruct (Hat (5, 5)) as (H2 & _); [reflexivity|].
  split; [exact H1 | exact H2].
Defined.

(** ** The node table of Variant C *)

Lemma enumerate_snoc {A} (l : list A) (x : A) :
  enumerate (l ++ [x]) = enumerate l ++ [(Z.of_nat (length l), x)].
Proof.
  unfold enumerate. rewrite length_app. cbn [length].
  replace (Z.of_nat (length l + 1)) with (Z.of_nat (length l) + 1) by lia.
  rewrite seqZ_app by lia.
  rewrite zip_with_app by (rewrite length_seqZ; lia).
  reflexivity.
Qed.

Lemma coords_to_node_snoc (l : list pos) (x : pos) :
  Semantic.coords_to_node (l ++ [x])
  = <[x := Z.of_nat (length l)]> (Semantic.coords_to_node l).
Proof.
  unfold Semantic.coords_to_node. rewrite enumerate_snoc, foldl_app.
  reflexivity.
Qed.

Lemma coords_to_node_none (l : list pos) (p : pos) :
  Semantic.coords_to_node l !! p = None <-> p ∉ l.
Proof.
  induction l as [|x l IH] using rev_ind.
  - change (Semantic.coords_to_node []) with (∅ : gmap pos Z).
    rewrite lookup_empty.
    split; [intros _; apply not_elem_of_nil | reflexivity].
  - rewrite coords_to_node_snoc, lookup_insert_None, IH.
    rewrite elem_of_app, list_elem_of_singleton. split.
    + intros [H1 H2] [H|H]; [auto|congruence].
    + intros H. split; [tauto|]. intros ->. tauto.
Qed.

Lemma coords_to_node_some (l : list pos) (p : pos) (i : Z) :
  Semantic.coords_to_node l !! p = Some i ->
  0 <= i < Z.of_nat (length l) /\ l !! Z.to_nat i = Some p.
Proof.
  revert i. induction l as [|x l IH] using rev_ind; intros i.
  - change (Semantic.coords_to_node []) with (∅ : gmap pos Z).
    now rewrite lookup_empty.
  - rewrite coords_to_node_snoc, length_app. cbn [length].
    destruct (decide (x = p)) as [->|Hne].
    + rewrite lookup_insert_eq. intros [= <-]. split; [lia|].
      rewrite Nat2Z.id. rewrite lookup_app_r by lia.
      now replace (length l - length l)%nat with 0%nat by lia.
    + rewrite lookup_insert_ne by assumption. intros H.
      destruct (IH i H) as [Hi Hl]. split; [lia|].
      rewrite lookup_app_l by lia. exact Hl.
Qed.

Lemma coords_to_node_nodup (l : list pos) (p : pos) (n : nat) :
  NoDup l -> l !! n = Some p ->
  Semantic.coords_to_node l !! p = Some (Z.of_nat n).
Proof.
  revert n. induction l as [|x l IH] using rev_ind; intros n Hnd Hn.
  - discriminate.
  - rewrite coords_to_node_snoc.
    apply NoDup_app in Hnd. destruct Hnd as (Hnd & Hx & _).
    destruct (decide (n < length l)%nat) as [Hlt|Hge].
    + rewrite lookup_app_l in Hn by assumption.
      assert (Hp : p ∈ l) by (eapply list_elem_of_lookup_2; exact Hn).
      rewrite lookup_insert_ne.
      * now apply IH.
      * intros ->. apply (Hx p Hp). now apply list_elem_of_singleton.
    + pose proof (lookup_lt_Some _ _ _ Hn) as Hl.
      rewrite length_app in Hl. cbn [length] in Hl.
      assert (n = length l) by lia. subst n.
      rewrite lookup_app_r in Hn by lia.
      replace (length l - length l)%nat with 0%nat in Hn by lia.
      injection Hn as ->. apply lookup_insert_eq.
Qed.

(** The table [coords_to_node] inverts the node list: a cell is a key
    exactly when it is listed, the index stored for a key is an index
    of the list at which that cell stands, and when the list has no
    repetition every cell is mapped to its own index. *)
Theorem coords_to_node_spec (coords : list pos) :
  (forall p, Semantic.coords_to_node coords !! p = None <-> p ∉ coords)
  /\ (forall p i,
         Semantic.coords_to_node coords !! p = Some i ->
         0 <= i < Z.of_nat (length coords)
         /\ coords !! Z.to_nat i = Some p)
  /\ (NoDup coords ->
      forall n p, coords !! n = Some p ->
        Semantic.coords_to_node coords !! p = Some (Z.of_nat n)).
Proof.
  split; [apply coords_to_node_none|].
  split; [apply coords_to_node_some|].
  intros Hnd n p. now apply coords_to_node_nodup.
Qed.

Lemma coords_to_node_spec_witness :
  Semantic.coords_to_node Demo.demo_node_to_coords !! (1, 7) = Some 3
  /\ Semantic.coords_to_node Demo.demo_node_to_coords !! (0, 0) = None.
Proof.
  destruct (coords_to_node_spec Demo.demo_node_to_coords) as (Hn & _ & Hd).
  assert (Hnd : NoDup Demo.demo_node_to_coords)
    by (apply (bool_decide_eq_true_1 (NoDup Demo.demo_node_to_coords));
        reflexivity).
  assert (Hout : (0, 0) ∉ Demo.demo_node_to_coords)
    by (apply (bool_decide_eq_true_1 ((0, 0) ∉ Demo.demo_node_to_coords));
        reflexivity).
  split.
  - apply (Hd Hnd 3%nat (1, 7)). reflexivity.
  - apply Hn. exact Hout.
Defined.

(** With a cell listed twice, the later index is the one stored. *)
Lemma coords_to_node_last_wins :
  Semantic.coords_to_node [(1, 1); (2, 2); (1, 1)] !! (1, 1) = Some 2.
Proof. reflexivity. Qed.

(** Variant C cannot observe a Pacman standing on a cell that is not a
    node: [create_obs] raises [KeyError] and leaves the environment
    alone. *)
Theorem semantic_create_obs_off_node V coords emb dist (self : Semantic.env) :
  pacbot_pos (Semantic.game_state self) ∉ coords ->
  Semantic.create_obs V coords emb dist self = (Raise KeyError, self).
Proof.
  intros H. apply coords_to_node_none in H.
  unfold Semantic.create_obs, mbind, M_bind, St.get, St.lift, Semantic.node_of.
  now rewrite H.
Qed.

Lemma semantic_create_obs_off_node_witness :
  Semantic.create_obs Demo.demo_variables [(6, 5); (1, 1)]
    Demo.demo_node_embeddings Demo.demo_action_distributions Demo.semantic_env
  = (Raise KeyError, Demo.semantic_env).
Proof.
  apply (semantic_create_obs_off_node Demo.demo_variables [(6, 5); (1, 1)]).
  intros H. apply list_elem_of_In in H. cbn in H.
  destruct H as [H|[H|[]]]; discriminate H.
Defined.

(** A loop whose body keeps an invariant and never raises. *)
Lemma foldM_invariant {A B} (I : B -> Prop) (f : B -> A -> result B)
    (l : list A) (b : B) :
  I b ->
  (forall acc a, I acc -> a ∈ l -> exists acc', f acc a = Ok acc' /\ I acc') ->
  exists b', foldM f l b = Ok b' /\ I b'.
Proof.
  revert b. induction l as [|a l IH]; intros b Hb Hf.
  - exists b. now split.
  - cbn [foldM].
    destruct (Hf b a Hb) as (b1 & -> & Hb1); [apply list_elem_of_here|].
    apply IH; [exact Hb1|].
    intros acc x Hacc Hx. apply Hf; [exact Hacc|]. now apply list_elem_of_further.
Qed.

Lemma min_by_elem {A} (key : A -> Z) (a : A) (l : list A) :
  Semantic.min_by key a l ∈ a :: l.
Proof.
  unfold Semantic.min_by. revert a.
  induction l as [|x l IH]; intros a; [apply list_elem_of_here|].
  cbn [foldl]. destruct (key x <? key a).
  - specialize (IH x). apply list_elem_of_further. exact IH.
  - specialize (IH a). apply elem_of_cons in IH. destruct IH as [->|IH].
    + apply list_elem_of_here.
    + do 2 apply list_elem_of_further. exact IH.
Qed.

Lemma tables_wf_parts coords emb dist :
  tables_wf coords emb dist = true ->
  length emb = length coords
  /\ Forall (fun row => length row = Semantic.embed_dim emb) emb
  /\ length dist = length coords
  /\ Forall (fun plane =>
               length plane = length coords
               /\ Forall (fun row => length row = 5%nat) plane) dist.
Proof.
  unfold tables_wf. rewrite !andb_true_iff, !bool_decide_eq_true.
  intros [[[H1 H2] H3] H4]. repeat split; try assumption.
  - apply Forall_forall. intros row Hr.
    rewrite forallb_forall in H2. specialize (H2 row).
    rewrite bool_decide_eq_true in H2. apply H2. now apply list_elem_of_In.
  - apply Forall_forall. intros plane Hpl.
    rewrite forallb_forall in H4. specialize (H4 plane).
    rewrite andb_true_iff, bool_decide_eq_true in H4.
    destruct H4 as [H5 H6]; [now apply list_elem_of_In|]. split; [exact H5|].
    apply Forall_forall. intros row Hr.
    rewrite forallb_forall in H6. specialize (H6 row).
    rewrite bool_decide_eq_true in H6. apply H6. now apply list_elem_of_In.
Qed.

Lemma foldl_orb_length {A} (f : A -> bool) (rows : list (list A)) :
  forall acc : list bool,
    length acc = 5%nat -> Forall (fun r => length r = 5%nat) rows ->
    length (foldl (zip_with orb) acc (map (map f) rows)) = 5%nat.
Proof.
  induction rows as [|r rows IH]; intros acc Hacc Hrows; [exact Hacc|].
  apply Forall_cons in Hrows. destruct Hrows as [Hr Hrows].
  cbn [map foldl]. apply IH; [|exact Hrows].
  rewrite length_zip_with, length_map. lia.
Qed.

Section SemanticTables.
Context (V : variables) (coords : list pos) (emb : Np.array2)
        (dist : Np.array3).
Context (Hwf : tables_wf coords emb dist = true).

Lemma node_of_listed (p : pos) :
  p ∈ coords ->
  exists i, Semantic.node_of coords p = Ok i
            /\ 0 <= i < Z.of_nat (length coords).
Proof.
  intros Hp. unfold Semantic.node_of.
  destruct (Semantic.coords_to_node coords !! p) as [i|] eqn:E.
  - exists i. split; [reflexivity|]. now apply coords_to_node_some in E.
  - apply coords_to_node_none in E. contradiction.
Qed.

Lemma embedding_row (i : Z) :
  0 <= i < Z.of_nat (length coords) ->
  exists row, Py.index emb i = Ok row /\ length row = Semantic.embed_dim emb.
Proof.
  intros Hi. destruct (tables_wf_parts _ _ _ Hwf) as (Hl & Hrows & _).
  destruct (index_in_range emb i) as (row & Hrow & Hidx); [lia|].
  exists row. split; [exact Hidx|].
  rewrite Forall_forall in Hrows. apply Hrows.
  eapply list_elem_of_lookup_2, Hrow.
Qed.

Lemma add_embedding_listed (acc : Np.array1) (p : pos) :
  p ∈ coords -> length acc = Semantic.embed_dim emb ->
  exists acc', Semantic.add_embedding coords emb acc p = Ok acc'
               /\ length acc' = Semantic.embed_dim emb.
Proof.
  intros Hp Hacc. destruct (node_of_listed p Hp) as (i & Hi & Hr).
  destruct (embedding_row i Hr) as (row & Hrow & Hlen).
  exists (zip_with Float.add acc row). split.
  - unfold Semantic.add_embedding. rewrite Hi. cbn [mbind result_bind].
    now rewrite Hrow.
  - rewrite length_zip_with. lia.
Qed.

Lemma direction_row (i j : Z) :
  0 <= i < Z.of_nat (length coords) -> 0 <= j < Z.of_nat (length coords) ->
  exists plane row, Py.index dist i = Ok plane /\ Py.index plane j = Ok row
                    /\ length row = 5%nat.
Proof.
  intros Hi Hj. destruct (tables_wf_parts _ _ _ Hwf) as (_ & _ & Hl & Hpl).
  destruct (index_in_range dist i) as (plane & Hplane & Hidx); [lia|].
  rewrite Forall_forall in Hpl.
  destruct (Hpl plane) as [Hlen Hrows];
    [eapply list_elem_of_lookup_2, Hplane|].
  unfold Np.array2, Np.array1 in *.
  destruct (index_in_range plane j) as (row & Hrow & Hidx'); [lia|].
  exists plane, row. repeat split; try assumption.
  rewrite Forall_forall in Hrows. apply Hrows.
  eapply list_elem_of_lookup_2, Hrow.
Qed.

Lemma valid_actions_row (i : Z) :
  0 <= i < Z.of_nat (length coords) ->
  exists row, Py.index (Semantic.valid_actions dist) i = Ok row
              /\ length row = 5%nat.
Proof.
  intros Hi. destruct (tables_wf_parts _ _ _ Hwf) as (_ & _ & Hl & Hpl).
  unfold Semantic.valid_actions. unfold Np.array3, Np.array2, Np.array1 in *.
  destruct (index_in_range
              (map (fun plane =>
                      match Np.map2d (fun x => negb (Float.eqb x Float.zero)) plane with
                      | [] => []
                      | row :: rows => foldl (zip_with orb) row rows
                      end) dist) i) as (row & Hrow & Hidx).
  { rewrite length_map. unfold Np.array3, Np.array2, Np.array1 in *. lia. }
  exists row. split; [exact Hidx|].
  change (map ?f dist) with (f <$> dist) in Hrow.
  rewrite list_lookup_fmap in Hrow.
  destruct (dist !! Z.to_nat i) as [plane|] eqn:Epl; [|discriminate].
  cbn in Hrow. injection Hrow as <-.
  rewrite Forall_forall in Hpl.
  destruct (Hpl plane) as [Hlen Hrows];
    [eapply list_elem_of_lookup_2, Epl|].
  destruct plane as [|r rs]; [cbn in Hlen; lia|].
  cbn [Np.map2d map].
  apply Forall_cons in Hrows. destruct Hrows as [Hr Hrs].
  apply foldl_orb_length; [now rewrite length_map | exact Hrs].
Qed.

End SemanticTables.

Lemma is_node_listed (coords : list pos) (p : pos) :
  is_Some (Semantic.coords_to_node coords !! p) <-> p ∈ coords.
Proof.
  rewrite <- not_eq_None_Some, coords_to_node_none.
  split; [apply dec_stable | auto].
Qed.

Lemma semantic_create_obs_result V coords emb dist (self : Semantic.env) :
  let gs := Semantic.game_state self in
  tables_wf coords emb dist = true ->
  plane_wf (grid gs) = true -> on_nodes coords gs = true ->
  exists obs,
    Semantic.create_obs V coords emb dist self = (Ok obs, self)
    /\ length obs = (3 * Semantic.embed_dim emb + 5 + 5 + 2)%nat.
Proof.
  intros gs Hwf Hg Hon.
  apply plane_wf_shape in Hg.
  unfold on_nodes in Hon. apply andb_true_iff in Hon. destruct Hon as [Hpac Hpel].
  apply bool_decide_eq_true in Hpac.
  set (d := Semantic.embed_dim emb).
  destruct (node_of_listed coords _ Hpac) as (i & Hi & Hir).
  destruct (embedding_row coords emb dist Hwf i Hir) as (row0 & Hrow0 & Hlen0).
  set (ghosts := [red_current gs; pink_current gs; orange_current gs;
                  blue_current gs]).
  destruct (foldM_invariant (fun acc : Np.array1 => length acc = d)
              (fun acc p =>
                 if bool_decide (is_Some (Semantic.coords_to_node coords !! p))
                 then Semantic.add_embedding coords emb acc p else Ok acc)
              ghosts (replicate d Float.zero))
    as (ge & Hge & Hlge).
  { apply length_replicate. }
  { intros acc p Hacc _. case_bool_decide as Hp.
    - apply is_node_listed in Hp.
      now apply (add_embedding_listed coords emb dist Hwf).
    - exists acc. now split. }
  assert (Hdir : exists dir,
    match filter (fun p => is_Some (Semantic.coords_to_node coords !! p)) ghosts with
    | p :: ps =>
        let closest :=
          Semantic.min_by
            (fun p : pos => Z.abs ((pacbot_pos gs).1 - p.1)
                            + Z.abs ((pacbot_pos gs).2 - p.2)) p ps in
        j ← Semantic.node_of coords closest;
        plane ← Py.index dist i;
        Py.index plane j
    | [] => Ok (replicate 5 Float.zero)
    end = Ok dir /\ length dir = 5%nat).
  { destruct (filter _ ghosts) as [|p ps] eqn:Ef.
    - eexists. split; [reflexivity|]. apply length_replicate.
    - cbv zeta.
      set (closest := Semantic.min_by _ p ps).
      assert (Hc : closest ∈ coords).
      { pose proof (min_by_elem
                      (fun p : pos => Z.abs ((pacbot_pos gs).1 - p.1)
                                      + Z.abs ((pacbot_pos gs).2 - p.2)) p ps)
          as Hin.
        fold closest in Hin. rewrite <- Ef in Hin.
        apply list_elem_of_filter in Hin. destruct Hin as [Hs _].
        now apply is_node_listed in Hs. }
      destruct (node_of_listed coords _ Hc) as (j & Hj & Hjr).
      destruct (direction_row coords emb dist Hwf i j Hir Hjr)
        as (plane & row & Hplane & Hrow & Hlen).
      exists row. rewrite Hj. cbn [mbind result_bind].
      rewrite Hplane. cbn [mbind result_bind]. now split. }
  destruct Hdir as (dir & Hdir & Hldir).
  destruct (foldM_invariant (fun acc : Np.array1 => length acc = d)
              (fun acc (p : pos) =>
                 col ← Py.index (grid gs) p.1;
                 cell ← Py.index col p.2;
                 if cell =? var_O V then Semantic.add_embedding coords emb acc p
                 else Ok acc)
              super_pellet_locs (replicate d Float.zero))
    as (pe & Hpe & Hlpe).
  { apply length_replicate. }
  { intros acc p Hacc Hp.
    assert (Hin : in_grid p = true).
    { unfold super_pellet_locs in Hp. apply list_elem_of_In in Hp. cbn in Hp.
      destruct Hp as [<-|[<-|[<-|[<-|[]]]]]; reflexivity. }
    destruct (plane_cell (grid gs) p Hg Hin) as (col & c & _ & _ & Hi1 & Hi2).
    rewrite Hi1. cbn [mbind result_bind]. rewrite Hi2. cbn [mbind result_bind].
    destruct (c =? var_O V).
    - apply (add_embedding_listed coords emb dist Hwf); [|exact Hacc].
      rewrite forallb_forall in Hpel. specialize (Hpel p).
      rewrite bool_decide_eq_true in Hpel. apply Hpel.
      now apply list_elem_of_In.
    - exists acc. now split. }
  destruct (valid_actions_row coords emb dist Hwf i Hir) as (va & Hva & Hlva).
  eexists. split.
  - unfold Semantic.create_obs, mbind, M_bind, mret, M_ret, St.get, St.lift.
    fold gs. rewrite Hi, Hrow0.
    fold ghosts. fold d. rewrite Hge.
    unfold mbind in Hdir, Hpe. rewrite Hdir.
    change [(1, 7); (1, 27); (26, 7); (26, 27)] with super_pellet_locs.
    rewrite Hpe, Hva. reflexivity.
  - rewrite !length_app, length_map. cbn [length].
    unfold Np.array1 in *. fold d. lia.
Qed.

(** Variant C's observation has the declared length: three embedding
    blocks, five direction entries, five validity entries and two
    extras. *)
Theorem semantic_obs_length V coords emb dist (self : Semantic.env) :
  let gs := Semantic.game_state self in
  tables_wf coords emb dist = true ->
  plane_wf (grid gs) = true -> on_nodes coords gs = true ->
  exists obs,
    Semantic.create_obs V coords emb dist self = (Ok obs, self)
    /\ length obs = (3 * Semantic.embed_dim emb + 5 + 5 + 2)%nat.
Proof. exact (semantic_create_obs_result V coords emb dist self). Qed.

Lemma semantic_obs_length_witness :
  exists obs,
    Semantic.create_obs Demo.demo_variables Demo.demo_node_to_coords
      Demo.demo_node_embeddings Demo.demo_action_distributions
      Demo.semantic_env = (Ok obs, Demo.semantic_env)
    /\ length obs = 18%nat.
Proof.
  apply (semantic_obs_length Demo.demo_variables Demo.demo_node_to_coords
           Demo.demo_node_embeddings Demo.demo_action_distributions
           Demo.semantic_env); reflexivity.
Defined.

(** Variant C's reward: the score delta divided by 200 while the game
    keeps playing, and exactly -0.5 (that is -100 / 200) on a step that
    ends the episode, whatever the score delta; the step returns no
    action mask. *)
Theorem semantic_step_reward V next_step coords emb dist
    (self : Semantic.env) action q :
  let gs0 := Semantic.game_state self in
  let gs1 := snd (Base.move_one_cell action gs0) in
  let gs2 := Nat.iter (Z.to_nat (Semantic.ticks_per_step self)) next_step gs1 in
  tables_wf coords emb dist = true ->
  gs_wf gs0 = true -> 0 <= action <= 4 ->
  plane_wf (grid gs2) = true -> on_nodes coords gs2 = true ->
  Float.int_truediv (score gs2 - Semantic.last_score self) 200 = Ok q ->
  exists out self',
    Semantic.step V next_step coords emb dist action self = (Ok out, self')
    /\ out_done out = negb (play gs2)
    /\ out_action_mask out = None
    /\ Semantic.last_score self' = score gs2
    /\ (play gs2 = true -> out_reward out = PyFloat q)
    /\ (play gs2 = false ->
        out_reward out = PyFloat (S754_finite true 4503599627370496 (-53))).
Proof.
  intros gs0 gs1 gs2 Hwf Hgs Ha Hg2 Hon Hq.
  pose proof (gs_wf_parts _ Hgs) as (Hg & Hp & _).
  pose proof (move_one_cell_result gs0 action
                ltac:(now apply plane_wf_shape) Hp Ha) as Hm.
  assert (Hm' : Base.move_one_cell action gs0 = (Ok tt, gs1)).
  { unfold gs1. now rewrite Hm. }
  set (lgp := if SemanticChannel.pos_changed
                   (SemanticChannel.ghost_positions gs1)
                   (SemanticChannel.ghost_positions gs2)
              then SemanticChannel.ghost_positions gs1
              else Semantic.last_ghost_pos self).
  set (self2 :=
         {| Semantic.game_state := gs2;
            Semantic.last_score := score gs2;
            Semantic.ticks_per_step := Semantic.ticks_per_step self;
            Semantic.last_ghost_pos := lgp |}).
  destruct (semantic_create_obs_result V coords emb dist self2 Hwf Hg2 Hon)
    as (obs & Hobs & _).
  assert (Hdiv : exists r,
    Float.int_truediv
      (if negb (play gs2) then -100 else score gs2 - Semantic.last_score self)
      200 = Ok r
    /\ (play gs2 = true -> r = q)
    /\ (play gs2 = false -> r = S754_finite true 4503599627370496 (-53))).
  { destruct (play gs2); cbn [negb].
    - exists q. repeat split; [exact Hq | discriminate].
    - eexists. split; [reflexivity|]. split; [discriminate|reflexivity]. }
  destruct Hdiv as (r & Hr & Hr1 & Hr0).
  eexists _, self2. split.
  - unfold Semantic.step, mbind, M_bind, mret, M_ret, Semantic.on_game_state,
      St.zoom, St.get, St.put, St.lift, Base.run_ticks.
    unfold Semantic.set_game_state, Semantic.set_last_ghost_pos,
      Semantic.set_last_score.
    cbn [Semantic.game_state Semantic.ticks_per_step Semantic.last_score
         Semantic.last_ghost_pos].
    fold gs0. rewrite Hm'.
    cbn [Semantic.game_state Semantic.ticks_per_step Semantic.last_score
         Semantic.last_ghost_pos].
    fold gs2.
    assert (Hself2 : forall l0,
      l0 = lgp ->
      {| Semantic.game_state := gs2;
         Semantic.last_score := score gs2;
         Semantic.ticks_per_step := Semantic.ticks_per_step self;
         Semantic.last_ghost_pos := l0 |} = self2)
      by now intros l0 ->.
    destruct (SemanticChannel.pos_changed (SemanticChannel.ghost_positions gs1)
                (SemanticChannel.ghost_positions gs2)) eqn:Epc;
      cbn [Semantic.game_state Semantic.ticks_per_step Semantic.last_score
           Semantic.last_ghost_pos Py.eq Py.float_Nan Py.int_eq_float Float.nan];
      rewrite Hr, Hself2 by (unfold lgp; rewrite ?Epc; reflexivity);
      rewrite Hobs; reflexivity.
  - cbn [out_done out_action_mask out_reward self2 Semantic.last_score].
    repeat split.
    + intros H. now rewrite Hr1.
    + intros H. now rewrite Hr0.
Qed.

(** The game ends on the first tick with 25 points gained: -0.5. *)
Lemma semantic_step_reward_witness :
  exists out self',
    Semantic.step Demo.demo_variables Demo.fatal_engine
      Demo.demo_node_to_coords Demo.demo_node_embeddings
      Demo.demo_action_distributions 4 Demo.semantic_env = (Ok out, self')
    /\ out_reward out = PyFloat (S754_finite true 4503599627370496 (-53)).
Proof.
  destruct (semantic_step_reward Demo.demo_variables Demo.fatal_engine
              Demo.demo_node_to_coords Demo.demo_node_embeddings
              Demo.demo_action_distributions Demo.semantic_env 4
              (Float.div (Float.exact 200) (Float.exact 200)))
    as (out & self' & Hstep & _ & _ & _ & _ & H0);
    [reflexivity | reflexivity | lia | reflexivity | reflexivity
     | reflexivity |].
  exists out, self'. split; [exact Hstep|]. apply H0. reflexivity.
Defined.

(** ** Random starts *)

Lemma off_band_false (p pac : pos) (mn mx : Z) :
  Base.off_band p pac mn mx = false <->
  mn ^ 2 <= Base.dist_sqr p pac <= mx ^ 2.
Proof. unfold Base.off_band. rewrite orb_false_iff. lia. Qed.

(** [get_pos_with_dist] returns the first draw whose squared distance
    to Pacman lies between the squares of the two bounds, having
    rejected every draw before it; it is still looping after the last
    draw exactly when every draw is outside that band. *)
Theorem get_pos_with_dist_spec (draws : list pos) (pac : pos) (mn mx : Z) :
  match Base.get_pos_with_dist draws pac mn mx with
  | Some (p, rest) =>
      exists skipped,
        draws = skipped ++ p :: rest
        /\ mn ^ 2 <= Base.dist_sqr p pac <= mx ^ 2
        /\ Forall (fun d => Base.off_band d pac mn mx = true) skipped
  | None => Forall (fun d => Base.off_band d pac mn mx = true) draws
  end.
Proof.
  induction draws as [|d draws IH]; cbn [Base.get_pos_with_dist].
  - constructor.
  - destruct (Base.off_band d pac mn mx) eqn:E.
    + destruct (Base.get_pos_with_dist draws pac mn mx) as [[p rest]|].
      * destruct IH as (skipped & -> & Hb & Hs).
        exists (d :: skipped). split; [reflexivity|]. split; [exact Hb|].
        now constructor.
      * now constructor.
    + exists []. split; [reflexivity|]. split; [|constructor].
      now apply off_band_false.
Qed.

Lemma get_pos_with_dist_some draws pac mn mx p rest :
  Base.get_pos_with_dist draws pac mn mx = Some (p, rest) ->
  mn ^ 2 <= Base.dist_sqr p pac <= mx ^ 2
  /\ p ∈ draws /\ forall x, x ∈ rest -> x ∈ draws.
Proof.
  revert p rest.
  induction draws as [|d draws IH]; intros p rest H;
    cbn [Base.get_pos_with_dist] in H; [discriminate|].
  destruct (Base.off_band d pac mn mx) eqn:E.
  - destruct (IH p rest H) as (Hb & Hp & Hr).
    split; [exact Hb|]. split.
    + now apply list_elem_of_further.
    + intros x Hx. apply list_elem_of_further. now apply Hr.
  - injection H as <- <-. split; [now apply off_band_false|]. split.
    + apply list_elem_of_here.
    + intros x Hx. now apply list_elem_of_further.
Qed.

(** A random start that comes to an end puts Pacman on the first drawn
    cell and every ghost on a drawn cell whose squared distance to
    Pacman is between 36 and 144; nothing else of the game state is
    touched. *)
Theorem random_placement_spec (draws : list pos) gs gs' :
  Base.random_placement draws gs = Some gs' ->
  head draws = Some (pacbot_pos gs')
  /\ Forall (fun g => g ∈ draws
                      /\ 36 <= Base.dist_sqr g (pacbot_pos gs') <= 144)
            (SemanticChannel.ghost_positions gs')
  /\ grid gs' = grid gs /\ score gs' = score gs /\ play gs' = play gs
  /\ lives gs' = lives gs.
Proof.
  unfold Base.random_placement. destruct draws as [|pac draws]; [discriminate|].
  destruct (Base.get_pos_with_dist draws pac 6 12) as [[r d1]|] eqn:E1;
    [|discriminate]. cbn [mbind option_bind].
  destruct (Base.get_pos_with_dist d1 pac 6 12) as [[k d2]|] eqn:E2;
    [|discriminate]. cbn [mbind option_bind].
  destruct (Base.get_pos_with_dist d2 pac 6 12) as [[o d3]|] eqn:E3;
    [|discriminate]. cbn [mbind option_bind].
  destruct (Base.get_pos_with_dist d3 pac 6 12) as [[b d4]|] eqn:E4;
    [|discriminate]. cbn [mbind option_bind].
  intros [= <-].
  apply get_pos_with_dist_some in E1, E2, E3, E4.
  destruct E1 as (B1 & I1 & R1), E2 as (B2 & I2 & R2),
           E3 as (B3 & I3 & R3), E4 as (B4 & I4 & R4).
  split; [reflexivity|].
  split; [|split; [reflexivity|split; [reflexivity|split; reflexivity]]].
  unfold SemanticChannel.ghost_positions.
  cbn [Base.set_ghosts pacbot_update red_current pink_current orange_current
       blue_current pacbot_pos].
  change (6 ^ 2) with 36 in B1, B2, B3, B4.
  change (12 ^ 2) with 144 in B1, B2, B3, B4.
  assert (J1 : r ∈ pac :: draws) by now apply list_elem_of_further.
  assert (J2 : k ∈ pac :: draws) by (apply list_elem_of_further; auto).
  assert (J3 : o ∈ pac :: draws) by (apply list_elem_of_further; auto).
  assert (J4 : b ∈ pac :: draws) by (apply list_elem_of_further; auto).
  rewrite !Forall_cons. repeat (split; [now split|]). constructor.
Qed.

Lemma random_placement_spec_witness :
  Forall (fun g => 36 <= Base.dist_sqr g (5, 5) <= 144)
    [(5, 11); (11, 5); (13, 5); (5, 17)].
Proof.
  destruct (random_placement_spec
              [(5, 5); (5, 6); (5, 11); (11, 5); (20, 20); (13, 5); (5, 17)]
              Demo.demo_state
              (Base.set_ghosts (pacbot_update Demo.demo_state (5, 5))
                 (5, 11) (11, 5) (13, 5) (5, 17)))
    as (_ & H & _); [reflexivity|].
  eapply Forall_impl; [exact H|]. intros g [_ Hg]. exact Hg.
Defined.

(** ** Resets *)



Lemma clear_trails_result (self : SelfAttention.env) :
  let gs := SelfAttention.game_state self in
  gs_wf gs = true ->
  exists e,
    SelfAttention.clear_trails self
    = (Ok tt,
       {| SelfAttention.game_state := gs;
          SelfAttention.last_score := SelfAttention.last_score self;
          SelfAttention.ticks_per_step := SelfAttention.ticks_per_step self;
          SelfAttention.entities := e;
          SelfAttention.pacman := Np.zeros2 (grid gs) |})
    /\ planes 4 e
    /\ forall (i : nat) (p q : pos),
         [red_current gs; blue_current gs; pink_current gs; orange_current gs]
           !! i = Some p ->
         in_grid q = true ->
         at3 e i q.1 q.2 = Some (mark (bool_decide (q = p))).
Proof.
  intros gs Hwf. apply gs_wf_parts in Hwf.
  destruct Hwf as (Hg & Hp & Hr & Hk & Ho & Hb). fold gs in Hg, Hp, Hr, Hk, Ho, Hb.
  pose proof (planes_zeros3 4 (grid gs) Hg) as E0.
  destruct (setitem3_in_grid_at 4 _ 0 (red_current gs) Float.one E0 ltac:(lia) Hr)
    as (e1 & Ee1 & E1 & A1).
  destruct (setitem3_in_grid_at 4 _ 1 (blue_current gs) Float.one E1 ltac:(lia) Hb)
    as (e2 & Ee2 & E2 & A2).
  destruct (setitem3_in_grid_at 4 _ 2 (pink_current gs) Float.one E2 ltac:(lia) Hk)
    as (e3 & Ee3 & E3 & A3).
  destruct (setitem3_in_grid_at 4 _ 3 (orange_current gs) Float.one E3 ltac:(lia) Ho)
    as (e4 & Ee4 & E4 & A4).
  exists e4. split; [|split; [exact E4|]].
  - unfold SelfAttention.clear_trails.
    unfold mbind, M_bind, St.get, St.put.
    unfold SelfAttention.set_entities, SelfAttention.set_pacman.
    cbn [SelfAttention.game_state SelfAttention.entities SelfAttention.pacman
         SelfAttention.last_score SelfAttention.ticks_per_step].
    fold gs.
    change (enumerate [red_current gs; blue_current gs; pink_current gs;
                       orange_current gs])
      with [(0, red_current gs); (1, blue_current gs); (2, pink_current gs);
            (3, orange_current gs)].
    cbn [foldM_st].
    unfold mbind, M_bind, mret, M_ret, St.get, St.put, St.lift.
    cbn [SelfAttention.game_state SelfAttention.entities SelfAttention.pacman
         SelfAttention.last_score SelfAttention.ticks_per_step].
    rewrite Ee1.
    cbn [SelfAttention.game_state SelfAttention.entities SelfAttention.pacman
         SelfAttention.last_score SelfAttention.ticks_per_step].
    rewrite Ee2.
    cbn [SelfAttention.game_state SelfAttention.entities SelfAttention.pacman
         SelfAttention.last_score SelfAttention.ticks_per_step].
    rewrite Ee3.
    cbn [SelfAttention.game_state SelfAttention.entities SelfAttention.pacman
         SelfAttention.last_score SelfAttention.ticks_per_step].
    rewrite Ee4. reflexivity.
  - intros i p q Hi Hq.
    assert (Hi4 : (i < 4)%nat) by (apply lookup_lt_Some in Hi; exact Hi).
    rewrite A4, A3, A2, A1 by assumption.
    rewrite at3_zeros3 by (assumption || lia).
    rewrite !bool_decide_plane.
    change (Z.to_nat 0) with 0%nat. change (Z.to_nat 1) with 1%nat.
    change (Z.to_nat 2) with 2%nat. change (Z.to_nat 3) with 3%nat.
    destruct i as [|[|[|[|i]]]]; [| | | |lia];
      cbn [lookup list_lookup] in Hi; injection Hi as <-;
      cbn [Nat.eqb andb]; now destruct (bool_decide _).
Qed.

(** A reset of Variant D starts the trails afresh, but marks the ghosts
    before the engine restarts: once the reset has returned, the stored
    Pacman trail is 1 on Pacman's cell and 0 elsewhere, while each
    stored ghost trail is 1 on the ghost's new cell and already shows
    0.5 on the cell the ghost stood on before the reset. *)
Theorem attention_reset_trails V math_log np_log restart unpause
    (random_start : bool) (draws : list pos) (self : SelfAttention.env) gsp :
  let gs0 := SelfAttention.game_state self in
  let gs' := unpause gsp in
  (if random_start then Base.random_placement draws (restart gs0)
   else Some (restart gs0)) = Some gsp ->
  gs_wf gs0 = true -> gs_wf gs' = true -> phase_wf gs' = true ->
  0 < ghost_score V ->
  exists obs mask self',
    SelfAttention.reset V math_log np_log restart unpause random_start draws self
    = Some (Ok (obs, mask), self')
    /\ Base.action_mask gs' = Ok mask
    /\ SelfAttention.game_state self' = gs'
    /\ SelfAttention.last_score self' = 0
    /\ forall q : pos, in_grid q = true ->
         at2 (SelfAttention.pacman self') q.1 q.2
         = Some (mark (bool_decide (q = pacbot_pos gs')))
         /\ forall (i : nat) p p0,
              [red_current gs'; blue_current gs'; pink_current gs';
               orange_current gs'] !! i = Some p ->
              [red_current gs0; blue_current gs0; pink_current gs0;
               orange_current gs0] !! i = Some p0 ->
              at3 (SelfAttention.entities self') i q.1 q.2
              = Some (if bool_decide (q = p) then Float.one
                      else if bool_decide (q = p0) then Float.half
                           else Float.zero).
Proof.
  intros gs0 gs' Hpl Hwf0 Hwf Hph Hgh.
  destruct (clear_trails_result self Hwf0) as (e & Hclear & He & Ae).
  fold gs0 in Hclear, Ae.
  pose proof (gs_wf_parts _ Hwf0) as (Hg0 & _).
  pose proof (gs_wf_parts _ Hwf) as (Hg & Hp & _).
  set (self1 :=
         {| SelfAttention.game_state := gs';
            SelfAttention.last_score := 0;
            SelfAttention.ticks_per_step := SelfAttention.ticks_per_step self;
            SelfAttention.entities := e;
            SelfAttention.pacman := Np.zeros2 (grid gs0) |}).
  assert (Hent : planes_wf 4 e = true) by now apply planes_wf_planes.
  assert (Hpac : plane_wf (Np.zeros2 (grid gs0)) = true).
  { apply plane_wf_shape. unfold Np.zeros2. now rewrite shape2_map2d. }
  destruct (attention_create_obs_trails_result V math_log np_log self1 Hwf Hph Hent Hpac Hgh)
    as (obs & self' & Hobs & _ & Hgs & Hls & _ & At).
  destruct (action_mask_result gs' ltac:(now apply plane_wf_shape) Hp)
    as (mask & Hmask & _).
  exists obs, mask, self'.
  split; [|split; [exact Hmask|split; [exact Hgs|split; [exact Hls|]]]].
  - unfold SelfAttention.reset. rewrite Hclear. unfold Base.reset.
    unfold SelfAttention.set_game_state, SelfAttention.set_last_score.
    cbn [SelfAttention.game_state SelfAttention.entities SelfAttention.pacman
         SelfAttention.last_score SelfAttention.ticks_per_step].
    rewrite Hpl. cbn [mbind option_bind]. fold gs'. fold self1.
    rewrite Hobs. cbn [Base.and_then].
    unfold mbind, M_bind, mret, M_ret, St.get, St.lift.
    rewrite Hgs. cbn [self1 SelfAttention.game_state]. now rewrite Hmask.
  - intros q Hq. destruct (At q Hq) as (A0 & Apm & Aent).
    cbn [self1 SelfAttention.game_state SelfAttention.pacman
         SelfAttention.entities] in A0, Apm, Aent.
    split.
    + rewrite Apm, A0. fold gs'.
      destruct (bool_decide (q = pacbot_pos gs')); [reflexivity|].
      unfold Np.zeros2. rewrite at2_map2d.
      destruct (plane_cell (grid gs0) q Hg0 Hq) as (col & x & Hcol & Hx & _).
      unfold at2. now rewrite Hcol, Hx.
    + intros i p p0 Hi Hi0.
      destruct (Aent i p Hi) as (Aobs & Astore).
      rewrite Astore, Aobs, (Ae i p0 q Hi0 Hq).
      destruct (bool_decide (q = p)); [reflexivity|].
      now destruct (bool_decide (q = p0)).
Qed.

(** The restart moves the red ghost from (1, 1) to (2, 2): after the
    reset its trail holds 1 on (2, 2) and 0.5 on (1, 1). *)
Lemma attention_reset_trails_witness :
  exists obs mask self',
    SelfAttention.reset Demo.demo_variables Demo.demo_math_log
      Demo.demo_np_log Demo.moving_restart Demo.idle_engine false []
      Demo.attention_env = Some (Ok (obs, mask), self')
    /\ at3 (SelfAttention.entities self') 0 2 2 = Some Float.one
    /\ at3 (SelfAttention.entities self') 0 1 1 = Some Float.half.
Proof.
  destruct (attention_reset_trails Demo.demo_variables Demo.demo_math_log
              Demo.demo_np_log Demo.moving_restart Demo.idle_engine false []
              Demo.attention_env (Demo.moving_restart Demo.demo_state))
    as (obs & mask & self' & Hr & _ & _ & _ & At);
    [reflexivity | reflexivity | reflexivity | reflexivity | reflexivity |].
  exists obs, mask, self'. split; [exact Hr|].
  destruct (At (2, 2)) as (_ & H1); [reflexivity|].
  destruct (At (1, 1)) as (_ & H2); [reflexivity|].
  split.
  - exact (H1 0%nat (2, 2) (1, 1) eq_refl eq_refl).
  - exact (H2 0%nat (2, 2) (1, 1) eq_refl eq_refl).
Defined.

(** A reset of Variant A sets [last_score] to 0, takes the restarted and
    unpaused game state as its own and returns the observation and the
    action mask of that state. *)
Theorem naive_reset_spec V restart unpause (random_start : bool)
    (draws : list pos) (self : Naive.env) gsp :
  let gs' := unpause gsp in
  (if random_start
   then Base.random_placement draws (restart (Naive.game_state self))
   else Some (restart (Naive.game_state self))) = Some gsp ->
  gs_wf gs' = true ->
  exists obs mask,
    Naive.reset V restart unpause random_start draws self
    = Some (Ok (obs, mask),
            {| Naive.game_state := gs'; Naive.last_score := 0;
               Naive.ticks_per_step := Naive.ticks_per_step self |})
    /\ Base.action_mask gs' = Ok mask
    /\ at3 obs 1 (pacbot_pos gs').1 (pacbot_pos gs').2 = Some Float.one.
Proof.
  intros gs' Hpl Hwf.
  pose proof (gs_wf_parts _ Hwf) as (Hg & Hp & _).
  set (self1 := {| Naive.game_state := gs'; Naive.last_score := 0;
                   Naive.ticks_per_step := Naive.ticks_per_step self |}).
  destruct (naive_create_obs_result V self1 Hwf) as (obs & Hobs & Hat).
  destruct (action_mask_result gs' ltac:(now apply plane_wf_shape) Hp)
    as (mask & Hmask & _).
  exists obs, mask. split; [|split; [exact Hmask | exact Hat]].
  unfold Naive.reset, Base.reset.
  unfold Naive.set_game_state, Naive.set_last_score.
  cbn [Naive.game_state Naive.last_score Naive.ticks_per_step].
  rewrite Hpl. cbn [mbind option_bind]. fold gs'. fold self1.
  rewrite Hobs. cbn [Base.and_then].
  unfold mbind, M_bind, mret, M_ret, St.get, St.lift.
  cbn [self1 Naive.game_state]. now rewrite Hmask.
Qed.

Lemma naive_reset_spec_witness :
  exists obs mask,
    Naive.reset Demo.demo_variables Demo.moving_restart Demo.idle_engine
      false [] (Naive.set_last_score Demo.naive_env 70)
    = Some (Ok (obs, mask),
            {| Naive.game_state := Demo.moving_restart Demo.demo_state;
               Naive.last_score := 0; Naive.ticks_per_step := 8 |})
    /\ mask = [0; 1; 0; 0; 0].
Proof.
  destruct (naive_reset_spec Demo.demo_variables Demo.moving_restart
              Demo.idle_engine false []
              (Naive.set_last_score Demo.naive_env 70)
              (Demo.moving_restart Demo.demo_state))
    as (obs & mask & Hr & Hm & _); [reflexivity | reflexivity |].
  exists obs, mask. split; [exact Hr|].
  cbv in Hm. now injection Hm.
Defined.

(** A reset of Variant C that finds Pacman and the power-pellet cells
    on nodes returns the observation of the new game state and leaves
    [last_score] at 0 and [last_ghost_pos] on the ghosts' cells. *)
Theorem semantic_reset_spec V coords emb dist restart unpause
    (random_start : bool) (draws : list pos) (self : Semantic.env) gsp :
  let gs' := unpause gsp in
  (if random_start
   then Base.random_placement draws (restart (Semantic.game_state self))
   else Some (restart (Semantic.game_state self))) = Some gsp ->
  tables_wf coords emb dist = true ->
  plane_wf (grid gs') = true -> on_nodes coords gs' = true ->
  exists obs,
    Semantic.reset V coords emb dist restart unpause random_start draws self
    = Some (Ok obs,
            {| Semantic.game_state := gs'; Semantic.last_score := 0;
               Semantic.ticks_per_step := Semantic.ticks_per_step self;
               Semantic.last_ghost_pos := SemanticChannel.ghost_positions gs' |})
    /\ length obs = (3 * Semantic.embed_dim emb + 5 + 5 + 2)%nat.
Proof.
  intros gs' Hpl Hwf Hg Hon.
  set (self1 := {| Semantic.game_state := gs'; Semantic.last_score := 0;
                   Semantic.ticks_per_step := Semantic.ticks_per_step self;
                   Semantic.last_ghost_pos := Semantic.last_ghost_pos self |}).
  destruct (semantic_create_obs_result V coords emb dist self1 Hwf Hg Hon)
    as (obs & Hobs & Hlen).
  exists obs. split; [|exact Hlen].
  unfold Semantic.reset, Base.reset.
  unfold Semantic.set_game_state, Semantic.set_last_score,
    Semantic.set_last_ghost_pos.
  cbn [Semantic.game_state Semantic.last_score Semantic.ticks_per_step
       Semantic.last_ghost_pos].
  rewrite Hpl. cbn [mbind option_bind]. fold gs'. fold self1.
  rewrite Hobs. reflexivity.
Qed.

Lemma semantic_reset_spec_witness :
  exists obs,
    Semantic.reset Demo.demo_variables Demo.demo_node_to_coords
      Demo.demo_node_embeddings Demo.demo_action_distributions
      Demo.idle_engine Demo.idle_engine false [] Demo.semantic_env
    = Some (Ok obs,
            Semantic.set_last_ghost_pos Demo.semantic_env
              (SemanticChannel.ghost_positions Demo.demo_state))
    /\ length obs = 18%nat.
Proof.
  apply (semantic_reset_spec Demo.demo_variables Demo.demo_node_to_coords
           Demo.demo_node_embeddings Demo.demo_action_distributions
           Demo.idle_engine Demo.idle_engine false [] Demo.semantic_env
           Demo.demo_state); reflexivity.
Defined.
